(** * ActivityWatch analytics pipeline (scripts/aw_analytics_export.py,
      scripts/aw_notion_sync.py): a shallow embedding in Rocq.

    Modelling conventions.
    - Instants and durations are exact integers of microseconds ([Z]).
      Python keeps durations as floats; their rounding is not modelled, all
      arithmetic below is exact.  One second is [SEC] ticks.
    - Python dicts (insertion ordered) are association lists; Python sets
      used only for membership are lists.
    - Library functions the scripts call but that are not part of the
      repository ([datetime.fromisoformat], [datetime.isoformat], the zone's
      UTC offset, [urlparse(...).netloc]) are section variables, so every
      theorem holds for each of their implementations. *)

From Stdlib Require Import ZArith Lia List String Ascii Bool.
From Stdlib Require Import Permutation Sorted DecimalZ.
Import ListNotations.
Open Scope Z_scope.

(** ** Interval Merger: [merge_intervals] *)
Module Intervals.

(** An interval [(start, end)]; it stands for the half-open span
    [[start, end)]. *)
Definition interval := (Z * Z)%type.

(** [sorted(intervals, key=lambda x: x[0])]: Python's sort is stable, and a
    stable sort by a key has a unique result, so a stable insertion sort is
    a faithful model. *)
Fixpoint insert_by_start (x : interval) (l : list interval) : list interval :=
  match l with
  | [] => [x]
  | y :: l' => if fst x <=? fst y then x :: y :: l' else y :: insert_by_start x l'
  end.

Fixpoint sort_by_start (l : list interval) : list interval :=
  match l with
  | [] => []
  | x :: l' => insert_by_start x (sort_by_start l')
  end.

(** The loop of [merge_intervals]: [last] is [merged[-1]], the entries before
    it are never touched again. *)
Fixpoint merge_scan (last : interval) (rest : list interval) : list interval :=
  match rest with
  | [] => [last]
  | (start, end_) :: rest' =>
      if start <=? snd last
      then merge_scan (fst last, Z.max (snd last) end_) rest'
      else last :: merge_scan (start, end_) rest'
  end.

Definition merge_intervals (intervals : list interval) : list interval :=
  match sort_by_start intervals with
  | [] => []
  | first :: rest => merge_scan first rest
  end.

(** Point [t] lies in the half-open interval [i]. *)
Definition covers (i : interval) (t : Z) : Prop := fst i <= t /\ t < snd i.

Definition covered (l : list interval) (t : Z) : Prop :=
  exists i, In i l /\ covers i t.

Definition well_formed (i : interval) : Prop := fst i <= snd i.

Definition start_le (a b : interval) : Prop := fst a <= fst b.

(** [a] ends strictly before [b] starts: they neither overlap nor touch. *)
Definition separated (a b : interval) : Prop := snd a < fst b.

(** No time point lies in both intervals. *)
Definition disjoint (a b : interval) : Prop := forall t, ~ (covers a t /\ covers b t).

End Intervals.

(** ** String helpers (Python [str] methods on ASCII text) *)
Module Str.
Local Open Scope string_scope.

Definition newline : string := String (Ascii.ascii_of_nat 10) EmptyString.

(** [c.lower()] on an ASCII character. *)
Definition lower_ascii (c : ascii) : ascii :=
  let n := nat_of_ascii c in
  if (65 <=? n)%nat && (n <=? 90)%nat then ascii_of_nat (n + 32) else c.

Definition upper_ascii (c : ascii) : ascii :=
  let n := nat_of_ascii c in
  if (97 <=? n)%nat && (n <=? 122)%nat then ascii_of_nat (n - 32) else c.

(** A cased character, in the sense of [str.title]. *)
Definition is_cased (c : ascii) : bool :=
  let n := nat_of_ascii c in
  ((65 <=? n)%nat && (n <=? 90)%nat) || ((97 <=? n)%nat && (n <=? 122)%nat).

(** [s.lower()] *)
Fixpoint lower (s : string) : string :=
  match s with
  | EmptyString => EmptyString
  | String c s' => String (lower_ascii c) (lower s')
  end.

(** [s.title()]: a cased character is upper-cased after an uncased one and
    lower-cased after a cased one. *)
Fixpoint title_from (prev_cased : bool) (s : string) : string :=
  match s with
  | EmptyString => EmptyString
  | String c s' =>
      if is_cased c
      then String (if prev_cased then lower_ascii c else upper_ascii c) (title_from true s')
      else String c (title_from false s')
  end.

Definition title (s : string) : string := title_from false s.

(** [s.startswith(p)] *)
Definition startswith (s p : string) : bool := String.prefix p s.

(** [s.endswith(p)] *)
Definition endswith (s p : string) : bool :=
  let n := String.length s in
  let m := String.length p in
  (m <=? n)%nat && String.eqb (substring (n - m) m s) p.

(** [needle in hay] *)
Fixpoint contains (needle hay : string) : bool :=
  String.prefix needle hay ||
  match hay with
  | EmptyString => false
  | String _ hay' => contains needle hay'
  end.

(** [s.replace(c, r)] for a one-character pattern [c]. *)
Fixpoint replace_char (c : ascii) (r s : string) : string :=
  match s with
  | EmptyString => EmptyString
  | String d s' => if Ascii.eqb c d then r ++ replace_char c r s' else String d (replace_char c r s')
  end.

Definition drop (n : nat) (s : string) : string := substring n (String.length s - n) s.

(** The characters of [s] up to its first ["_"], and the rest from there. *)
Fixpoint split_at_underscore (s : string) : string * string :=
  match s with
  | EmptyString => (EmptyString, EmptyString)
  | String c s' =>
      if Ascii.eqb c "_"%char then (EmptyString, s)
      else let (a, b) := split_at_underscore s' in (String c a, b)
  end.

(** [s.split(".")[0]] *)
Fixpoint before_dot (s : string) : string :=
  match s with
  | EmptyString => EmptyString
  | String c s' => if Ascii.eqb c "."%char then EmptyString else String c (before_dot s')
  end.

End Str.

(** ** Events and hosts *)
Module AW.
Export Intervals.
Local Open Scope string_scope.
Local Open Scope Z_scope.

(** An ActivityWatch event as the scripts read it.  Fields absent from the
    JSON record take the default the code supplies at each read:
    [event.get("_bucket", "")], [event.get("timestamp", "")],
    [event.get("duration", 0) or 0]; the [data] fields are [None] when
    absent. *)
Record Event := mkEvent {
  ev_bucket : string;
  ev_timestamp : string;
  ev_duration : Z;
  ev_app : option string;
  ev_title : option string;
  ev_url : option string;
  ev_status : option string
}.

Definition with_timestamp_duration (e : Event) (ts : string) (d : Z) : Event :=
  mkEvent (ev_bucket e) ts d (ev_app e) (ev_title e) (ev_url e) (ev_status e).

Definition with_duration (e : Event) (d : Z) : Event :=
  with_timestamp_duration e (ev_timestamp e) d.

Definition with_bucket (e : Event) (b : string) : Event :=
  mkEvent b (ev_timestamp e) (ev_duration e) (ev_app e) (ev_title e) (ev_url e) (ev_status e).

(** [data.get(field, "")] *)
Definition data_or_empty (o : option string) : string :=
  match o with Some v => v | None => "" end.

(** The group [(.+)$] of Python's [re]: [.] matches anything but a newline
    and [$] also matches before one final newline. *)
Definition rest_group (rest : string) : option string :=
  let r := if Str.endswith rest Str.newline
           then substring 0 (String.length rest - 1) rest else rest in
  if (String.length r =? 0)%nat || Str.contains Str.newline r then None else Some r.

(** [re.match(r"^aw-watcher-web(?:-[^_]+)?_(.+)$", ...)] applied to the text
    after ["aw-watcher-web"]. *)
Definition web_suffix_host (r : string) : option string :=
  match r with
  | String c r' =>
      if Ascii.eqb c "-"%char then
        let (x, tl) := Str.split_at_underscore r' in
        match x, tl with
        | String _ _, String _ rest => rest_group rest
        | _, _ => None
        end
      else if Ascii.eqb c "_"%char then rest_group r'
      else None
  | EmptyString => None
  end.

Definition extract_host_from_bucket (bucket_name : string) : option string :=
  if String.eqb bucket_name "" then None else
  match (if Str.startswith bucket_name "aw-watcher-window_"
         then rest_group (Str.drop 18 bucket_name) else None) with
  | Some h => Some h
  | None =>
    match (if Str.startswith bucket_name "aw-watcher-afk_"
           then rest_group (Str.drop 15 bucket_name) else None) with
    | Some h => Some h
    | None =>
        if Str.startswith bucket_name "aw-watcher-web"
        then web_suffix_host (Str.drop 14 bucket_name) else None
    end
  end.

(** One second, one hour and one day in microseconds. *)
Definition SEC : Z := 1000000.
Definition HOUR : Z := 3600 * SEC.
Definition DAY : Z := 24 * HOUR.

(** A Python dict keyed by strings, in insertion order. *)
Fixpoint lookup {V} (k : string) (d : list (string * V)) : option V :=
  match d with
  | [] => None
  | (k', v) :: d' => if String.eqb k k' then Some v else lookup k d'
  end.

(** [d[k].append(v)] on a [defaultdict(list)] in insertion order. *)
Fixpoint dict_append {K V} (eqb : K -> K -> bool) (k : K) (v : V)
    (d : list (K * list V)) : list (K * list V) :=
  match d with
  | [] => [(k, [v])]
  | (k', vs) :: d' =>
      if eqb k k' then (k', (vs ++ [v])%list) :: d' else (k', vs) :: dict_append eqb k v d'
  end.

(** *** Classification tables (aw_analytics_export.py).  Sets are lists
    used for membership only; dicts keep their source order. *)

Definition TERMINAL_APPS : list string :=
  ["kitty"; "terminal"; "iterm2"; "alacritty"; "warp"; "hyper"; "wezterm";
   "gnome-terminal"; "konsole"; "xterm";
   "windowsterminal"; "powershell"; "pwsh"; "cmd"; "conhost"; "windows terminal"].

Definition TERMINAL_TOOL_PATTERNS : list (string * string) :=
  [("✳ ", "Claude Code"); ("⠐ ", "Claude Code"); ("⠂ ", "Claude Code");
   ("claude code", "Claude Code");
   ("opencode", "OpenCode"); ("oc |", "OpenCode"); ("oc:", "OpenCode");
   ("| opencode", "OpenCode");
   ("nvim", "Neovim"); ("neovim", "Neovim"); ("vim", "Vim"); ("hx ", "Helix");
   ("helix", "Helix");
   ("lazygit", "LazyGit"); ("lazydocker", "LazyDocker");
   ("htop", "htop"); ("btop", "btop");
   ("aider", "Aider"); ("gemini-cli", "Gemini CLI"); ("goose", "Goose");
   ("ssh ", "SSH"); ("kitten ssh", "SSH"); ("[ssh:", "SSH")].

(** The set [AI_CHAT_SITES], listed in source order. *)
Definition AI_CHAT_SITES : list string :=
  ["chatgpt.com"; "chat.openai.com"; "claude.ai"; "gemini.google.com";
   "bard.google.com"; "aistudio.google.com"; "grok.com"; "perplexity.ai";
   "www.perplexity.ai"; "t3.chat"; "poe.com"; "you.com"; "phind.com";
   "chat.mistral.ai"; "huggingface.co/chat"; "pi.ai"; "character.ai";
   "copilot.microsoft.com"].

Definition AI_CHAT_APPS : list string := ["claude"; "chatgpt"].

Definition PLANNING_APPS : list string :=
  ["notion"; "logseq"; "obsidian"; "roam"; "craft"; "bear"; "apple notes"; "notes";
   "evernote"; "onenote"; "remnote"; "anytype"; "capacities"; "miro"; "whimsical";
   "excalidraw"; "tldraw"; "figjam"].

Definition CODING_APPS : list string :=
  ["kitty"; "terminal"; "iterm2"; "alacritty"; "warp"; "hyper"; "wezterm";
   "windowsterminal"; "powershell"; "pwsh"; "cmd"; "conhost";
   "code"; "vscode"; "visual studio code"; "code - insiders"; "windsurf"; "cursor";
   "vim"; "nvim"; "neovim"; "emacs"; "nano"; "xcode"; "android studio"; "eclipse";
   "notepad++";
   "docker"; "postman"; "insomnia"; "dbeaver"; "tableplus"; "sequel pro"; "pgadmin"].

Definition DEV_TOOL_SITES : list (string * string) :=
  [("colab.research.google.com", "Google Colab")].

Definition EXCLUDED_APPS : list string :=
  ["loginwindow"; "screensaverengine"; "screeninactivity";
   "explorer"; "searchhost"; "shellexperiencehost"; "lockapp"; "systemsettings"].

(** [x in S] for a set [S]. *)
Definition mem (x : string) (l : list string) : bool := existsb (String.eqb x) l.

Definition normalize_app_name (app : string) : string :=
  let app := Str.lower app in
  if Str.endswith app ".exe" then substring 0 (String.length app - 4) app else app.

Fixpoint first_pattern (title_lower : string) (patterns : list (string * string))
    : option string :=
  match patterns with
  | [] => None
  | (pattern, tool_name) :: ps =>
      if Str.contains pattern title_lower then Some tool_name
      else first_pattern title_lower ps
  end.

Definition detect_terminal_tool (title : string) : option string :=
  first_pattern (Str.lower title) TERMINAL_TOOL_PATTERNS.

(** The label chosen for the first matching site. *)
Definition ai_site_label (ai_site : string) : string :=
  if Str.contains "chatgpt" ai_site || Str.contains "openai" ai_site then "ChatGPT"
  else if Str.contains "claude" ai_site then "Claude"
  else if Str.contains "gemini" ai_site || Str.contains "bard" ai_site then "Gemini"
  else if Str.contains "grok" ai_site then "Grok"
  else if Str.contains "perplexity" ai_site then "Perplexity"
  else if Str.contains "aistudio" ai_site then "AI Studio"
  else if Str.contains "t3.chat" ai_site then "T3"
  else if Str.contains "copilot" ai_site then "Copilot"
  else if Str.contains "phind" ai_site then "Phind"
  else if Str.contains "poe" ai_site then "Poe"
  else Str.title (Str.before_dot ai_site).

(** The loop of [get_ai_chat_name] over the sites, in iteration order. *)
Fixpoint ai_chat_name_from (sites : list string) (domain_lower : string) : option string :=
  match sites with
  | [] => None
  | ai_site :: rest =>
      if Str.contains ai_site domain_lower || Str.endswith domain_lower ai_site
      then Some (ai_site_label ai_site)
      else ai_chat_name_from rest domain_lower
  end.

(** A time breakdown: [defaultdict(float)] label -> seconds. *)
Definition breakdown := list (string * Z).

(** [d[k] += v] *)
Fixpoint bd_add (k : string) (v : Z) (d : breakdown) : breakdown :=
  match d with
  | [] => [(k, v)]
  | (k', v') :: d' => if String.eqb k k' then (k', v' + v) :: d' else (k', v') :: bd_add k v d'
  end.

(** [sum(d.values())] *)
Fixpoint sum_values (d : breakdown) : Z :=
  match d with
  | [] => 0
  | (_, v) :: d' => v + sum_values d'
  end.

Record Totals := mkTotals {
  dev_time : Z; planning_time : Z; ai_chat_time : Z; active_time : Z }.

Record Aggregate := mkAggregate {
  dev_tools : breakdown; ai_chats : breakdown; planning_apps : breakdown;
  top_apps : breakdown; totals : Totals }.

(** The four breakdowns while [aggregate_day_data] accumulates them. *)
Record Acc := mkAcc { acc_dev : breakdown; acc_ai : breakdown; acc_plan : breakdown;
                      acc_all : breakdown }.

Definition set_dev a d := mkAcc d (acc_ai a) (acc_plan a) (acc_all a).
Definition set_ai a d := mkAcc (acc_dev a) d (acc_plan a) (acc_all a).
Definition set_plan a d := mkAcc (acc_dev a) (acc_ai a) d (acc_all a).
Definition set_all a d := mkAcc (acc_dev a) (acc_ai a) (acc_plan a) d.

Section Pipeline.

(** [datetime.fromisoformat]: the instant denoted, in microseconds since the
    epoch, or [None] when it raises [ValueError]. *)
Variable fromisoformat : string -> option Z.
(** [datetime.isoformat] of an instant converted to TARGET_TZ. *)
Variable isoformat : Z -> string.
(** The UTC offset of TARGET_TZ at an instant, in microseconds. *)
Variable utc_offset : Z -> Z.
(** [urlparse(url).netloc] *)
Variable url_netloc : string -> string.
(** The iteration order of the set [AI_CHAT_SITES]: Python does not fix it. *)
Variable ai_chat_sites : list string.

(** [parse_timestamp]: [astimezone] keeps the instant, so the result is the
    instant; [None] stands for the exception. *)
Definition parse_timestamp (ts_str : string) : option Z :=
  fromisoformat (Str.replace_char "Z"%char "+00:00" ts_str).

Inductive time_range := NoRange | Range (start end_ : Z).

(** [get_event_time_range]; [None] when [parse_timestamp] raises. *)
Definition get_event_time_range (event : Event) : option time_range :=
  if String.eqb (ev_timestamp event) "" then Some NoRange else
  match parse_timestamp (ev_timestamp event) with
  | None => None
  | Some start => Some (Range start (start + ev_duration event))
  end.

(** The dict host -> Active Period Set. *)
Definition period_map := list (string * list interval).

(** The inner loop of [filter_events_by_afk] over the host's periods. *)
Fixpoint clip_to_periods (event : Event) (event_start event_end : Z)
    (periods : list interval) : list Event :=
  match periods with
  | [] => []
  | (active_start, active_end) :: ps =>
      let overlap_start := Z.max event_start active_start in
      let overlap_end := Z.min event_end active_end in
      if overlap_start <? overlap_end
      then with_timestamp_duration event (isoformat overlap_start) (overlap_end - overlap_start)
           :: clip_to_periods event event_start event_end ps
      else clip_to_periods event event_start event_end ps
  end.

(** The body of the loop of [filter_events_by_afk] for one event: the events
    it appends, or [None] when it raises. *)
Definition filter_event (not_afk_periods_by_host : period_map) (event : Event)
    : option (list Event) :=
  match extract_host_from_bucket (ev_bucket event) with
  | None => Some [event]
  | Some host =>
      match lookup host not_afk_periods_by_host with
      | None => Some [event]
      | Some [] => Some []
      | Some host_periods =>
          match get_event_time_range event with
          | None => None
          | Some NoRange => Some []
          | Some (Range event_start event_end) =>
              Some (clip_to_periods event event_start event_end host_periods)
          end
      end
  end.

Fixpoint filter_loop (not_afk_periods_by_host : period_map) (events : list Event)
    : option (list Event) :=
  match events with
  | [] => Some []
  | event :: rest =>
      match filter_event not_afk_periods_by_host event with
      | None => None
      | Some out =>
          match filter_loop not_afk_periods_by_host rest with
          | None => None
          | Some out' => Some (out ++ out')%list
          end
      end
  end.

Definition filter_events_by_afk (events : list Event) (not_afk_periods_by_host : period_map)
    : option (list Event) :=
  match events with
  | [] => Some []
  | _ =>
      match not_afk_periods_by_host with
      | [] => Some events
      | _ => filter_loop not_afk_periods_by_host events
      end
  end.

(** The loop over one host's events in [build_not_afk_periods_by_host]. *)
Fixpoint not_afk_intervals (events : list Event) : option (list interval) :=
  match events with
  | [] => Some []
  | event :: rest =>
      let keep :=
        if String.eqb (data_or_empty (ev_status event)) "not-afk" then
          match get_event_time_range event with
          | None => None
          | Some NoRange => Some []
          | Some (Range start end_) => Some (if end_ <=? start then [] else [(start, end_)])
          end
        else Some [] in
      match keep with
      | None => None
      | Some k =>
          match not_afk_intervals rest with
          | None => None
          | Some ks => Some (k ++ ks)%list
          end
      end
  end.

Fixpoint build_not_afk_periods_by_host (afk_events_by_host : list (string * list Event))
    : option period_map :=
  match afk_events_by_host with
  | [] => Some []
  | (host, events) :: rest =>
      match not_afk_intervals events with
      | None => None
      | Some intervals =>
          match build_not_afk_periods_by_host rest with
          | None => None
          | Some m => Some ((host, merge_intervals intervals) :: m)
          end
      end
  end.

(** *** Hour Bucketer: [bucket_events_by_hour] (aw_notion_sync.py) *)

(** Wall-clock time in TARGET_TZ. *)
Definition local_time (t : Z) : Z := t + utc_offset t.

(** [dt.hour] *)
Definition local_hour (t : Z) : Z := (local_time t mod DAY) / HOUR.

(** [dt.minute * 60 + dt.second + dt.microsecond / 1_000_000], in
    microseconds. *)
Definition seconds_into_hour (t : Z) : Z := local_time t mod HOUR.

(** [while remaining_duration > 3600: ...]; it runs at most [fuel] rounds,
    and [hour_fragments] gives it more than it needs.  It returns the full-hour
    fragments, the hour after them and the duration left. *)
Fixpoint full_hours (fuel : nat) (event : Event) (current_hour remaining_duration : Z)
    : list (Z * Event) * Z * Z :=
  match fuel with
  | O => ([], current_hour, remaining_duration)
  | S fuel' =>
      if remaining_duration >? HOUR then
        let '(frags, h, r) :=
          full_hours fuel' event ((current_hour + 1) mod 24) (remaining_duration - HOUR) in
        ((current_hour, with_duration event HOUR) :: frags, h, r)
      else ([], current_hour, remaining_duration)
  end.

(** The body of the loop of [bucket_events_by_hour] for one event: the
    [(hour, fragment)] pairs it appends, in order, or [None] when the [try]
    block raises (missing or unparseable timestamp) and the event is skipped. *)
Definition hour_fragments (event : Event) : option (list (Z * Event)) :=
  if String.eqb (ev_timestamp event) "" then None else
  match parse_timestamp (ev_timestamp event) with
  | None => None
  | Some dt =>
      let duration := ev_duration event in
      if duration <=? 0 then Some [(local_hour dt, event)] else
      let remaining_in_hour := HOUR - seconds_into_hour dt in
      if duration <=? remaining_in_hour then Some [(local_hour dt, event)] else
      let current_hour := local_hour dt in
      let first_chunk := Z.min remaining_in_hour duration in
      let '(first, remaining_duration) :=
        if first_chunk >? 0
        then ([(current_hour, with_duration event first_chunk)], duration - first_chunk)
        else ([], duration) in
      let '(middle, last_hour, rest) :=
        full_hours (S (Z.to_nat (remaining_duration / HOUR))) event
                   ((current_hour + 1) mod 24) remaining_duration in
      Some (first ++ middle ++
            (if rest >? 0 then [(last_hour, with_duration event rest)] else []))%list
  end.

Definition hourly := list (Z * list Event).

Definition add_fragments (acc : hourly) (frags : list (Z * Event)) : hourly :=
  fold_left (fun acc '(h, e) => dict_append Z.eqb h e acc) frags acc.

Definition bucket_events_by_hour (events : list Event) : hourly :=
  fold_left (fun acc event =>
               match hour_fragments event with
               | None => acc
               | Some frags => add_fragments acc frags
               end) events [].

(** *** Event Deduplicator: [load_aw_data_for_journal_day] (aw_notion_sync.py)

    The files matched by the globs are given as their decoded JSON contents
    (bucket name -> events), in the order they are read; [day_start] and
    [day_end] are the instants bounding the journal day in TARGET_TZ. *)











(** *** Aggregator: [aggregate_day_data] (aw_analytics_export.py) *)

(** [get_ai_chat_name] *)
Definition get_ai_chat_name (domain : string) : option string :=
  ai_chat_name_from ai_chat_sites (Str.lower domain).

(** The body of the loop over the filtered window events. *)
Definition window_step (acc : Acc) (event : Event) : Acc :=
  let app := normalize_app_name (data_or_empty (ev_app event)) in
  let title := data_or_empty (ev_title event) in
  let duration := ev_duration event in
  if (duration <=? 0) || mem app EXCLUDED_APPS then acc else
  let acc := set_all acc (bd_add app duration (acc_all acc)) in
  let acc :=
    if mem app TERMINAL_APPS then
      match detect_terminal_tool title with
      | Some detected_tool => set_dev acc (bd_add detected_tool duration (acc_dev acc))
      | None => set_dev acc (bd_add "Terminal/Shell" duration (acc_dev acc))
      end
    else if mem app CODING_APPS then
      let display_name :=
        if String.eqb app "code" then "VS Code"
        else if String.eqb app "nvim" then "Neovim"
        else Str.title app in
      set_dev acc (bd_add display_name duration (acc_dev acc))
    else acc in
  let acc :=
    if mem app PLANNING_APPS
    then set_plan acc (bd_add (Str.title app) duration (acc_plan acc)) else acc in
  if mem app AI_CHAT_APPS then
    let display_name :=
      if String.eqb app "claude" then "Claude"
      else if String.eqb app "chatgpt" then "ChatGPT"
      else Str.title app in
    let acc := set_ai acc (bd_add display_name duration (acc_ai acc)) in
    set_plan acc (bd_add display_name duration (acc_plan acc))
  else acc.

(** [for site, display_name in DEV_TOOL_SITES.items(): ... break] *)
Fixpoint dev_site_step (domain : string) (duration : Z) (sites : list (string * string))
    (acc : Acc) : Acc :=
  match sites with
  | [] => acc
  | (site, display_name) :: rest =>
      if Str.contains site domain || Str.endswith domain site
      then set_dev acc (bd_add display_name duration (acc_dev acc))
      else dev_site_step domain duration rest acc
  end.

(** The body of the loop over the filtered web events. *)
Definition web_step (acc : Acc) (event : Event) : Acc :=
  let url := data_or_empty (ev_url event) in
  let domain := url_netloc url in
  let duration := ev_duration event in
  if duration <=? 0 then acc else
  let acc :=
    match get_ai_chat_name domain with
    | Some ai_name =>
        let acc := set_ai acc (bd_add ai_name duration (acc_ai acc)) in
        set_plan acc (bd_add ai_name duration (acc_plan acc))
    | None => acc
    end in
  dev_site_step domain duration DEV_TOOL_SITES acc.

(** [d[k].extend(vs)] on a [defaultdict(list)]. *)
Fixpoint dict_extend (k : string) (vs : list Event) (d : list (string * list Event))
    : list (string * list Event) :=
  match d with
  | [] => [(k, vs)]
  | (k', vs') :: d' =>
      if String.eqb k k' then (k', (vs' ++ vs)%list) :: d' else (k', vs') :: dict_extend k vs d'
  end.

Definition collect_afk_events (day_data : list (string * list Event))
    : list (string * list Event) :=
  fold_left (fun acc '(bucket_name, events) =>
               if Str.contains "watcher-afk" bucket_name then
                 match extract_host_from_bucket bucket_name with
                 | Some host => if String.eqb host "" then acc else dict_extend host events acc
                 | None => acc
                 end
               else acc) day_data [].

(** [[{**e, "_bucket": bucket_name} for e in events]] over the buckets whose
    name contains [kind]. *)
Definition collect_events (kind : string) (day_data : list (string * list Event))
    : list Event :=
  flat_map (fun '(bucket_name, events) =>
              if Str.contains kind bucket_name
              then map (fun e => with_bucket e bucket_name) events else []) day_data.

Definition totals_of (acc : Acc) : Totals :=
  mkTotals (sum_values (acc_dev acc)) (sum_values (acc_plan acc))
           (sum_values (acc_ai acc)) (sum_values (acc_all acc)).

Definition aggregate_of (acc : Acc) : Aggregate :=
  mkAggregate (acc_dev acc) (acc_ai acc) (acc_plan acc) (acc_all acc) (totals_of acc).

(** [aggregate_day_data]; [None] when it raises (an unparseable timestamp
    reaching [get_event_time_range]). *)
Definition aggregate_day_data (day_data : list (string * list Event)) : option Aggregate :=
  match build_not_afk_periods_by_host (collect_afk_events day_data) with
  | None => None
  | Some not_afk_periods_by_host =>
      match filter_events_by_afk (collect_events "watcher-window" day_data)
                                 not_afk_periods_by_host with
      | None => None
      | Some window_events =>
          let acc := fold_left window_step window_events (mkAcc [] [] [] []) in
          match filter_events_by_afk (collect_events "watcher-web" day_data)
                                     not_afk_periods_by_host with
          | None => None
          | Some web_events => Some (aggregate_of (fold_left web_step web_events acc))
          end
      end
  end.

End Pipeline.

(** ** Rollup: [merge_aggregates] *)

Definition bd_add_all (merged : breakdown) (d : breakdown) : breakdown :=
  fold_left (fun m '(k, v) => bd_add k v m) d merged.

Definition add_totals (a b : Totals) : Totals :=
  mkTotals (dev_time a + dev_time b) (planning_time a + planning_time b)
           (ai_chat_time a + ai_chat_time b) (active_time a + active_time b).

Definition merge_one (merged agg : Aggregate) : Aggregate :=
  mkAggregate (bd_add_all (dev_tools merged) (dev_tools agg))
              (bd_add_all (ai_chats merged) (ai_chats agg))
              (bd_add_all (planning_apps merged) (planning_apps agg))
              (bd_add_all (top_apps merged) (top_apps agg))
              (add_totals (totals merged) (totals agg)).

Definition zero_totals : Totals := mkTotals 0 0 0 0.

Definition merge_aggregates (aggregates : list Aggregate) : Aggregate :=
  fold_left merge_one aggregates (mkAggregate [] [] [] [] zero_totals).

(** ** Report Builder: [generate_report] *)

(** Python's [round] of the exact quotient [n / m] to an integer, ties to
    even.  [round(x, k)] is represented by the integer [round(x * 10^k)]. *)
Definition round_div (n m : Z) : Z :=
  let '(n, m) := if m <? 0 then (- n, - m) else (n, m) in
  let q := n / m in
  let r := n mod m in
  if 2 * r <? m then q
  else if m <? 2 * r then q + 1
  else if Z.even q then q else q + 1.

(** [{"seconds": round(x, 1), "minutes": round(x / 60, 1),
      "hours": round(x / 3600, 2)}] in tenths, tenths and hundredths. *)
Record TimeFigures := mkTimeFigures {
  tf_seconds : Z; tf_minutes : Z; tf_hours : Z }.

Definition time_figures (x : Z) : TimeFigures :=
  mkTimeFigures (round_div (10 * x) SEC) (round_div (10 * x) (60 * SEC))
                (round_div (100 * x) (3600 * SEC)).

Record Item := mkItem {
  item_name : string; item_seconds : Z; item_minutes : Z; item_hours : Z;
  item_proportion : Z; item_percentage : Z }.

(** [sorted(time_dict.items(), key=lambda x: -x[1])], stable. *)
Fixpoint insert_desc (x : string * Z) (l : breakdown) : breakdown :=
  match l with
  | [] => [x]
  | y :: l' => if snd y <=? snd x then x :: y :: l' else y :: insert_desc x l'
  end.

Fixpoint sort_desc (l : breakdown) : breakdown :=
  match l with
  | [] => []
  | x :: l' => insert_desc x (sort_desc l')
  end.

Definition calculate_proportions (time_dict : breakdown) : list Item :=
  let total := sum_values time_dict in
  if total =? 0 then [] else
  map (fun '(name, seconds) =>
         let f := time_figures seconds in
         mkItem name (tf_seconds f) (tf_minutes f) (tf_hours f)
                (round_div (10000 * seconds) total) (round_div (1000 * seconds) total))
      (sort_desc time_dict).

Record Summary := mkSummary {
  total_active_time : TimeFigures; sum_dev_time : TimeFigures;
  sum_planning_time : TimeFigures; sum_ai_chat_time : TimeFigures;
  ratio_dev : Z; ratio_planning : Z }.

Record Report := mkReport {
  period_type : string; period_label : string; period_start : string; period_end : string;
  summary : Summary;
  dev_tools_breakdown : list Item; ai_chats_breakdown : list Item;
  planning_breakdown : list Item; top_apps_report : list Item }.

(** [generate_report]; the dates are passed as their [isoformat()] text. *)
Definition generate_report (aggregate : Aggregate) (period_type period_label start_date end_date : string)
    : Report :=
  let t := totals aggregate in
  let dev := dev_time t in
  let planning := planning_time t in
  let total_focused := dev + planning in
  let '(dev_ratio, planning_ratio) :=
    if 0 <? total_focused
    then (round_div (1000 * dev) total_focused, round_div (1000 * planning) total_focused)
    else (0, 0) in
  mkReport period_type period_label start_date end_date
    (mkSummary (time_figures (active_time t)) (time_figures dev) (time_figures planning)
               (time_figures (ai_chat_time t)) dev_ratio planning_ratio)
    (calculate_proportions (dev_tools aggregate))
    (calculate_proportions (ai_chats aggregate))
    (calculate_proportions (planning_apps aggregate))
    (firstn 10 (calculate_proportions (top_apps aggregate))).

End AW.

(** ** Measures used to state properties of the AFK Reconciler *)
Module Measure.
Import AW.
Local Open Scope Z_scope.

Fixpoint zsum (l : list Z) : Z :=
  match l with [] => 0 | x :: l' => x + zsum l' end.

(** The length of the intersection of two half-open intervals. *)
Definition overlap_len (j i : interval) : Z :=
  Z.max 0 (Z.min (snd j) (snd i) - Z.max (fst j) (fst i)).

(** The total duration of an Active Period Set. *)
Definition period_total (periods : list interval) : Z :=
  zsum (map (fun i => snd i - fst i) periods).

Definition sum_durations (events : list Event) : Z := zsum (map ev_duration events).

(** The event's bucket names [host]. *)
Definition of_host (host : string) (e : Event) : bool :=
  match extract_host_from_bucket (ev_bucket e) with
  | Some h => String.eqb host h
  | None => false
  end.

Definition events_of_host (host : string) (events : list Event) : list Event :=
  filter (of_host host) events.

(** The span [[start, start + duration)] of an event with a timestamp. *)
Definition event_span (fromisoformat : string -> option Z) (e : Event) : option interval :=
  match get_event_time_range fromisoformat e with
  | Some (Range s en) => Some (s, en)
  | _ => None
  end.

Definition spans_disjoint (fromisoformat : string -> option Z) (a b : Event) : Prop :=
  match event_span fromisoformat a, event_span fromisoformat b with
  | Some ja, Some jb => disjoint ja jb
  | _, _ => True
  end.

(** Total duration of [(hour, fragment)] pairs, and of an hour-bucket dict. *)
Definition fragments_total (frags : list (Z * Event)) : Z :=
  zsum (map (fun p => ev_duration (snd p)) frags).

Definition hourly_total (h : hourly) : Z := zsum (map (fun p => sum_durations (snd p)) h).

(** [f c + f (c+1) + ... + f (c+n-1)] *)
Fixpoint count_points (c : Z) (n : nat) (f : Z -> Z) : Z :=
  match n with
  | O => 0
  | S n' => count_points c n' f + f (c + Z.of_nat n')
  end.

Definition indicator (j : interval) (t : Z) : Z :=
  if (fst j <=? t) && (t <? snd j) then 1 else 0.

Definition span_indicator (fromisoformat : string -> option Z) (e : Event) (t : Z) : Z :=
  match event_span fromisoformat e with Some j => indicator j t | None => 0 end.

(** The length of the overlap of an event's span with a period. *)
Definition span_overlap (fromisoformat : string -> option Z) (e : Event) (i : interval) : Z :=
  match event_span fromisoformat e with Some j => overlap_len j i | None => 0 end.





(** The sum invariant of an Aggregate: each scalar total is the sum of its
    breakdown. *)
Definition sum_invariant (a : Aggregate) : Prop :=
  dev_time (totals a) = sum_values (dev_tools a) /\
  planning_time (totals a) = sum_values (planning_apps a) /\
  ai_chat_time (totals a) = sum_values (ai_chats a) /\
  active_time (totals a) = sum_values (top_apps a).

(** The sum over a list of Aggregates of one field of their totals. *)
Definition field_total (f : Totals -> Z) (aggregates : list Aggregate) : Z :=
  zsum (map (fun a => f (totals a)) aggregates).

(** The seconds figures (in tenths) of the four summary totals of a Report:
    active, dev, planning and AI chat time. *)
Definition summary_seconds (r : Report) : Z * Z * Z * Z :=
  (tf_seconds (total_active_time (summary r)), tf_seconds (sum_dev_time (summary r)),
   tf_seconds (sum_planning_time (summary r)), tf_seconds (sum_ai_chat_time (summary r))).

Definition add4 (x y : Z * Z * Z * Z) : Z * Z * Z * Z :=
  let '(a, b, c, d) := x in let '(a', b', c', d') := y in (a + a', b + b', c + c', d + d').

End Measure.

(** ** A concrete instance of the library functions

    Used to run the model on sample inputs: [fromisoformat] for the
    timestamps ActivityWatch writes ([YYYY-MM-DDTHH:MM:SS[.ffffff]] with an
    offset [+HH:MM] or [-HH:MM]), TARGET_TZ = Asia/Singapore (UTC+08:00 all
    year round), and [isoformat] in that zone. *)
Module Concrete.
Import AW.
Local Open Scope string_scope.
Local Open Scope Z_scope.

Definition digit_value (c : ascii) : option Z :=
  let n := Z.of_nat (nat_of_ascii c) in
  if (48 <=? n) && (n <=? 57) then Some (n - 48) else None.

(** Exactly [n] decimal digits. *)
Fixpoint take_digits (n : nat) (s : string) (acc : Z) : option (Z * string) :=
  match n with
  | O => Some (acc, s)
  | S n' =>
      match s with
      | String c s' =>
          match digit_value c with
          | Some d => take_digits n' s' (10 * acc + d)
          | None => None
          end
      | EmptyString => None
      end
  end.

Definition expect (c : ascii) (s : string) : option string :=
  match s with
  | String d s' => if Ascii.eqb c d then Some s' else None
  | EmptyString => None
  end.

Definition days_from_civil (y m d : Z) : Z :=
  let y := if m <=? 2 then y - 1 else y in
  let era := y / 400 in
  let yoe := y - era * 400 in
  let doy := (153 * (if 2 <? m then m - 3 else m + 9) + 2) / 5 + d - 1 in
  let doe := yoe * 365 + yoe / 4 - yoe / 100 + doy in
  era * 146097 + doe - 719468.

Definition civil_from_days (z : Z) : Z * Z * Z :=
  let z := z + 719468 in
  let era := z / 146097 in
  let doe := z - era * 146097 in
  let yoe := (doe - doe / 1460 + doe / 36524 - doe / 146096) / 365 in
  let doy := doe - (365 * yoe + yoe / 4 - yoe / 100) in
  let mp := (5 * doy + 2) / 153 in
  let d := doy - (153 * mp + 2) / 5 + 1 in
  let m := if mp <? 10 then mp + 3 else mp - 9 in
  (if m <=? 2 then yoe + era * 400 + 1 else yoe + era * 400, m, d).

Definition bind {A B} (o : option A) (f : A -> option B) : option B :=
  match o with Some a => f a | None => None end.

Definition fromisoformat (s : string) : option Z :=
  bind (take_digits 4 s 0) (fun '(y, s) =>
  bind (expect "-" s) (fun s => bind (take_digits 2 s 0) (fun '(mo, s) =>
  bind (expect "-" s) (fun s => bind (take_digits 2 s 0) (fun '(d, s) =>
  bind (expect "T" s) (fun s => bind (take_digits 2 s 0) (fun '(h, s) =>
  bind (expect ":" s) (fun s => bind (take_digits 2 s 0) (fun '(mi, s) =>
  bind (expect ":" s) (fun s => bind (take_digits 2 s 0) (fun '(sec, s) =>
  let '(micro, s) :=
    match expect "." s with
    | Some s' => match take_digits 6 s' 0 with Some p => p | None => (-1, s) end
    | None => (0, s)
    end in
  if (micro <? 0) || (12 <? mo) || (mo <? 1) || (d <? 1) || (31 <? d) || (23 <? h)
     || (59 <? mi) || (59 <? sec) then None else
  bind (match s with
        | String c s' => if Ascii.eqb c "+" then Some (1, s')
                         else if Ascii.eqb c "-" then Some (-1, s') else None
        | EmptyString => None
        end) (fun '(sign, s) =>
  bind (take_digits 2 s 0) (fun '(oh, s) =>
  bind (expect ":" s) (fun s => bind (take_digits 2 s 0) (fun '(om, s) =>
  if negb (String.eqb s "") then None else
  Some (((days_from_civil y mo d * 24 + h) * 3600 + mi * 60 + sec) * SEC + micro
        - sign * (oh * 3600 + om * 60) * SEC)))))))))))))))).

Definition utc_offset (_ : Z) : Z := 8 * HOUR.

Fixpoint pad (width : nat) (n : Z) : string :=
  match width with
  | O => ""
  | S w => pad w (n / 10) ++ String (ascii_of_nat (Z.to_nat (48 + n mod 10))) ""
  end.

Definition isoformat (t : Z) : string :=
  let local := t + utc_offset t in
  let days := local / DAY in
  let tod := local mod DAY in
  let '(y, m, d) := civil_from_days days in
  let micro := tod mod SEC in
  pad 4 y ++ "-" ++ pad 2 m ++ "-" ++ pad 2 d ++ "T" ++ pad 2 (tod / HOUR) ++ ":"
  ++ pad 2 (tod mod HOUR / (60 * SEC)) ++ ":" ++ pad 2 (tod mod (60 * SEC) / SEC)
  ++ (if micro =? 0 then "" else "." ++ pad 6 micro) ++ "+08:00".

(** [urlparse(url).netloc] for [scheme://netloc/path] URLs. *)
Definition url_netloc (url : string) : string :=
  let fix after_scheme (s : string) : string :=
    match s with
    | String ":" (String "/" (String "/" rest)) => rest
    | String _ s' => after_scheme s'
    | EmptyString => ""
    end in
  let fix host (s : string) : string :=
    match s with
    | String c s' => if Ascii.eqb c "/" || Ascii.eqb c "?" || Ascii.eqb c "#" then ""
                     else String c (host s')
    | EmptyString => ""
    end in
  host (after_scheme url).

End Concrete.

(* ================================================================== *)
(** ** Sample inputs *)
Module Samples.
Import AW.
Local Open Scope string_scope.
Local Open Scope Z_scope.

(** A window-watcher event of the host "laptop". *)
Definition laptop_window (ts : string) (d : Z) : Event :=
  mkEvent "aw-watcher-window_laptop" ts d (Some "code") (Some "main.py") None None.

(** 2024-05-01T09:00:00Z in microseconds. *)
Definition nine_utc : Z := 1714554000 * SEC.

(** A browser-tab event of the host "laptop". *)
Definition laptop_tab (url : string) (d : Z) : Event :=
  mkEvent "aw-watcher-web-chrome_laptop" "2024-05-01T09:00:00Z" d None (Some "chat") (Some url) None.

(** A day whose only activity is a 0.04-second window event. *)
Definition short_day (ts : string) : list (string * list Event) :=
  [("aw-watcher-window_laptop", [laptop_window ts 40000])].

Definition short_day_aggregate : Aggregate :=
  mkAggregate [("VS Code", 40000)] [] [] [("code", 40000)] (mkTotals 40000 0 0 40000).

Definition sample_intervals : list interval := [(5, 8); (0, 3); (3, 4); (10, 12); (7, 9)].

(** The host "laptop" active from 09:00 to 10:00 UTC. *)
Definition one_hour_map : period_map := [("laptop", [(nine_utc, nine_utc + 3600 * SEC)])].

End Samples.

(* ================================================================== *)
(** ** Hourly statistics and the Notion sync (aw_notion_sync.py)

    [bucket_events_by_hour], [get_event_time_range], [merge_intervals],
    [build_not_afk_periods_by_host], [filter_events_by_afk],
    [detect_terminal_tool], [normalize_app_name] and the tables
    [TERMINAL_APPS], [TERMINAL_TOOL_PATTERNS], [AI_CHAT_APPS],
    [PLANNING_APPS], [CODING_APPS], [DEV_TOOL_SITES] and [EXCLUDED_APPS] of
    aw_notion_sync.py are the same as those of [AW]. *)
Module Sync.
Import AW.
Local Open Scope string_scope.
Local Open Scope Z_scope.

Definition CODING_SITES : list string :=
  ["github.com"; "gitlab.com"; "bitbucket.org"; "stackoverflow.com"; "stackexchange.com";
   "docs.python.org"; "developer.mozilla.org"; "devdocs.io"; "npmjs.com"; "pypi.org";
   "crates.io"; "rubygems.org"; "replit.com"; "codepen.io"; "codesandbox.io";
   "jsfiddle.net"; "figma.com"; "aws.amazon.com"; "dash.cloudflare.com"; "cronitor.io";
   "localhost:3000"; "vercel.com"; "netlify.com"; "railway.app"; "render.com";
   "huggingface.co"; "colab.research.google.com"].

(** [data.get("app", default)] *)
Definition app_or (default : string) (o : option string) : string :=
  match o with Some a => a | None => default end.

(** [s.replace("www.", "")] *)
Fixpoint remove_www (s : string) : string :=
  match s with
  | String "w" (String "w" (String "w" (String "." rest))) => remove_www rest
  | String c s' => String c (remove_www s')
  | EmptyString => EmptyString
  end.

(** The [site_name] chosen in [aggregate_ai_chat_time] for a matching site. *)
Definition ai_site_name (ai_site : string) : string :=
  if Str.contains "chatgpt" ai_site || Str.contains "openai" ai_site then "ChatGPT"
  else if Str.contains "claude" ai_site then "Claude"
  else if Str.contains "gemini" ai_site || Str.contains "bard" ai_site then "Gemini"
  else if Str.contains "grok" ai_site then "Grok"
  else if Str.contains "perplexity" ai_site then "Perplexity"
  else if Str.contains "aistudio" ai_site then "AI Studio"
  else if Str.contains "t3.chat" ai_site then "T3"
  else if Str.contains "copilot" ai_site then "Copilot"
  else Str.before_dot (remove_www ai_site).

(** [for ai_site in AI_CHAT_SITES: if ...: ...; break] *)
Fixpoint ai_site_match (sites : list string) (domain : string) : option string :=
  match sites with
  | [] => None
  | ai_site :: rest =>
      if Str.contains ai_site domain || Str.endswith domain ai_site
      then Some (ai_site_name ai_site)
      else ai_site_match rest domain
  end.

(** [re.search(r"watcher-web-([^_]+)", s).group(1)]: the leftmost match,
    whose group takes the longest run of characters other than ["_"]. *)
Fixpoint web_app_search (s : string) : option string :=
  match s with
  | EmptyString => None
  | String _ s' =>
      let g := fst (Str.split_at_underscore (Str.drop 12 s)) in
      if Str.startswith s "watcher-web-" && negb (String.eqb g "") then Some g
      else web_app_search s'
  end.

(** [dict.get(k, 0)] *)
Definition get0 (k : string) (d : breakdown) : Z :=
  match lookup k d with Some v => v | None => 0 end.

(** The decimal digits of a [Decimal.uint], most significant first. *)
Fixpoint string_of_uint (u : Decimal.uint) : string :=
  match u with
  | Decimal.Nil => ""
  | Decimal.D0 u => String "0" (string_of_uint u)
  | Decimal.D1 u => String "1" (string_of_uint u)
  | Decimal.D2 u => String "2" (string_of_uint u)
  | Decimal.D3 u => String "3" (string_of_uint u)
  | Decimal.D4 u => String "4" (string_of_uint u)
  | Decimal.D5 u => String "5" (string_of_uint u)
  | Decimal.D6 u => String "6" (string_of_uint u)
  | Decimal.D7 u => String "7" (string_of_uint u)
  | Decimal.D8 u => String "8" (string_of_uint u)
  | Decimal.D9 u => String "9" (string_of_uint u)
  end.

(** [str(n)] of an [int]: its decimal text, with a sign when negative. *)
Definition str_int (n : Z) : string :=
  match Z.to_int n with
  | Decimal.Pos u => string_of_uint u
  | Decimal.Neg u => String "-" (string_of_uint u)
  end.

(** [format_duration]; durations are in microseconds. *)
Definition format_duration (seconds : Z) : string :=
  let minutes := round_div seconds (60 * SEC) in
  if minutes =? 0 then "<1m"
  else if minutes <? 60 then str_int minutes ++ "m"
  else
    let hours := minutes / 60 in
    let mins := minutes mod 60 in
    if negb (mins =? 0) then str_int hours ++ "h " ++ str_int mins ++ "m"
    else str_int hours ++ "h".

(** [count_ai_chat_minutes] *)
Definition count_ai_chat_minutes (ai_time : breakdown) : Z :=
  Z.max 0 (round_div (sum_values ai_time) (60 * SEC)).

(** [get_hour_property_name]: [f"{hour:02d}:00"]; the zero padding goes
    after the sign, and a negative number already fills the width. *)
Definition get_hour_property_name (hour : Z) : string :=
  (if (0 <=? hour) && (hour <? 10) then "0" ++ str_int hour else str_int hour) ++ ":00".

(** [strftime('%I%p')] at an hour of the day. *)
Definition strftime_Ip (hour : Z) : string :=
  let h12 := if hour mod 12 =? 0 then 12 else hour mod 12 in
  (if h12 <? 10 then "0" ++ str_int h12 else str_int h12) ++ (if hour <? 12 then "AM" else "PM").

(** [s.lstrip('0')] *)
Fixpoint lstrip_zero (s : string) : string :=
  match s with
  | EmptyString => EmptyString
  | String c s' => if Ascii.eqb c "0"%char then lstrip_zero s' else s
  end.

(** [format_hour_label]; [None] when [datetime(2000, 1, 1, hour)] raises.
    One hour after [hour] o'clock is [(hour + 1) mod 24] o'clock (the next
    day for 23). *)
Definition format_hour_label (hour : Z) : option string :=
  if (0 <=? hour) && (hour <? 24) then
    let end_hour := (hour + 1) mod 24 in
    Some (Str.lower (lstrip_zero (strftime_Ip hour)) ++ "-" ++
          Str.lower (lstrip_zero (strftime_Ip end_hour)))
  else None.

(** [format_tools_with_total] *)
Definition format_tools_with_total (tools : breakdown) (total_seconds : Z) (max_items : nat)
    : string :=
  let total_mins := round_div total_seconds (60 * SEC) in
  if total_mins =? 0 then "-" else
  let sorted_tools := firstn max_items (sort_desc tools) in
  let parts :=
    flat_map (fun '(tool, seconds) =>
                let mins := round_div seconds (60 * SEC) in
                if 0 <? mins then [tool ++ ": " ++ str_int mins ++ "m"] else []) sorted_tools in
  let breakdown := match parts with [] => "" | _ => String.concat ", " parts end in
  if negb (String.eqb breakdown "")
  then "[" ++ str_int total_mins ++ "m] " ++ breakdown
  else "[" ++ str_int total_mins ++ "m]".

(** The statistics of one hour, as [compute_hourly_stats] stores them. *)
Record HourStats := mkHourStats {
  top_sites : breakdown; notion_time : Z; coding_time : Z; hs_top_apps : breakdown;
  hs_active_time : Z; total_app_time : Z; total_web_time : Z;
  hs_ai_chat_time : breakdown; ai_chat_total : Z;
  coding_tools : breakdown; coding_tools_total : Z;
  planning_tools : breakdown; planning_total : Z }.

(** [determine_hourly_select_value] *)
Definition determine_hourly_select_value (hour_stats : HourStats) : option string :=
  if hs_active_time hour_stats <? 50 * 60 * SEC then None
  else if 30 * 60 * SEC <=? coding_tools_total hour_stats then Some "Deep Work"
  else if 30 * 60 * SEC <=? planning_total hour_stats then Some "Shallow Work"
  else None.

(** [d.get(k, [])] on a dict keyed by hours. *)
Fixpoint hour_lookup {V} (k : Z) (d : list (Z * list V)) : list V :=
  match d with
  | [] => []
  | (k', v) :: d' => if Z.eqb k k' then v else hour_lookup k d'
  end.

(** [sorted(set)] of hours: insertion sort of the distinct hours. *)
Fixpoint insert_hour (h : Z) (l : list Z) : list Z :=
  match l with
  | [] => [h]
  | x :: l' => if h <=? x then h :: x :: l' else x :: insert_hour h l'
  end.

Definition sort_hours (l : list Z) : list Z := fold_right insert_hour [] l.

(** [sorted(set(a.keys()) | set(b.keys()))] *)
Definition all_hours (a b : hourly) : list Z :=
  sort_hours (nodup Z.eq_dec (map fst a ++ map fst b)%list).

(** [d[k] = v] on a dict in insertion order. *)
Fixpoint dict_set {V} (k : string) (v : V) (d : list (string * V)) : list (string * V) :=
  match d with
  | [] => [(k, v)]
  | (k', v') :: d' => if String.eqb k k' then (k', v) :: d' else (k', v') :: dict_set k v d'
  end.

Record DailySummary := mkDailySummary {
  total_active_time_d : Z; total_coding_time : Z; total_notion_time : Z;
  total_ai_chat_time : Z; total_coding_tools_time : Z; total_planning_time : Z;
  ds_top_apps : breakdown; ds_top_sites : breakdown; ds_ai_chats : breakdown;
  ds_coding_tools : breakdown; ds_planning_tools : breakdown }.

Section Hourly.

Variable fromisoformat : string -> option Z.
Variable isoformat : Z -> string.
Variable utc_offset : Z -> Z.
(** [urlparse(url).netloc] *)
Variable url_netloc : string -> string.
(** The iteration order of the set [AI_CHAT_SITES]. *)
Variable ai_chat_sites : list string.

(** [aggregate_app_time] *)
Definition aggregate_app_time (events : list Event) : breakdown :=
  fold_left (fun app_time event =>
               let app := normalize_app_name (app_or "Unknown" (ev_app event)) in
               if mem app EXCLUDED_APPS then app_time
               else bd_add app (ev_duration event) app_time) events [].

(** [aggregate_site_time] *)
Definition aggregate_site_time (events : list Event) : breakdown :=
  fold_left (fun site_time event =>
               let domain := url_netloc (data_or_empty (ev_url event)) in
               if String.eqb domain "" then site_time
               else bd_add domain (ev_duration event) site_time) events [].

(** [aggregate_web_app_time] *)
Definition aggregate_web_app_time (events : list Event) : breakdown :=
  fold_left (fun app_time event =>
               let app := match web_app_search (ev_bucket event) with
                          | Some g => g | None => "browser" end in
               bd_add (Str.lower app) (ev_duration event) app_time) events [].

(** The loop of [aggregate_ai_chat_time] over the web events. *)
Definition ai_web_step (ai_time : breakdown) (event : Event) : breakdown :=
  let domain := Str.lower (url_netloc (data_or_empty (ev_url event))) in
  let duration := ev_duration event in
  if duration <=? 0 then ai_time else
  match ai_site_match ai_chat_sites domain with
  | Some site_name => bd_add site_name duration ai_time
  | None => ai_time
  end.

(** The loop of [aggregate_ai_chat_time] over the window events. *)
Definition ai_window_step (ai_time : breakdown) (event : Event) : breakdown :=
  let app := normalize_app_name (data_or_empty (ev_app event)) in
  let duration := ev_duration event in
  if duration <=? 0 then ai_time else
  if mem app AI_CHAT_APPS then
    let site_name :=
      if String.eqb app "claude" then "Claude"
      else if String.eqb app "chatgpt" then "ChatGPT"
      else Str.title app in
    bd_add site_name duration ai_time
  else ai_time.

(** [aggregate_ai_chat_time(web_events, window_events)] *)
Definition aggregate_ai_chat_time (web_events window_events : list Event) : breakdown :=
  fold_left ai_window_step window_events (fold_left ai_web_step web_events []).

(** The loop of [aggregate_coding_tools_time] over the window events. *)
Definition coding_window_step (tool_time : breakdown) (event : Event) : breakdown :=
  let app := normalize_app_name (data_or_empty (ev_app event)) in
  let title := data_or_empty (ev_title event) in
  let duration := ev_duration event in
  if duration <=? 0 then tool_time else
  if mem app EXCLUDED_APPS then tool_time else
  if mem app TERMINAL_APPS then
    match detect_terminal_tool title with
    | Some detected_tool => bd_add detected_tool duration tool_time
    | None => bd_add "Terminal/Shell" duration tool_time
    end
  else if mem app CODING_APPS then
    let display_name :=
      if String.eqb app "code" then "VS Code"
      else if String.eqb app "nvim" then "Neovim"
      else Str.title app in
    bd_add display_name duration tool_time
  else tool_time.

(** [for site, display_name in DEV_TOOL_SITES.items(): ... break] *)
Fixpoint dev_site_add (domain : string) (duration : Z) (sites : list (string * string))
    (tool_time : breakdown) : breakdown :=
  match sites with
  | [] => tool_time
  | (site, display_name) :: rest =>
      if Str.contains site domain || Str.endswith domain site
      then bd_add display_name duration tool_time
      else dev_site_add domain duration rest tool_time
  end.

(** The loop of [aggregate_coding_tools_time] over the web events. *)
Definition coding_web_step (tool_time : breakdown) (event : Event) : breakdown :=
  let domain := Str.lower (url_netloc (data_or_empty (ev_url event))) in
  let duration := ev_duration event in
  if duration <=? 0 then tool_time
  else dev_site_add domain duration DEV_TOOL_SITES tool_time.

(** [aggregate_coding_tools_time(window_events, web_events)] *)
Definition aggregate_coding_tools_time (window_events web_events : list Event) : breakdown :=
  fold_left coding_web_step web_events (fold_left coding_window_step window_events []).

(** The loop of [aggregate_planning_time] over the window events. *)
Definition planning_window_step (planning_time : breakdown) (event : Event) : breakdown :=
  let app := normalize_app_name (data_or_empty (ev_app event)) in
  let duration := ev_duration event in
  if duration <=? 0 then planning_time else
  if mem app PLANNING_APPS then bd_add (Str.title app) duration planning_time
  else planning_time.

(** [aggregate_planning_time]; it does not read the web events. *)
Definition aggregate_planning_time (window_events web_events : list Event)
    (ai_chat_time : breakdown) : breakdown :=
  bd_add_all (fold_left planning_window_step window_events []) ai_chat_time.

(** The statistics of one hour: the body of the loop of
    [compute_hourly_stats]. *)
Definition hour_stats (hour_window hour_web : list Event) : HourStats :=
  let app_time := aggregate_app_time hour_window in
  let site_time := aggregate_site_time hour_web in
  let web_app_time := aggregate_web_app_time hour_web in
  let top_sites := firstn 3 (sort_desc site_time) in
  let notion_time :=
    get0 "notion" app_time + get0 "www.notion.so" site_time + get0 "notion.so" site_time in
  let coding_time :=
    sum_values (filter (fun p => mem (Str.lower (fst p)) CODING_APPS) app_time) +
    sum_values (filter (fun p => existsb (fun coding_site => Str.contains coding_site
                                                             (Str.lower (fst p)))
                                         CODING_SITES) site_time) in
  let ai_chat_time := aggregate_ai_chat_time hour_web hour_window in
  let ai_chat_total := sum_values ai_chat_time in
  let coding_tools := aggregate_coding_tools_time hour_window hour_web in
  let coding_tools_total := sum_values coding_tools in
  let planning_tools := aggregate_planning_time hour_window hour_web ai_chat_time in
  let planning_total := sum_values planning_tools in
  let top_apps := firstn 5 (sort_desc app_time) in
  let top_apps :=
    match top_apps, web_app_time with
    | [], _ :: _ => firstn 5 (sort_desc web_app_time)
    | _, _ => top_apps
    end in
  let total_app_time := sum_values app_time in
  let total_web_time := sum_values site_time in
  let active_time := if 0 <? total_app_time then total_app_time else total_web_time in
  mkHourStats top_sites notion_time coding_time top_apps active_time total_app_time
              total_web_time ai_chat_time ai_chat_total coding_tools coding_tools_total
              planning_tools planning_total.

(** The loop of [compute_hourly_stats] that separates the buckets. *)
Definition split_buckets (all_data : list (string * list Event))
    : list Event * list Event * list (string * list Event) :=
  fold_left (fun '(window_events, web_events, afk_events_by_host) '(bucket_name, events) =>
               if Str.contains "watcher-window" bucket_name then
                 ((window_events ++ map (fun e => with_bucket e bucket_name) events)%list,
                  web_events, afk_events_by_host)
               else if Str.contains "watcher-web" bucket_name then
                 (window_events,
                  (web_events ++ map (fun e => with_bucket e bucket_name) events)%list,
                  afk_events_by_host)
               else if Str.contains "watcher-afk" bucket_name then
                 match extract_host_from_bucket bucket_name with
                 | Some host =>
                     if String.eqb host "" then (window_events, web_events, afk_events_by_host)
                     else (window_events, web_events, dict_extend host events afk_events_by_host)
                 | None => (window_events, web_events, afk_events_by_host)
                 end
               else (window_events, web_events, afk_events_by_host))
            all_data ([], [], []).

(** [compute_hourly_stats]; [None] when it raises (an unparseable timestamp
    reaching [get_event_time_range]). *)
Definition compute_hourly_stats (all_data : list (string * list Event))
    : option (list (Z * HourStats)) :=
  let '(window_events, web_events, afk_events_by_host) := split_buckets all_data in
  match build_not_afk_periods_by_host fromisoformat afk_events_by_host with
  | None => None
  | Some not_afk_periods_by_host =>
      match filter_events_by_afk fromisoformat isoformat window_events not_afk_periods_by_host,
            filter_events_by_afk fromisoformat isoformat web_events not_afk_periods_by_host with
      | Some window_events, Some web_events =>
          let window_by_hour := bucket_events_by_hour fromisoformat utc_offset window_events in
          let web_by_hour := bucket_events_by_hour fromisoformat utc_offset web_events in
          Some (map (fun hour => (hour, hour_stats (hour_lookup hour window_by_hour)
                                                   (hour_lookup hour web_by_hour)))
                    (all_hours window_by_hour web_by_hour))
      | _, _ => None
      end
  end.

End Hourly.

(** [compute_daily_summary] *)
Definition compute_daily_summary (hourly_stats : list (Z * HourStats)) : DailySummary :=
  let add (f : HourStats -> Z) := fold_left (fun t p => t + f (snd p)) hourly_stats 0 in
  let merge (f : HourStats -> breakdown) :=
    fold_left (fun m p => bd_add_all m (f (snd p))) hourly_stats [] in
  mkDailySummary (add hs_active_time) (add coding_time) (add notion_time)
                 (add ai_chat_total) (add coding_tools_total) (add planning_total)
                 (firstn 5 (sort_desc (merge hs_top_apps)))
                 (firstn 5 (sort_desc (merge top_sites)))
                 (sort_desc (merge hs_ai_chat_time))
                 (sort_desc (merge coding_tools))
                 (sort_desc (merge planning_tools)).

(** [current_select and current_select.get("name")]: the page property
    holds a select with a non-empty name.  The argument is the name of the
    select of the property, [None] when the property, its select or the name
    is absent. *)
Definition select_name_set (current_select : option string) : bool :=
  match current_select with
  | Some name => negb (String.eqb name "")
  | None => false
  end.

(** The body of the loop of [sync_date] over the hourly stats.
    [page_select prop_name] is the name of the select of the page property
    [prop_name], as [select_name_set] takes it. *)
Definition hourly_update_step (page_select : string -> option string)
    (hourly_updates : list (string * string)) (entry : Z * HourStats)
    : list (string * string) :=
  let '(hour, stats) := entry in
  let prop_name := get_hour_property_name hour in
  if select_name_set (page_select prop_name) then hourly_updates else
  match determine_hourly_select_value stats with
  | Some suggested_value => dict_set prop_name suggested_value hourly_updates
  | None => hourly_updates
  end.

(** The dict [hourly_updates] that [sync_date] sends to Notion. *)
Definition hourly_updates (page_select : string -> option string)
    (hourly_stats : list (Z * HourStats)) : list (string * string) :=
  fold_left (hourly_update_step page_select) hourly_stats [].

End Sync.

(** ** Measures used to state properties of the hourly statistics *)
Module SyncMeasure.
Import AW Sync.
Local Open Scope string_scope.
Local Open Scope Z_scope.

(** Every entry of a breakdown is positive. *)
Definition positive_values (d : breakdown) : Prop := Forall (fun p => 0 < snd p) d.

(** An hour of the day. *)
Definition hour_range (h : Z) : Prop := 0 <= h <= 23.

(** The positive time of the window events of planning apps, the part of
    [aggregate_planning_time] that does not come from AI chats. *)
Definition planning_app_time (window_events : list Event) : Z :=
  Measure.sum_durations
    (filter (fun e => (0 <? ev_duration e) &&
                      mem (normalize_app_name (data_or_empty (ev_app e))) PLANNING_APPS)
            window_events).

(** The window events [aggregate_app_time] counts: those whose app is not
    excluded. *)
Definition app_counted (e : Event) : bool :=
  negb (mem (normalize_app_name (app_or "Unknown" (ev_app e))) EXCLUDED_APPS).

(** A loop body that either leaves the breakdown alone or adds a positive
    amount to one entry. *)
Definition adds_positive (f : breakdown -> Event -> breakdown) : Prop :=
  forall acc e, f acc e = acc \/ exists k v, 0 < v /\ f acc e = bd_add k v acc.

(** The updates [sync_date] makes, one per hour in order, when no two hours
    share a property. *)
Definition update_entries (page_select : string -> option string)
    (hourly_stats : list (Z * HourStats)) : list (string * string) :=
  flat_map (fun entry =>
              let prop_name := get_hour_property_name (fst entry) in
              if select_name_set (page_select prop_name) then [] else
              match determine_hourly_select_value (snd entry) with
              | Some v => [(prop_name, v)]
              | None => []
              end) hourly_stats.

End SyncMeasure.

(** ** A sample day for the Notion sync *)
Module SyncSamples.
Import AW Sync Samples.
Local Open Scope string_scope.
Local Open Scope Z_scope.

(** The host "laptop", not AFK from 09:00 to 10:00 UTC: 50 minutes in an
    editor, then Notion, and five minutes of ChatGPT in the browser. *)
Definition sample_sync_day : list (string * list Event) :=
  [("aw-watcher-window_laptop",
    [mkEvent "aw-watcher-window_laptop" "2024-05-01T09:00:00Z" (3000 * SEC) (Some "Code")
       (Some "main.py") None None;
     mkEvent "aw-watcher-window_laptop" "2024-05-01T09:50:00Z" (1200 * SEC) (Some "Notion")
       (Some "plan") None None]);
   ("aw-watcher-web-chrome_laptop", [laptop_tab "https://chatgpt.com/c/1" (300 * SEC)]);
   ("aw-watcher-afk_laptop",
    [mkEvent "aw-watcher-afk_laptop" "2024-05-01T09:00:00Z" (3600 * SEC) None None None
       (Some "not-afk")])].

Definition sample_ai_chat_sites : list string := ["chatgpt.com"].

Definition sample_hourly_stats : option (list (Z * HourStats)) :=
  compute_hourly_stats Concrete.fromisoformat Concrete.isoformat Concrete.utc_offset
    Concrete.url_netloc sample_ai_chat_sites sample_sync_day.

Definition sample_hourly_list : list (Z * HourStats) :=
  match sample_hourly_stats with Some stats => stats | None => [] end.

End SyncSamples.


(** ** Calendar dates: Python's [datetime.date] *)
Module Dates.

(** A [datetime.date]; [check_date] is its constructor's validation. *)
Record date := mkDate { year : Z; month : Z; day : Z }.

Definition MINYEAR : Z := 1.
Definition MAXYEAR : Z := 9999.
(** [date.max.toordinal()] *)
Definition MAXORDINAL : Z := 3652059.

Definition DAYS_IN_MONTH (month : Z) : Z :=
  nth (Z.to_nat month) [-1; 31; 28; 31; 30; 31; 30; 31; 31; 30; 31; 30; 31] 0.

Definition DAYS_BEFORE_MONTH (month : Z) : Z :=
  nth (Z.to_nat month) [-1; 0; 31; 59; 90; 120; 151; 181; 212; 243; 273; 304; 334] 0.

(** [_is_leap] *)
Definition is_leap (year : Z) : bool :=
  (year mod 4 =? 0) && (negb (year mod 100 =? 0) || (year mod 400 =? 0)).

(** [_days_before_year] *)
Definition days_before_year (year : Z) : Z :=
  let y := year - 1 in y * 365 + y / 4 - y / 100 + y / 400.

(** [_days_in_month] *)
Definition days_in_month (year month : Z) : Z :=
  if (month =? 2) && is_leap year then 29 else DAYS_IN_MONTH month.

(** [_days_before_month] *)
Definition days_before_month (year month : Z) : Z :=
  DAYS_BEFORE_MONTH month + (if (2 <? month) && is_leap year then 1 else 0).

(** [_ymd2ord] *)
Definition ymd2ord (year month day : Z) : Z :=
  days_before_year year + days_before_month year month + day.

Definition DI400Y : Z := 146097.
Definition DI100Y : Z := 36524.
Definition DI4Y : Z := 1461.

(** The end of [_ord2ymd]: the month and day of the [n]-th day (from 0) of
    a year. *)
Definition month_day_of (n : Z) (leapyear : bool) : Z * Z :=
  let month := Z.shiftr (n + 50) 5 in
  let preceding := DAYS_BEFORE_MONTH month + (if (2 <? month) && leapyear then 1 else 0) in
  if n <? preceding then
    let month := month - 1 in
    let preceding :=
      preceding - (DAYS_IN_MONTH month + (if (month =? 2) && leapyear then 1 else 0)) in
    (month, n - preceding + 1)
  else (month, n - preceding + 1).

(** [_ord2ymd] *)
Definition ord2ymd (n : Z) : Z * Z * Z :=
  let n := n - 1 in
  let n400 := n / DI400Y in let n := n mod DI400Y in
  let year := n400 * 400 + 1 in
  let n100 := n / DI100Y in let n := n mod DI100Y in
  let n4 := n / DI4Y in let n := n mod DI4Y in
  let n1 := n / 365 in let n := n mod 365 in
  let year := year + n100 * 100 + n4 * 4 + n1 in
  if (n1 =? 4) || (n100 =? 4) then (year - 1, 12, 31) else
  let leapyear := (n1 =? 3) && (negb (n4 =? 24) || (n100 =? 3)) in
  let '(month, day) := month_day_of n leapyear in
  (year, month, day).

(** [date(year, month, day)] and [d.replace(...)]: [None] when they raise
    [ValueError]. *)
Definition check_date (year month day : Z) : option date :=
  if (MINYEAR <=? year) && (year <=? MAXYEAR) && (1 <=? month) && (month <=? 12)
     && (1 <=? day) && (day <=? days_in_month year month)
  then Some (mkDate year month day) else None.

Definition valid_date (d : date) : bool :=
  match check_date (year d) (month d) (day d) with Some _ => true | None => false end.

Definition toordinal (d : date) : Z := ymd2ord (year d) (month d) (day d).

Definition fromordinal (n : Z) : date :=
  let '(y, m, d) := ord2ymd n in mkDate y m d.

(** [d + timedelta(days=days)]; [None] when it raises [OverflowError]. *)
Definition add_days (d : date) (days : Z) : option date :=
  let o := toordinal d + days in
  if (0 <? o) && (o <=? MAXORDINAL) then Some (fromordinal o) else None.

(** [d.weekday()], Monday being 0. *)
Definition weekday (d : date) : Z := (toordinal d + 6) mod 7.

Definition bind {A B} (o : option A) (f : A -> option B) : option B :=
  match o with Some a => f a | None => None end.

(** [get_week_bounds] *)
Definition get_week_bounds (d : date) : option (date * date) :=
  bind (add_days d (- weekday d)) (fun monday =>
  bind (add_days monday 6) (fun sunday => Some (monday, sunday))).

(** [get_month_bounds] *)
Definition get_month_bounds (d : date) : option (date * date) :=
  bind (check_date (year d) (month d) 1) (fun first =>
  bind (if month d =? 12
        then bind (check_date (year d + 1) 1 1) (fun next => add_days next (-1))
        else bind (check_date (year d) (month d + 1) 1) (fun next => add_days next (-1)))
       (fun last => Some (first, last))).

End Dates.

(** ** Report generation over a lookback window: [generate_all_reports] *)
Module Reports.
Import AW Dates.
Local Open Scope string_scope.
Local Open Scope Z_scope.

(** Two [date]s compare as their [(year, month, day)] tuples. *)
Definition date_cmp (a b : date) : comparison :=
  match Z.compare (year a) (year b) with
  | Eq => match Z.compare (month a) (month b) with
          | Eq => Z.compare (day a) (day b)
          | c => c
          end
  | c => c
  end.

(** [a <= b] *)
Definition date_le (a b : date) : bool :=
  match date_cmp a b with Gt => false | _ => true end.

(** [a < b] *)
Definition date_lt (a b : date) : bool :=
  match date_cmp a b with Lt => true | _ => false end.

(** [a == b], as dict keys. *)
Definition date_eqb (a b : date) : bool :=
  (year a =? year b) && (month a =? month b) && (day a =? day b).

(** [max(a, b)]: [b] only when it is greater. *)
Definition date_max (a b : date) : date := if date_lt a b then b else a.

(** [min(a, b)]: [b] only when it is smaller. *)
Definition date_min (a b : date) : date := if date_lt b a then b else a.

(** [d.isoformat()] *)
Definition date_isoformat (d : date) : string :=
  Concrete.pad 4 (year d) ++ "-" ++ Concrete.pad 2 (month d) ++ "-" ++ Concrete.pad 2 (day d).

(** [daily_aggregates[d]] / [d in daily_aggregates] *)
Fixpoint date_lookup {V} (d : date) (m : list (date * V)) : option V :=
  match m with
  | [] => None
  | (k, v) :: m' => if date_eqb d k then Some v else date_lookup d m'
  end.

(** An upper bound on the number of turns of a loop that walks from [d] to
    [e] a day (or more) at a time. *)
Definition days_fuel (d e : date) : nat := S (Z.to_nat (toordinal e - toordinal d + 1)).

(** [weekly_reports.sort(key=lambda r: r["period"]["start_date"])], stable. *)
Fixpoint insert_report (r : Report) (l : list Report) : list Report :=
  match l with
  | [] => [r]
  | r' :: l' => if String.leb (period_start r) (period_start r') then r :: l
                else r' :: insert_report r l'
  end.

Definition sort_reports_by_start (l : list Report) : list Report := fold_right insert_report [] l.

Record AllReports := mkAllReports {
  generated_at : string; timezone : string; lookback : Z;
  daily_reports : list Report; weekly_reports : list Report; monthly_reports : list Report }.

Section Generate.

Variable fromisoformat : string -> option Z.
Variable isoformat : Z -> string.
Variable url_netloc : string -> string.
Variable ai_chat_sites : list string.
(** [date.strftime(format)], as the C library formats it. *)
Variable strftime : date -> string -> string.
(** [load_aw_data_for_date_range(start_date, end_date)]: a dict from dates
    (distinct keys) to the day's buckets. *)
Variable load_aw_data_for_date_range : date -> date -> list (date * list (string * list Event)).

Let aggregate_day := aggregate_day_data fromisoformat isoformat url_netloc ai_chat_sites.

(** [daily_aggregates[d] = aggregate_day_data(all_data[d])] for each key;
    the order of the keys only decides which exception comes first. *)
Fixpoint aggregate_days (all_data : list (date * list (string * list Event)))
    : option (list (date * Aggregate)) :=
  match all_data with
  | [] => Some []
  | (d, day_data) :: rest =>
      bind (aggregate_day day_data) (fun agg =>
      bind (aggregate_days rest) (fun aggs => Some ((d, agg) :: aggs)))
  end.

(** [d = start; while d <= end: if d in daily_aggregates:
    aggs.append(daily_aggregates[d]); d += timedelta(days=1)]; [None] when
    it raises (or when the fuel runs out). *)
Fixpoint collect_aggregates (fuel : nat) (daily_aggregates : list (date * Aggregate))
    (d end_date : date) : option (list Aggregate) :=
  match fuel with
  | O => None
  | S fuel' =>
      if date_le d end_date then
        let here := match date_lookup d daily_aggregates with Some a => [a] | None => [] end in
        bind (add_days d 1) (fun d' =>
        bind (collect_aggregates fuel' daily_aggregates d' end_date) (fun rest =>
        Some (here ++ rest)%list))
      else Some []
  end.

(** The loop of the daily reports, from [current] to [today]. *)
Fixpoint daily_loop (fuel : nat) (daily_aggregates : list (date * Aggregate))
    (current today : date) : option (list Report) :=
  match fuel with
  | O => None
  | S fuel' =>
      if date_le current today then
        bind (match date_lookup current daily_aggregates with
              | Some agg => Some agg
              | None => aggregate_day []
              end) (fun agg =>
        let report := generate_report agg "daily" (strftime current "%Y-%m-%d")
                        (date_isoformat current) (date_isoformat current) in
        bind (add_days current 1) (fun current' =>
        bind (daily_loop fuel' daily_aggregates current' today) (fun rest =>
        Some (report :: rest))))
      else Some []
  end.

(** The loop of the weekly reports: [seen_weeks], [current],
    [weeks_generated] and [weekly_reports] are its state. *)
Fixpoint weekly_loop (fuel : nat) (daily_aggregates : list (date * Aggregate))
    (start_date today : date) (seen_weeks : list string) (current : date)
    (weeks_generated : Z) (weekly : list Report) : option (list Report) :=
  match fuel with
  | O => None
  | S fuel' =>
      if (weeks_generated <? 5) && date_le start_date current then
        bind (get_week_bounds current) (fun '(week_start, week_end) =>
        let week_key := date_isoformat week_start in
        bind (if existsb (String.eqb week_key) seen_weeks
              then Some (seen_weeks, weeks_generated, weekly)
              else
                let effective_start := date_max week_start start_date in
                let effective_end := date_min week_end today in
                bind (collect_aggregates (days_fuel effective_start effective_end)
                        daily_aggregates effective_start effective_end) (fun week_aggs =>
                let weekly' :=
                  match week_aggs with
                  | [] => weekly
                  | _ :: _ =>
                      (weekly ++ [generate_report (merge_aggregates week_aggs) "weekly"
                                   ("Week of " ++ strftime week_start "%Y-%m-%d")
                                   (date_isoformat effective_start)
                                   (date_isoformat effective_end)])%list
                  end in
                Some (week_key :: seen_weeks, weeks_generated + 1, weekly')))
          (fun '(seen', generated', weekly') =>
        bind (add_days current (-7)) (fun current' =>
        weekly_loop fuel' daily_aggregates start_date today seen' current' generated' weekly')))
      else Some weekly
  end.

(** [generate_all_reports(lookback_days)]; [today] is
    [datetime.now(TARGET_TZ).date()] and [now_iso] the [generated_at] text. *)
Definition generate_all_reports (now_iso tz_name : string) (today : date) (lookback_days : Z)
    : option AllReports :=
  bind (add_days today (- (lookback_days - 1))) (fun start_date =>
  let all_data := load_aw_data_for_date_range start_date today in
  bind (aggregate_days all_data) (fun daily_aggregates =>
  bind (daily_loop (days_fuel start_date today) daily_aggregates start_date today)
    (fun daily =>
  bind (weekly_loop (days_fuel start_date today) daily_aggregates start_date today
          [] today 0 []) (fun weekly =>
  let weekly := sort_reports_by_start weekly in
  bind (get_month_bounds today) (fun '(month_start, month_end) =>
  let effective_start := date_max month_start start_date in
  let effective_end := date_min month_end today in
  bind (collect_aggregates (days_fuel effective_start effective_end)
          daily_aggregates effective_start effective_end) (fun month_aggs =>
  let monthly :=
    match month_aggs with
    | [] => []
    | _ :: _ => [generate_report (merge_aggregates month_aggs) "monthly"
                   (strftime today "%Y-%m")
                   (date_isoformat effective_start) (date_isoformat effective_end)]
    end in
  Some (mkAllReports now_iso tz_name lookback_days daily weekly monthly))))))).

End Generate.

End Reports.

(** A lookback window of ten days ending on Wednesday 2024-05-15, with data
    on the 7th and the 14th. *)
Module ReportSamples.
Import AW Dates Reports.
Local Open Scope string_scope.
Local Open Scope Z_scope.

Definition sample_today : date := mkDate 2024 5 15.

Definition sample_load (start_date end_date : date) : list (date * list (string * list Event)) :=
  [(mkDate 2024 5 14, []); (mkDate 2024 5 7, [])].

Definition sample_reports : option AllReports :=
  generate_all_reports Concrete.fromisoformat Concrete.isoformat Concrete.url_netloc AI_CHAT_SITES
    (fun _ _ => "") sample_load "2024-05-15T18:00:00+08:00" "Asia/Singapore" sample_today 10.

Definition sample_out : AllReports :=
  match sample_reports with Some out => out | None => mkAllReports "" "" 0 [] [] [] end.

End ReportSamples.

(** * Proofs *)
(* ================================================================== *)

(** ** Interval Merger *)
Module IntervalFacts.
Import Intervals.

Lemma insert_by_start_perm : forall x l, Permutation (x :: l) (insert_by_start x l).
Proof.
  intros x l; induction l as [|y l IH]; simpl; [reflexivity|].
  destruct (fst x <=? fst y); [reflexivity|].
  rewrite perm_swap. constructor. exact IH.
Qed.

Lemma sort_by_start_perm : forall l, Permutation l (sort_by_start l).
Proof.
  induction l as [|x l IH]; simpl; [constructor|].
  rewrite <- insert_by_start_perm. constructor. exact IH.
Qed.

Lemma insert_by_start_sorted : forall x l,
  Sorted start_le l -> Sorted start_le (insert_by_start x l).
Proof.
  intros x l; induction l as [|y l IH]; intros Hs; simpl.
  - repeat constructor.
  - unfold start_le in *.
    destruct (fst x <=? fst y) eqn:E.
    + apply Z.leb_le in E. constructor; [exact Hs|constructor; exact E].
    + apply Z.leb_gt in E. inversion Hs as [|? ? Hl Hh]; subst.
      constructor; [apply IH; exact Hl|].
      destruct l as [|z l]; simpl; [constructor; unfold start_le; lia|].
      inversion Hh; subst.
      destruct (fst x <=? fst z); constructor; unfold start_le in *; lia.
Qed.

Lemma sort_by_start_sorted : forall l, Sorted start_le (sort_by_start l).
Proof.
  induction l; simpl; [constructor|]. apply insert_by_start_sorted; assumption.
Qed.

Lemma sort_by_start_strongly_sorted : forall l, StronglySorted start_le (sort_by_start l).
Proof.
  intros l. apply Sorted_StronglySorted; [|apply sort_by_start_sorted].
  intros a b c; unfold start_le; lia.
Qed.

Lemma covered_cons : forall x l t, covered (x :: l) t <-> covers x t \/ covered l t.
Proof.
  intros x l t; unfold covered; split.
  - intros [i [[<-|Hi] Hc]]; [left; exact Hc|right; exists i; auto].
  - intros [Hc|[i [Hi Hc]]]; [exists x; simpl; auto|exists i; simpl; auto].
Qed.

Lemma covered_perm : forall l l' t, Permutation l l' -> covered l t -> covered l' t.
Proof.
  intros l l' t Hp [i [Hi Hc]]. exists i. split; [|exact Hc].
  eapply Permutation_in; eassumption.
Qed.

(** The invariant of the merge loop, for a start-sorted input of well-formed
    intervals: the output starts no earlier than [last], consecutive entries
    are separated, every entry is well formed, and the same points are
    covered. *)
Lemma merge_scan_inv : forall rest last,
  StronglySorted start_le (last :: rest) -> well_formed last ->
  Forall well_formed rest ->
  Forall (start_le last) (merge_scan last rest) /\
  StronglySorted separated (merge_scan last rest) /\
  Forall well_formed (merge_scan last rest) /\
  (forall t, covered (merge_scan last rest) t <-> covers last t \/ covered rest t).
Proof.
  induction rest as [|[s e] rest IH]; intros last Hss Hwl Hwr; simpl.
  - split; [constructor; [unfold start_le; lia|constructor]|].
    split; [repeat constructor|].
    split; [constructor; [exact Hwl|constructor]|].
    intros t. rewrite covered_cons. unfold covered; simpl. firstorder.
  - inversion Hss as [|? ? Hss' Hfl]; subst.
    inversion Hfl as [|? ? Hls Hlr]; subst.
    inversion Hss' as [|? ? Hssr Hfr]; subst.
    inversion Hwr as [|? ? Hwse Hwr']; subst.
    unfold start_le, well_formed in *; simpl in *.
    destruct (s <=? snd last) eqn:E.
    + apply Z.leb_le in E.
      destruct (IH (fst last, Z.max (snd last) e)) as [H1 [H2 [H3 H4]]].
      * constructor; [exact Hssr|].
        eapply Forall_impl; [|exact Hlr]. unfold start_le; simpl; lia.
      * unfold well_formed; simpl; lia.
      * exact Hwr'.
      * split; [eapply Forall_impl; [|exact H1]; unfold start_le; simpl; lia|].
        split; [exact H2|]. split; [exact H3|].
        intros t. rewrite H4, !covered_cons.
        assert (covers (fst last, Z.max (snd last) e) t <->
                covers last t \/ covers (s, e) t) by (unfold covers; simpl; lia).
        tauto.
    + apply Z.leb_gt in E.
      destruct (IH (s, e)) as [H1 [H2 [H3 H4]]];
        [constructor; assumption|exact Hwse|exact Hwr'|].
      split.
      { constructor; [unfold start_le; lia|].
        eapply Forall_impl; [|exact H1]. unfold start_le; simpl; lia. }
      split.
      { constructor; [exact H2|].
        eapply Forall_impl; [|exact H1]. unfold start_le, separated; simpl; lia. }
      split; [constructor; assumption|].
      intros t. rewrite !covered_cons, H4. tauto.
Qed.

(** On an already separated, start-sorted list the sort and the scan are the
    identity. *)
Lemma sort_by_start_id : forall l,
  StronglySorted start_le l -> sort_by_start l = l.
Proof.
  induction l as [|x l IH]; intros Hs; simpl; [reflexivity|].
  inversion Hs as [|? ? Hl Hf]; subst. rewrite (IH Hl).
  destruct l as [|y l]; simpl; [reflexivity|].
  inversion Hf; subst. unfold start_le in *.
  destruct (fst x <=? fst y) eqn:E; [reflexivity|apply Z.leb_gt in E; lia].
Qed.

Lemma merge_scan_id : forall l x,
  StronglySorted separated (x :: l) -> merge_scan x l = x :: l.
Proof.
  induction l as [|[s e] l IH]; intros x Hs; simpl; [reflexivity|].
  inversion Hs as [|? ? Hl Hf]; subst. inversion Hf; subst.
  unfold separated in *; simpl in *.
  destruct (s <=? snd x) eqn:E; [apply Z.leb_le in E; lia|].
  rewrite (IH (s, e) Hl). reflexivity.
Qed.

Lemma StronglySorted_weaken {A} (P : A -> Prop) (R R' : A -> A -> Prop) :
  (forall a b, P a -> P b -> R a b -> R' a b) ->
  forall l, Forall P l -> StronglySorted R l -> StronglySorted R' l.
Proof.
  intros HR; induction l as [|x l IH]; intros Hp Hs; [constructor|].
  inversion Hp as [|? ? Hx Hl]; inversion Hs as [|? ? Hs' Hf]; subst.
  constructor; [apply IH; assumption|].
  rewrite Forall_forall in *. intros y Hy. apply HR; auto.
Qed.

Lemma merge_intervals_inv : forall intervals,
  Forall well_formed intervals ->
  StronglySorted separated (merge_intervals intervals) /\
  Forall well_formed (merge_intervals intervals) /\
  (forall t, covered (merge_intervals intervals) t <-> covered intervals t).
Proof.
  intros l Hw. unfold merge_intervals.
  pose proof (sort_by_start_perm l) as Hp.
  pose proof (sort_by_start_strongly_sorted l) as Hs.
  assert (Hw' : Forall well_formed (sort_by_start l)).
  { rewrite Forall_forall in *. intros x Hx. apply Hw.
    eapply Permutation_in; [symmetry; exact Hp|exact Hx]. }
  destruct (sort_by_start l) as [|first rest] eqn:E.
  - apply Permutation_sym, Permutation_nil in Hp; subst.
    split; [constructor|]. split; [constructor|]. reflexivity.
  - inversion Hw' as [|? ? Hf Hr]; subst.
    destruct (merge_scan_inv rest first Hs Hf Hr) as [_ [H2 [H3 H4]]].
    split; [exact H2|]. split; [exact H3|].
    intros t. rewrite H4, <- covered_cons. split; apply covered_perm;
      [symmetry|]; exact Hp.
Qed.

Example merge_intervals_example :
  merge_intervals [(5, 8); (0, 3); (3, 4); (10, 12); (7, 9)] = [(0, 4); (5, 9); (10, 12)].
Proof. reflexivity. Qed.

(** C1: for well-formed input intervals, [merge_intervals] returns intervals
    that are sorted by start, pairwise disjoint and not even touching
    (touching inputs are merged), cover exactly the points the inputs cover,
    and re-merging the output returns it unchanged. *)
Theorem merge_intervals_spec : forall intervals : list interval,
  Forall well_formed intervals ->
  StronglySorted start_le (merge_intervals intervals) /\
  StronglySorted disjoint (merge_intervals intervals) /\
  StronglySorted separated (merge_intervals intervals) /\
  (forall t, covered (merge_intervals intervals) t <-> covered intervals t) /\
  merge_intervals (merge_intervals intervals) = merge_intervals intervals.
Proof.
  intros l Hw. destruct (merge_intervals_inv l Hw) as [Hsep [Hwm Hcov]].
  assert (Hst : StronglySorted start_le (merge_intervals l)).
  { eapply StronglySorted_weaken; [|exact Hwm|exact Hsep].
    unfold well_formed, separated, start_le; intros; lia. }
  split; [exact Hst|].
  split.
  { eapply StronglySorted_weaken; [|exact Hwm|exact Hsep].
    unfold well_formed, separated, disjoint, covers; intros; lia. }
  split; [exact Hsep|]. split; [exact Hcov|].
  set (m := merge_intervals l) in *.
  unfold merge_intervals at 1. rewrite (sort_by_start_id m Hst).
  destruct m as [|x r] eqn:Em; [reflexivity|].
  apply merge_scan_id. exact Hsep.
Qed.

End IntervalFacts.

(** ** AFK Reconciler *)
Module AfkFacts.
Import AW.
Local Open Scope Z_scope.

Section Afk.
Variable fromisoformat : string -> option Z.
Variable isoformat : Z -> string.

Lemma filter_loop_nil_map : forall events,
  filter_loop fromisoformat isoformat [] events = Some events.
Proof.
  induction events as [|e es IH]; simpl; [reflexivity|].
  unfold filter_event. rewrite IH.
  destruct (extract_host_from_bucket (ev_bucket e)); reflexivity.
Qed.

Lemma filter_events_by_afk_loop : forall m events,
  filter_events_by_afk fromisoformat isoformat events m =
  filter_loop fromisoformat isoformat m events.
Proof.
  intros m events. unfold filter_events_by_afk.
  destruct events as [|e es]; [reflexivity|].
  destruct m as [|p m]; [symmetry; apply filter_loop_nil_map|reflexivity].
Qed.

Lemma filter_loop_app : forall m l1 l2,
  filter_loop fromisoformat isoformat m (l1 ++ l2) =
  match filter_loop fromisoformat isoformat m l1,
        filter_loop fromisoformat isoformat m l2 with
  | Some a, Some b => Some (a ++ b)
  | _, _ => None
  end.
Proof.
  intros m l1 l2. induction l1 as [|e l1 IH]; simpl.
  - destruct (filter_loop fromisoformat isoformat m l2); reflexivity.
  - rewrite IH.
    destruct (filter_event fromisoformat isoformat m e);
      [|reflexivity].
    destruct (filter_loop fromisoformat isoformat m l1); [|reflexivity].
    destruct (filter_loop fromisoformat isoformat m l2); [|reflexivity].
    rewrite app_assoc. reflexivity.
Qed.

(** The periods loop emits one event per period with a non-empty overlap. *)
Lemma clip_to_periods_spec : forall e s en periods,
  clip_to_periods isoformat e s en periods =
  map (fun i => with_timestamp_duration e (isoformat (Z.max s (fst i)))
                  (Z.min en (snd i) - Z.max s (fst i)))
      (filter (fun i => Z.max s (fst i) <? Z.min en (snd i)) periods).
Proof.
  intros e s en; induction periods as [|[a b] ps IH]; simpl; [reflexivity|].
  destruct (Z.max s a <? Z.min en b); simpl; rewrite IH; reflexivity.
Qed.

(** C2: [filter_events_by_afk] treats each event on its own, in order:
    an event whose bucket yields no host, or whose host has no entry in the
    map, is passed through unchanged; an event whose host maps to the empty
    set yields nothing; an event of a host with a non-empty set and a
    parseable timestamp yields one event per period whose intersection with
    [[start, start + duration)] is non-empty, stamped with the intersection's
    start and lasting its length.  With the set [[T, T+3600)] an event over
    [[T-10, T+10)] yields exactly one event at [T] lasting 10 seconds. *)
Theorem filter_events_by_afk_spec :
  (forall (m : period_map) (events : list Event),
     filter_events_by_afk fromisoformat isoformat events m =
     filter_loop fromisoformat isoformat m events) /\
  (forall (m : period_map) e es out out',
     filter_event fromisoformat isoformat m e = Some out ->
     filter_loop fromisoformat isoformat m es = Some out' ->
     filter_loop fromisoformat isoformat m (e :: es) = Some (out ++ out')) /\
  (forall (m : period_map) e,
     extract_host_from_bucket (ev_bucket e) = None ->
     filter_event fromisoformat isoformat m e = Some [e]) /\
  (forall (m : period_map) e host,
     extract_host_from_bucket (ev_bucket e) = Some host ->
     lookup host m = None ->
     filter_event fromisoformat isoformat m e = Some [e]) /\
  (forall (m : period_map) e host,
     extract_host_from_bucket (ev_bucket e) = Some host ->
     lookup host m = Some [] ->
     filter_event fromisoformat isoformat m e = Some []) /\
  (forall (m : period_map) e host periods start,
     extract_host_from_bucket (ev_bucket e) = Some host ->
     lookup host m = Some periods -> periods <> [] ->
     ev_timestamp e <> ""%string ->
     parse_timestamp fromisoformat (ev_timestamp e) = Some start ->
     filter_event fromisoformat isoformat m e =
     Some (map (fun i => with_timestamp_duration e (isoformat (Z.max start (fst i)))
                          (Z.min (start + ev_duration e) (snd i) - Z.max start (fst i)))
               (filter (fun i => Z.max start (fst i) <? Z.min (start + ev_duration e) (snd i))
                       periods))) /\
  (forall e host T,
     extract_host_from_bucket (ev_bucket e) = Some host ->
     ev_timestamp e <> ""%string ->
     parse_timestamp fromisoformat (ev_timestamp e) = Some (T - 10 * SEC) ->
     ev_duration e = 20 * SEC ->
     filter_events_by_afk fromisoformat isoformat [e] [(host, [(T, T + 3600 * SEC)])] =
     Some [with_timestamp_duration e (isoformat T) (10 * SEC)]).
Proof.
  split; [exact filter_events_by_afk_loop|].
  split; [intros m e es out out' H1 H2; simpl; rewrite H1, H2; reflexivity|].
  split; [intros m e H; unfold filter_event; rewrite H; reflexivity|].
  split; [intros m e h H1 H2; unfold filter_event; rewrite H1, H2; reflexivity|].
  split; [intros m e h H1 H2; unfold filter_event; rewrite H1, H2; reflexivity|].
  split.
  - intros m e h ps st H1 H2 H3 H4 H5. unfold filter_event, get_event_time_range.
    rewrite H1, H2. apply String.eqb_neq in H4. rewrite H4, H5.
    destruct ps as [|p ps]; [congruence|].
    rewrite <- clip_to_periods_spec. reflexivity.
  - intros e h T H1 H2 H3 H4. simpl. unfold filter_event, get_event_time_range.
    rewrite H1. simpl. rewrite String.eqb_refl.
    apply String.eqb_neq in H2. rewrite H2, H3, H4. simpl.
    replace (Z.max (T - 10000000) T) with T by lia.
    replace (Z.min (T - 10000000 + 20000000) (T + 3600000000))
      with (T + 10000000) by lia.
    rewrite (proj2 (Z.ltb_lt T (T + 10000000))) by lia.
    simpl. do 3 f_equal. lia.
Qed.

(** C10: with a non-empty map, an event of a host tracked with a non-empty
    set but without a timestamp is dropped: the output is the one for the
    list without it.  With the empty map every event is returned unchanged. *)
Theorem filter_events_by_afk_missing_timestamp :
  (forall (m : period_map) e host periods pre post,
     extract_host_from_bucket (ev_bucket e) = Some host ->
     lookup host m = Some periods -> periods <> [] ->
     ev_timestamp e = ""%string ->
     filter_events_by_afk fromisoformat isoformat (pre ++ e :: post) m =
     filter_events_by_afk fromisoformat isoformat (pre ++ post) m) /\
  (forall events,
     filter_events_by_afk fromisoformat isoformat events [] = Some events).
Proof.
  split.
  - intros m e h ps pre post H1 H2 H3 H4.
    rewrite !filter_events_by_afk_loop, !filter_loop_app. simpl.
    unfold filter_event at 1. unfold get_event_time_range.
    rewrite H1, H2, H4. simpl. destruct ps as [|p ps]; [congruence|].
    destruct (filter_loop fromisoformat isoformat m pre); [|reflexivity].
    destruct (filter_loop fromisoformat isoformat m post); reflexivity.
  - intros events. rewrite filter_events_by_afk_loop. apply filter_loop_nil_map.
Qed.

End Afk.
End AfkFacts.

(** ** AFK Reconciler: clipped totals *)
Module AfkTotals.
Import AW Measure.
Local Open Scope Z_scope.

Lemma count_points_indicator : forall c n j,
  count_points c n (indicator j) =
  Z.max 0 (Z.min (snd j) (c + Z.of_nat n) - Z.max (fst j) c).
Proof.
  intros c n [a b]; induction n as [|n IH]; simpl count_points.
  - simpl. lia.
  - rewrite IH. unfold indicator; simpl.
    destruct (a <=? c + Z.of_nat n) eqn:E1; destruct (c + Z.of_nat n <? b) eqn:E2;
      simpl; rewrite ?Z.leb_le, ?Z.leb_gt, ?Z.ltb_lt, ?Z.ltb_ge in *; lia.
Qed.

Lemma count_points_add : forall c n f g,
  count_points c n (fun t => f t + g t) = count_points c n f + count_points c n g.
Proof. intros c n f g; induction n; simpl; lia. Qed.

Lemma count_points_zero : forall c n, count_points c n (fun _ => 0) = 0.
Proof. intros c n; induction n; simpl; lia. Qed.

Lemma count_points_one : forall c n, count_points c n (fun _ => 1) = Z.of_nat n.
Proof. intros c n; induction n; simpl count_points; lia. Qed.

Lemma count_points_le : forall c n f g,
  (forall t, f t <= g t) -> count_points c n f <= count_points c n g.
Proof. intros c n f g H; induction n; simpl; [lia|]. specialize (H (c + Z.of_nat n)); lia. Qed.

Lemma zsum_map_add {A} : forall (f g : A -> Z) l,
  zsum (map (fun x => f x + g x) l) = zsum (map f l) + zsum (map g l).
Proof. intros f g; induction l; simpl; lia. Qed.

Lemma zsum_map_le {A} : forall (f g : A -> Z) l,
  Forall (fun x => f x <= g x) l -> zsum (map f l) <= zsum (map g l).
Proof. intros f g l H; induction H; simpl; lia. Qed.

Lemma zsum_app : forall l1 l2, zsum (l1 ++ l2) = zsum l1 + zsum l2.
Proof. induction l1 as [|x l1 IH]; simpl; intros; [lia|rewrite IH; lia]. Qed.

(** Exchanging the two sums of a double sum over lists. *)
Lemma zsum_swap {A B} : forall (g : A -> B -> Z) la lb,
  zsum (map (fun a => zsum (map (g a) lb)) la) =
  zsum (map (fun b => zsum (map (fun a => g a b) la)) lb).
Proof.
  intros g la lb; induction la as [|a la IH]; simpl.
  - induction lb; simpl; lia.
  - rewrite IH, (zsum_map_add (g a) (fun b => zsum (map (fun a => g a b) la))). reflexivity.
Qed.

Section Spans.
Variable fromisoformat : string -> option Z.

Lemma indicator_bounds : forall j t, 0 <= indicator j t <= 1.
Proof. intros j t; unfold indicator; destruct (_ && _); lia. Qed.

(** At most one of pairwise disjoint spans contains a point. *)
Lemma span_indicator_sum_le_1 : forall events t,
  ForallOrdPairs (spans_disjoint fromisoformat) events ->
  zsum (map (fun e => span_indicator fromisoformat e t) events) <= 1.
Proof.
  induction events as [|e es IH]; intros t H; simpl; [lia|].
  inversion H as [|? ? Hf Hr]; subst.
  specialize (IH t Hr).
  unfold span_indicator at 1.
  destruct (event_span fromisoformat e) as [j|] eqn:Ej; [|lia].
  unfold indicator at 1.
  destruct ((fst j <=? t) && (t <? snd j)) eqn:Ein; [|lia].
  assert (Hz : zsum (map (fun e => span_indicator fromisoformat e t) es) = 0).
  { clear IH Hr H. induction Hf as [|e' es' Hd Hf' IHf]; simpl; [reflexivity|].
    rewrite IHf. unfold span_indicator, spans_disjoint in *. rewrite Ej in Hd.
    destruct (event_span fromisoformat e') as [j'|]; [|lia].
    unfold indicator. destruct ((fst j' <=? t) && (t <? snd j')) eqn:E'; [|lia].
    exfalso. apply (Hd t). unfold covers.
    apply andb_prop in Ein, E'. destruct Ein as [A1 A2], E' as [B1 B2].
    apply Z.leb_le in A1, B1. apply Z.ltb_lt in A2, B2. lia. }
  lia.
Qed.

Lemma span_overlap_as_count : forall e a b, a <= b ->
  span_overlap fromisoformat e (a, b) = count_points a (Z.to_nat (b - a)) (span_indicator fromisoformat e).
Proof.
  intros e a b Hab. unfold span_overlap, span_indicator.
  destruct (event_span fromisoformat e) as [j|].
  - rewrite count_points_indicator. unfold overlap_len; simpl.
    rewrite Z2Nat.id by lia. replace (a + (b - a)) with b by lia. reflexivity.
  - symmetry. apply count_points_zero.
Qed.

(** Pairwise disjoint spans overlap a well-formed period for at most its
    length in total. *)
Lemma span_overlap_total_le : forall events a b,
  a <= b -> ForallOrdPairs (spans_disjoint fromisoformat) events ->
  zsum (map (fun e => span_overlap fromisoformat e (a, b)) events) <= b - a.
Proof.
  intros events a b Hab Hd.
  assert (Hc : zsum (map (fun e => span_overlap fromisoformat e (a, b)) events) =
               count_points a (Z.to_nat (b - a))
                 (fun t => zsum (map (fun e => span_indicator fromisoformat e t) events))).
  { clear Hd. induction events as [|e es IH]; simpl.
    - symmetry. apply count_points_zero.
    - rewrite count_points_add, IH, span_overlap_as_count by exact Hab. reflexivity. }
  rewrite Hc.
  eapply Z.le_trans.
  - apply count_points_le with (g := fun _ => 1). intros t. apply span_indicator_sum_le_1, Hd.
  - rewrite count_points_one. lia.
Qed.

Variable isoformat : Z -> string.

Lemma sum_durations_app : forall l1 l2,
  sum_durations (l1 ++ l2) = sum_durations l1 + sum_durations l2.
Proof. intros; unfold sum_durations; rewrite map_app; apply zsum_app. Qed.

Lemma zsum_map_zero {A} : forall (l : list A), zsum (map (fun _ => 0) l) = 0.
Proof. induction l; simpl; lia. Qed.

Lemma clip_to_periods_sum : forall e s en periods,
  sum_durations (clip_to_periods isoformat e s en periods) =
  zsum (map (overlap_len (s, en)) periods).
Proof.
  intros e s en; induction periods as [|[a b] ps IH]; simpl; [reflexivity|].
  unfold overlap_len at 1; simpl.
  destruct (Z.max s a <? Z.min en b) eqn:E;
    [apply Z.ltb_lt in E|apply Z.ltb_ge in E];
    unfold sum_durations in *; simpl; rewrite IH; simpl; lia.
Qed.

Lemma clip_to_periods_host : forall host e s en periods,
  events_of_host host (clip_to_periods isoformat e s en periods) =
  if of_host host e then clip_to_periods isoformat e s en periods else [].
Proof.
  intros host e s en; induction periods as [|[a b] ps IH]; simpl;
    [destruct (of_host host e); reflexivity|].
  destruct (Z.max s a <? Z.min en b); [|exact IH].
  unfold events_of_host in *; simpl. rewrite IH.
  unfold of_host; simpl.
  destruct (extract_host_from_bucket (ev_bucket e)) as [h|];
    [destruct (String.eqb host h)|]; reflexivity.
Qed.

(** What one event contributes to the host's clipped total. *)
Lemma filter_event_host_sum : forall m host periods e out,
  lookup host m = Some periods ->
  filter_event fromisoformat isoformat m e = Some out ->
  sum_durations (events_of_host host out) =
  if of_host host e then zsum (map (span_overlap fromisoformat e) periods) else 0.
Proof.
  intros m host periods e out Hl Hf. unfold filter_event in Hf.
  assert (Ho : of_host host e =
               match extract_host_from_bucket (ev_bucket e) with
               | Some h => String.eqb host h | None => false end) by reflexivity.
  assert (Hs : forall l, events_of_host host (e :: l) =
               if of_host host e then e :: events_of_host host l else events_of_host host l)
    by reflexivity.
  destruct (extract_host_from_bucket (ev_bucket e)) as [h|] eqn:Eh.
  - destruct (lookup h m) as [ps|] eqn:Em.
    + destruct ps as [|p ps].
      * injection Hf as <-. rewrite Ho. simpl. destruct (String.eqb host h) eqn:E; [|reflexivity].
        apply String.eqb_eq in E; subst. rewrite Hl in Em. injection Em as ->. reflexivity.
      * unfold span_overlap, event_span.
        remember (p :: ps) as ps' eqn:Eps.
        destruct (get_event_time_range fromisoformat e) as [[|s en]|]; [| |discriminate].
        -- injection Hf as <-. rewrite Ho. simpl. destruct (String.eqb host h); [|reflexivity].
           symmetry. apply zsum_map_zero.
        -- injection Hf as <-. rewrite clip_to_periods_host, Ho.
           destruct (String.eqb host h) eqn:E; [|reflexivity].
           apply String.eqb_eq in E; subst. rewrite Hl in Em. injection Em as <-.
           apply clip_to_periods_sum.
    + injection Hf as <-. rewrite Hs, Ho.
      destruct (String.eqb host h) eqn:E; [|reflexivity].
      apply String.eqb_eq in E; subst. congruence.
  - injection Hf as <-. rewrite Hs, Ho. reflexivity.
Qed.

Lemma filter_loop_host_sum : forall m host periods events out,
  lookup host m = Some periods ->
  filter_loop fromisoformat isoformat m events = Some out ->
  sum_durations (events_of_host host out) =
  zsum (map (fun e => zsum (map (span_overlap fromisoformat e) periods))
            (events_of_host host events)).
Proof.
  intros m host periods events; induction events as [|e es IH]; intros out Hl Hf; simpl in Hf.
  - injection Hf as <-. reflexivity.
  - destruct (filter_event fromisoformat isoformat m e) as [oe|] eqn:E1; [|discriminate].
    destruct (filter_loop fromisoformat isoformat m es) as [oes|] eqn:E2; [|discriminate].
    injection Hf as <-.
    replace (events_of_host host (oe ++ oes))
      with (events_of_host host oe ++ events_of_host host oes) by (symmetry; apply filter_app).
    rewrite sum_durations_app.
    rewrite (filter_event_host_sum m host periods e oe Hl E1), (IH oes Hl eq_refl).
    change (events_of_host host (e :: es)) with
      (if of_host host e then e :: events_of_host host es else events_of_host host es).
    destruct (of_host host e); simpl; lia.
Qed.

(** C8 (amended): when the host's own events do not overlap one another,
    the durations of the events [filter_events_by_afk] emits for that host
    add up to at most the total length of the host's Active Period Set. *)
Theorem filter_events_by_afk_host_total :
  forall (m : period_map) events out host periods,
    filter_events_by_afk fromisoformat isoformat events m = Some out ->
    lookup host m = Some periods ->
    Forall well_formed periods ->
    ForallOrdPairs (spans_disjoint fromisoformat) (events_of_host host events) ->
    sum_durations (events_of_host host out) <= period_total periods.
Proof.
  intros m events out host periods Hf Hl Hw Hd.
  rewrite AfkFacts.filter_events_by_afk_loop in Hf.
  rewrite (filter_loop_host_sum m host periods events out Hl Hf), zsum_swap.
  unfold period_total. apply zsum_map_le.
  rewrite Forall_forall in *. intros [a b] Hin.
  apply span_overlap_total_le; [apply (Hw _ Hin)|exact Hd].
Qed.

End Spans.

End AfkTotals.

(** ** Hour Bucketer *)
Module HourFacts.
Import AW Measure.
Local Open Scope Z_scope.

Section Hours.
Variable fromisoformat : string -> option Z.
Variable utc_offset : Z -> Z.

Lemma HOUR_pos : 0 < HOUR.
Proof. unfold HOUR, SEC; lia. Qed.

Lemma seconds_into_hour_bounds : forall t,
  0 <= seconds_into_hour utc_offset t < HOUR.
Proof. intros t. apply Z.mod_pos_bound, HOUR_pos. Qed.

(** The full-hour loop: its fragments and the duration it leaves add up to
    the duration it starts with, and it leaves a positive duration when it
    starts with one. *)
Lemma full_hours_total : forall fuel e h rd frags h' r,
  full_hours fuel e h rd = (frags, h', r) ->
  fragments_total frags + r = rd /\ (0 < rd -> 0 < r).
Proof.
  induction fuel as [|fuel IH]; intros e h rd frags h' r E; simpl in E.
  - injection E as <- <- <-. simpl. lia.
  - rewrite Z.gtb_ltb in E. destruct (HOUR <? rd) eqn:C.
    + apply Z.ltb_lt in C.
      destruct (full_hours fuel e ((h + 1) mod 24) (rd - HOUR)) as [[fr hh] rr] eqn:E'.
      injection E as <- <- <-. destruct (IH _ _ _ _ _ _ E') as [H1 H2].
      unfold fragments_total in *. cbn [map zsum snd].
      unfold with_duration, with_timestamp_duration; cbn [ev_duration].
      pose proof HOUR_pos. lia.
    + injection E as <- <- <-. simpl. lia.
Qed.

Lemma fragments_total_app : forall a b,
  fragments_total (a ++ b) = fragments_total a + fragments_total b.
Proof. intros; unfold fragments_total; rewrite map_app; apply AfkTotals.zsum_app. Qed.

Lemma hour_fragments_positive : forall e dt,
  ev_timestamp e <> ""%string ->
  parse_timestamp fromisoformat (ev_timestamp e) = Some dt ->
  0 < ev_duration e ->
  exists frags, hour_fragments fromisoformat utc_offset e = Some frags /\
                fragments_total frags = ev_duration e.
Proof.
  intros e dt Hts Hp Hd. unfold hour_fragments.
  apply String.eqb_neq in Hts. rewrite Hts, Hp.
  pose proof (seconds_into_hour_bounds dt) as Hb.
  set (d := ev_duration e) in *. set (sih := seconds_into_hour utc_offset dt) in *.
  rewrite (proj2 (Z.leb_gt d 0) Hd).
  destruct (d <=? HOUR - sih) eqn:C.
  - eexists; split; [reflexivity|]. unfold fragments_total; cbn [map zsum snd]. lia.
  - apply Z.leb_gt in C. rewrite Z.min_l by lia. rewrite Z.gtb_ltb.
    rewrite (proj2 (Z.ltb_lt 0 (HOUR - sih))) by lia.
    destruct (full_hours _ e ((local_hour utc_offset dt + 1) mod 24) (d - (HOUR - sih)))
      as [[mid lh] r] eqn:E.
    destruct (full_hours_total _ _ _ _ _ _ _ E) as [H1 H2].
    rewrite Z.gtb_ltb, (proj2 (Z.ltb_lt 0 r)) by lia.
    eexists; split; [reflexivity|].
    clear E. rewrite !fragments_total_app. unfold fragments_total in *. cbn [map zsum snd].
    unfold with_duration, with_timestamp_duration; cbn [ev_duration]. lia.
Qed.

Lemma hourly_total_append : forall h e acc,
  hourly_total (dict_append Z.eqb h e acc) = hourly_total acc + ev_duration e.
Proof.
  intros h e acc; induction acc as [|[h' es] acc IH]; simpl.
  - unfold hourly_total, sum_durations; simpl. lia.
  - destruct (h =? h'); unfold hourly_total in *; simpl in *.
    + rewrite AfkTotals.sum_durations_app. unfold sum_durations; simpl. lia.
    + rewrite IH. lia.
Qed.

Lemma hourly_total_add_fragments : forall frags acc,
  hourly_total (add_fragments acc frags) = hourly_total acc + fragments_total frags.
Proof.
  induction frags as [|[h e] frags IH]; intros acc; simpl.
  - unfold fragments_total; simpl. lia.
  - unfold add_fragments in *; simpl. rewrite IH, hourly_total_append.
    unfold fragments_total; simpl. lia.
Qed.


(** C3: for an event with a parseable timestamp and a positive duration, the
    fragments [bucket_events_by_hour] makes of it have durations summing to
    exactly that duration (also as the total over the hour buckets of the
    one-event input); an event with duration <= 0 goes unchanged, whole, to
    the bucket of its start hour. *)
Theorem hour_fragments_sum : forall e dt,
  ev_timestamp e <> ""%string ->
  parse_timestamp fromisoformat (ev_timestamp e) = Some dt ->
  (0 < ev_duration e ->
   exists frags, hour_fragments fromisoformat utc_offset e = Some frags /\
                 fragments_total frags = ev_duration e /\
                 hourly_total (bucket_events_by_hour fromisoformat utc_offset [e]) = ev_duration e) /\
  (ev_duration e <= 0 ->
   hour_fragments fromisoformat utc_offset e = Some [(local_hour utc_offset dt, e)] /\
   bucket_events_by_hour fromisoformat utc_offset [e] = [(local_hour utc_offset dt, [e])]).
Proof.
  intros e dt Hts Hp. split.
  - intros Hd. destruct (hour_fragments_positive e dt Hts Hp Hd) as [frags [Hf Ht]].
    exists frags. split; [exact Hf|]. split; [exact Ht|].
    unfold bucket_events_by_hour; simpl. rewrite Hf, hourly_total_add_fragments, Ht.
    unfold hourly_total; simpl. lia.
  - intros Hd.
    assert (Hf : hour_fragments fromisoformat utc_offset e = Some [(local_hour utc_offset dt, e)]).
    { unfold hour_fragments. apply String.eqb_neq in Hts. rewrite Hts, Hp.
      rewrite (proj2 (Z.leb_le (ev_duration e) 0) Hd). reflexivity. }
    split; [exact Hf|].
    unfold bucket_events_by_hour; simpl. rewrite Hf. reflexivity.
Qed.

(** C7, as the code behaves: an event starting in local hour 23 and lasting
    7200 seconds is cut into fragments of the hours 23, 0 and 1 when it starts
    after 23:00:00 sharp, and of the hours 23 and 0 only when it starts at
    23:00:00.000000 exactly (its second hour then ends on the hour). *)
Theorem hour_fragments_hour_23 : forall e dt,
  ev_timestamp e <> ""%string ->
  parse_timestamp fromisoformat (ev_timestamp e) = Some dt ->
  local_hour utc_offset dt = 23 ->
  ev_duration e = 7200 * SEC ->
  exists frags, hour_fragments fromisoformat utc_offset e = Some frags /\
    map fst frags = (if seconds_into_hour utc_offset dt =? 0 then [23; 0] else [23; 0; 1]).
Proof.
  intros e dt Hts Hp Hh Hd.
  pose proof (seconds_into_hour_bounds dt) as Hb.
  unfold hour_fragments. apply String.eqb_neq in Hts. rewrite Hts, Hp, Hd, Hh.
  set (sih := seconds_into_hour utc_offset dt) in *.
  assert (HH : HOUR = 3600 * SEC) by reflexivity.
  rewrite (proj2 (Z.leb_gt (7200 * SEC) 0)) by (unfold SEC; lia).
  rewrite (proj2 (Z.leb_gt (7200 * SEC) (HOUR - sih))) by (unfold SEC in *; lia).
  rewrite Z.min_l by (unfold SEC in *; lia).
  rewrite Z.gtb_ltb, (proj2 (Z.ltb_lt 0 (HOUR - sih))) by lia.
  replace (7200 * SEC - (HOUR - sih)) with (HOUR + sih) by (unfold SEC in *; lia).
  replace ((23 + 1) mod 24) with 0 by reflexivity.
  assert (Hq : (HOUR + sih) / HOUR = 1).
  { symmetry. apply Z.div_unique with sih; lia. }
  rewrite Hq. change (Z.to_nat 1) with 1%nat. cbn [full_hours].
  rewrite !Z.gtb_ltb.
  destruct (Z.eqb_spec sih 0) as [H0|H0].
  - rewrite H0, Z.add_0_r, Z.ltb_irrefl.
    eexists; split; [reflexivity|]. reflexivity.
  - rewrite (proj2 (Z.ltb_lt HOUR (HOUR + sih))) by lia.
    replace (HOUR + sih - HOUR) with sih by lia.
    rewrite (proj2 (Z.ltb_ge HOUR sih)) by lia.
    rewrite Z.gtb_ltb, (proj2 (Z.ltb_lt 0 sih)) by lia.
    eexists; split; [reflexivity|]. reflexivity.
Qed.

End Hours.
End HourFacts.

(** ** Event Deduplicator *)
Module DedupFacts.
Import AW Measure.
Local Open Scope Z_scope.

Section Dedup.
Variable fromisoformat : string -> option Z.
Variables day_start day_end : Z.
























End Dedup.
End DedupFacts.

(** ** Aggregator and Rollup *)
Module AggFacts.
Import AW Measure.
Local Open Scope Z_scope.

Lemma sum_values_bd_add : forall k v d, sum_values (bd_add k v d) = sum_values d + v.
Proof.
  intros k v d; induction d as [|[k' v'] d IH]; simpl; [lia|].
  destruct (String.eqb k k'); simpl; lia.
Qed.

Lemma sum_values_bd_add_all : forall d m,
  sum_values (bd_add_all m d) = sum_values m + sum_values d.
Proof.
  induction d as [|[k v] d IH]; intros m; unfold bd_add_all in *; simpl; [lia|].
  rewrite IH, sum_values_bd_add. lia.
Qed.

Lemma aggregate_of_invariant : forall acc, sum_invariant (aggregate_of acc).
Proof. intros acc; repeat split. Qed.

Lemma merge_one_invariant : forall m a,
  sum_invariant m -> sum_invariant a -> sum_invariant (merge_one m a).
Proof.
  intros m a (H1 & H2 & H3 & H4) (G1 & G2 & G3 & G4).
  unfold sum_invariant, merge_one; simpl. rewrite !sum_values_bd_add_all. lia.
Qed.

Lemma merge_fold_invariant : forall l m,
  sum_invariant m -> Forall sum_invariant l -> sum_invariant (fold_left merge_one l m).
Proof.
  induction l as [|a l IH]; intros m Hm Hl; simpl; [exact Hm|].
  inversion Hl; subst. apply IH; [apply merge_one_invariant|]; assumption.
Qed.

(** C4: every Aggregate that [aggregate_day_data] returns has each scalar
    total equal to the sum of its breakdown (dev_time and dev_tools,
    planning_time and planning_apps, ai_chat_time and ai_chats, active_time
    and top_apps), and [merge_aggregates] keeps this invariant. *)
Theorem aggregate_sum_invariant :
  (forall fromisoformat isoformat url_netloc ai_chat_sites day_data a,
     aggregate_day_data fromisoformat isoformat url_netloc ai_chat_sites day_data = Some a ->
     sum_invariant a) /\
  (forall aggregates, Forall sum_invariant aggregates ->
     sum_invariant (merge_aggregates aggregates)).
Proof.
  split.
  - intros fi iso un ai dd a H. unfold aggregate_day_data in H.
    destruct (build_not_afk_periods_by_host _ _) as [m|]; [|discriminate].
    destruct (filter_events_by_afk _ _ _ m) as [w|]; [|discriminate].
    destruct (filter_events_by_afk _ _ (collect_events "watcher-web" dd) m) as [web|];
      [|discriminate].
    injection H as <-. apply aggregate_of_invariant.
  - intros l Hl. apply merge_fold_invariant; [repeat split | exact Hl].
Qed.

Lemma merge_fold_field : forall (f : Totals -> Z),
  (forall a b, f (add_totals a b) = f a + f b) ->
  forall l m, f (totals (fold_left merge_one l m)) = f (totals m) + field_total f l.
Proof.
  intros f Hf l; induction l as [|a l IH]; intros m; unfold field_total in *; simpl; [lia|].
  rewrite IH. unfold merge_one; simpl. rewrite Hf. lia.
Qed.

Lemma generate_report_summary : forall aggregate pt pl sd ed,
  total_active_time (summary (generate_report aggregate pt pl sd ed)) =
    time_figures (active_time (totals aggregate)) /\
  sum_dev_time (summary (generate_report aggregate pt pl sd ed)) =
    time_figures (dev_time (totals aggregate)) /\
  sum_planning_time (summary (generate_report aggregate pt pl sd ed)) =
    time_figures (planning_time (totals aggregate)) /\
  sum_ai_chat_time (summary (generate_report aggregate pt pl sd ed)) =
    time_figures (ai_chat_time (totals aggregate)).
Proof.
  intros. unfold generate_report.
  destruct (0 <? dev_time (totals aggregate) + planning_time (totals aggregate));
    repeat split.
Qed.

(** C5, as the code behaves: the totals of [merge_aggregates] are the
    field-wise sums of the totals of the merged Aggregates, and the summary
    of the Report built from the merge gives the rounded figures
    ([round(x, 1)] seconds, [round(x / 60, 1)] minutes, [round(x / 3600, 2)]
    hours) of these exact sums; each daily Report rounds its own totals, so
    the sum of the daily figures may differ from them by the rounding. *)
Theorem merge_aggregates_report_totals : forall aggregates pt pl sd ed,
  total_active_time (summary (generate_report (merge_aggregates aggregates) pt pl sd ed)) =
    time_figures (field_total active_time aggregates) /\
  sum_dev_time (summary (generate_report (merge_aggregates aggregates) pt pl sd ed)) =
    time_figures (field_total dev_time aggregates) /\
  sum_planning_time (summary (generate_report (merge_aggregates aggregates) pt pl sd ed)) =
    time_figures (field_total planning_time aggregates) /\
  sum_ai_chat_time (summary (generate_report (merge_aggregates aggregates) pt pl sd ed)) =
    time_figures (field_total ai_chat_time aggregates).
Proof.
  intros aggregates pt pl sd ed.
  destruct (generate_report_summary (merge_aggregates aggregates) pt pl sd ed)
    as (H1 & H2 & H3 & H4).
  unfold merge_aggregates in *.
  rewrite H1, H2, H3, H4.
  rewrite !(merge_fold_field _ (fun a b => eq_refl)). simpl. repeat split.
Qed.

End AggFacts.

(** ** AI chat classification *)
Module AiChatFacts.
Import AW.
Local Open Scope string_scope.
Local Open Scope Z_scope.

(** Of the AI chat sites, only "chat.openai.com" matches the domain
    "chat.openai.com" (as a substring of it or as a suffix). *)
Lemma only_openai_matches : forall ai_site,
  In ai_site AI_CHAT_SITES ->
  (Str.contains ai_site "chat.openai.com" || Str.endswith "chat.openai.com" ai_site) = true ->
  ai_site = "chat.openai.com".
Proof.
  intros ai_site Hin Hm. simpl in Hin.
  repeat (destruct Hin as [<-|Hin]; [vm_compute in Hm; first [reflexivity | discriminate Hm]|]).
  destruct Hin.
Qed.

Lemma ai_chat_name_from_unique : forall sites,
  In "chat.openai.com" sites ->
  (forall ai_site, In ai_site sites ->
     (Str.contains ai_site "chat.openai.com" || Str.endswith "chat.openai.com" ai_site) = true ->
     ai_site = "chat.openai.com") ->
  ai_chat_name_from sites "chat.openai.com" = Some "ChatGPT".
Proof.
  induction sites as [|x sites IH]; intros Hin Hu; [destruct Hin|]. cbn [ai_chat_name_from].
  destruct (Str.contains x "chat.openai.com" || Str.endswith "chat.openai.com" x) eqn:Hm.
  - rewrite (Hu x (or_introl eq_refl) Hm). reflexivity.
  - destruct Hin as [->|Hin].
    + vm_compute in Hm. discriminate Hm.
    + apply IH; [exact Hin|]. intros y Hy. apply Hu. right; exact Hy.
Qed.

(** Whatever order the set AI_CHAT_SITES is iterated in. *)
Lemma get_ai_chat_name_openai : forall sites,
  Permutation sites AI_CHAT_SITES ->
  get_ai_chat_name sites "chat.openai.com" = Some "ChatGPT".
Proof.
  intros sites Hp. unfold get_ai_chat_name.
  change (Str.lower "chat.openai.com") with "chat.openai.com".
  apply ai_chat_name_from_unique.
  - apply (Permutation_in _ (Permutation_sym Hp)). simpl; tauto.
  - intros y Hy. apply only_openai_matches. exact (Permutation_in _ Hp Hy).
Qed.

Lemma dev_site_step_openai : forall d acc,
  dev_site_step "chat.openai.com" d DEV_TOOL_SITES acc = acc.
Proof. intros; reflexivity. Qed.

(** C9: a browser-tab event of positive duration whose URL has the domain
    "chat.openai.com" is labelled "ChatGPT" by the web loop of
    [aggregate_day_data], which adds its duration both to the ai_chats and
    to the planning_apps breakdowns (the same amount to each) and leaves the
    other breakdowns alone; this holds for any iteration order of the set
    AI_CHAT_SITES. *)
Theorem web_step_chatgpt : forall url_netloc sites acc e,
  Permutation sites AI_CHAT_SITES ->
  url_netloc (data_or_empty (ev_url e)) = "chat.openai.com" ->
  0 < ev_duration e ->
  web_step url_netloc sites acc e =
    mkAcc (acc_dev acc) (bd_add "ChatGPT" (ev_duration e) (acc_ai acc))
          (bd_add "ChatGPT" (ev_duration e) (acc_plan acc)) (acc_all acc).
Proof.
  intros url_netloc sites acc e Hp Hn Hd. unfold web_step.
  rewrite Hn, (proj2 (Z.leb_gt (ev_duration e) 0) Hd), (get_ai_chat_name_openai sites Hp).
  rewrite dev_site_step_openai. reflexivity.
Qed.

End AiChatFacts.

(** ** Hourly statistics: bucket keys, breakdowns and totals *)
Module SyncFacts.
Import AW Measure Sync SyncMeasure.
Local Open Scope Z_scope.

(** *** Breakdowns built with [d[k] += v] *)

Lemma bd_add_keys : forall k v d x,
  In x (map fst (bd_add k v d)) <-> x = k \/ In x (map fst d).
Proof.
  intros k v d x; induction d as [|[k' v'] d IH]; simpl.
  - intuition congruence.
  - destruct (String.eqb k k') eqn:E; simpl.
    + apply String.eqb_eq in E; subst; intuition congruence.
    + rewrite IH; intuition congruence.
Qed.

Lemma bd_add_nodup : forall k v d, NoDup (map fst d) -> NoDup (map fst (bd_add k v d)).
Proof.
  intros k v d; induction d as [|[k' v'] d IH]; simpl; intros Hd.
  - repeat constructor; simpl; tauto.
  - inversion Hd as [|? ? Hn Hd']; subst.
    destruct (String.eqb k k') eqn:E; simpl; [exact Hd|].
    constructor; [|exact (IH Hd')].
    rewrite bd_add_keys. apply String.eqb_neq in E. intros [H|H]; [congruence|tauto].
Qed.

Lemma bd_add_positive : forall k v d,
  0 < v -> positive_values d -> positive_values (bd_add k v d).
Proof.
  unfold positive_values; intros k v d Hv; induction d as [|[k' v'] d IH]; simpl; intros Hd.
  - repeat constructor; simpl; lia.
  - inversion Hd as [|? ? Hp Hd']; subst; simpl in Hp.
    destruct (String.eqb k k'); constructor; simpl; auto; lia.
Qed.

Lemma bd_add_all_positive : forall d m,
  positive_values m -> positive_values d -> positive_values (bd_add_all m d).
Proof.
  induction d as [|[k v] d IH]; intros m Hm Hd; unfold bd_add_all in *; simpl; [exact Hm|].
  inversion Hd; subst. apply IH; [apply bd_add_positive|]; assumption.
Qed.

Lemma positive_values_sum : forall d, positive_values d -> 0 <= sum_values d.
Proof.
  unfold positive_values; induction d as [|[k v] d IH]; simpl; intros H; [lia|].
  inversion H; subst; simpl in *. specialize (IH H3). lia.
Qed.

(** *** The hour keys of [bucket_events_by_hour] *)

Lemma dict_append_keys : forall {V} (k : Z) (v : V) d x,
  In x (map fst (dict_append Z.eqb k v d)) <-> x = k \/ In x (map fst d).
Proof.
  intros V k v d x; induction d as [|[k' vs] d IH]; simpl.
  - intuition congruence.
  - destruct (Z.eqb k k') eqn:E; simpl.
    + apply Z.eqb_eq in E; subst; intuition congruence.
    + rewrite IH; intuition congruence.
Qed.

Lemma dict_append_nodup : forall {V} (k : Z) (v : V) d,
  NoDup (map fst d) -> NoDup (map fst (dict_append Z.eqb k v d)).
Proof.
  intros V k v d; induction d as [|[k' vs] d IH]; simpl; intros Hd.
  - repeat constructor; simpl; tauto.
  - inversion Hd as [|? ? Hn Hd']; subst.
    destruct (Z.eqb k k') eqn:E; simpl; [exact Hd|].
    constructor; [|exact (IH Hd')].
    rewrite dict_append_keys. apply Z.eqb_neq in E. intros [H|H]; [congruence|tauto].
Qed.

Lemma local_hour_range : forall utc_offset t, hour_range (local_hour utc_offset t).
Proof.
  intros utc_offset t. unfold hour_range, local_hour.
  assert (HH : 0 < HOUR) by (unfold HOUR, SEC; lia).
  pose proof (Z.mod_pos_bound (local_time utc_offset t) DAY ltac:(unfold DAY; lia)) as Hm.
  split; [apply Z.div_pos; lia|].
  assert (local_time utc_offset t mod DAY / HOUR < 24); [|lia].
  apply Z.div_lt_upper_bound; [lia|]. unfold DAY in *. lia.
Qed.

Lemma next_hour_range : forall h, hour_range ((h + 1) mod 24).
Proof. intros h; unfold hour_range; pose proof (Z.mod_pos_bound (h + 1) 24); lia. Qed.

Lemma full_hours_range : forall fuel e h rd frags h' r,
  hour_range h -> full_hours fuel e h rd = (frags, h', r) ->
  Forall (fun p => hour_range (fst p)) frags /\ hour_range h'.
Proof.
  induction fuel as [|fuel IH]; intros e h rd frags h' r Hh E; simpl in E.
  - injection E as <- <- <-. auto.
  - destruct (rd >? HOUR).
    + destruct (full_hours fuel e ((h + 1) mod 24) (rd - HOUR)) as [[fr hh] rr] eqn:E'.
      injection E as <- <- <-.
      destruct (IH _ _ _ _ _ _ (next_hour_range h) E') as [H1 H2]. auto.
    + injection E as <- <- <-. auto.
Qed.

Lemma hour_fragments_range : forall fromisoformat utc_offset e frags,
  hour_fragments fromisoformat utc_offset e = Some frags ->
  Forall (fun p => hour_range (fst p)) frags.
Proof.
  intros fi off e frags. unfold hour_fragments.
  destruct (String.eqb (ev_timestamp e) "") ; [discriminate|].
  destruct (parse_timestamp fi (ev_timestamp e)) as [dt|]; [|discriminate].
  pose proof (local_hour_range off dt) as Hl.
  destruct (ev_duration e <=? 0); [intros [= <-]; constructor; auto|].
  destruct (ev_duration e <=? HOUR - seconds_into_hour off dt);
    [intros [= <-]; constructor; auto|].
  set (first_chunk := Z.min _ _).
  destruct (first_chunk >? 0);
  match goal with
  | |- context [full_hours ?f ?e ?h ?r] =>
      destruct (full_hours f e h r) as [[mid lh] rest] eqn:E;
      destruct (full_hours_range _ _ _ _ _ _ _ (next_hour_range _) E) as [H1 H2]
  end;
  intros [= <-]; destruct (rest >? 0); cbn [app];
  repeat first [apply Forall_cons | rewrite Forall_app; split]; auto.
Qed.

Lemma add_fragments_inv : forall frags acc,
  Forall (fun p => hour_range (fst p)) frags ->
  NoDup (map fst acc) -> Forall hour_range (map fst acc) ->
  NoDup (map fst (add_fragments acc frags)) /\
  Forall hour_range (map fst (add_fragments acc frags)).
Proof.
  unfold add_fragments; induction frags as [|[h e] frags IH]; intros acc Hf Hn Hr; simpl;
    [auto|].
  inversion Hf; subst. apply IH; auto.
  - apply dict_append_nodup; exact Hn.
  - apply Forall_forall; intros x Hx. apply dict_append_keys in Hx as [->|Hx]; auto.
    rewrite Forall_forall in Hr; auto.
Qed.

Lemma bucket_keys_inv : forall fromisoformat utc_offset events,
  NoDup (map fst (bucket_events_by_hour fromisoformat utc_offset events)) /\
  Forall hour_range (map fst (bucket_events_by_hour fromisoformat utc_offset events)).
Proof.
  intros fi off events. unfold bucket_events_by_hour.
  assert (G : forall acc, NoDup (map fst acc) -> Forall hour_range (map fst acc) ->
    NoDup (map fst (fold_left (fun acc event =>
               match hour_fragments fi off event with
               | None => acc
               | Some frags => add_fragments acc frags
               end) events acc)) /\
    Forall hour_range (map fst (fold_left (fun acc event =>
               match hour_fragments fi off event with
               | None => acc
               | Some frags => add_fragments acc frags
               end) events acc))).
  { induction events as [|e events IH]; intros acc Hn Hr; simpl; [auto|].
    destruct (hour_fragments fi off e) as [frags|] eqn:E; apply IH; auto;
      apply add_fragments_inv; auto; eapply hour_fragments_range; eauto. }
  apply G; constructor.
Qed.


(** *** The breakdowns of one hour *)

Lemma fold_adds_positive : forall f, adds_positive f -> forall evs acc,
  positive_values acc -> NoDup (map fst acc) ->
  positive_values (fold_left f evs acc) /\ NoDup (map fst (fold_left f evs acc)).
Proof.
  intros f Hf evs; induction evs as [|e evs IH]; intros acc Hp Hn; simpl; [auto|].
  apply IH; destruct (Hf acc e) as [->|(k & v & Hv & ->)]; auto.
  - apply bd_add_positive; auto.
  - apply bd_add_nodup; auto.
Qed.

Lemma ai_web_step_adds : forall url_netloc sites, adds_positive (ai_web_step url_netloc sites).
Proof.
  intros url_netloc sites acc e. unfold ai_web_step; cbv zeta.
  destruct (ev_duration e <=? 0) eqn:D; [left; reflexivity|]. apply Z.leb_gt in D.
  destruct (ai_site_match _ _); [right; eauto|left; reflexivity].
Qed.

Lemma ai_window_step_adds : adds_positive ai_window_step.
Proof.
  intros acc e. unfold ai_window_step; cbv zeta.
  destruct (ev_duration e <=? 0) eqn:D; [left; reflexivity|]. apply Z.leb_gt in D.
  destruct (mem _ AI_CHAT_APPS); [right; eauto|left; reflexivity].
Qed.

Lemma coding_window_step_adds : adds_positive coding_window_step.
Proof.
  intros acc e. unfold coding_window_step; cbv zeta.
  destruct (ev_duration e <=? 0) eqn:D; [left; reflexivity|]. apply Z.leb_gt in D.
  destruct (mem _ EXCLUDED_APPS); [left; reflexivity|].
  destruct (mem _ TERMINAL_APPS); [destruct (detect_terminal_tool _); right; eauto|].
  destruct (mem _ CODING_APPS); [right; eauto|left; reflexivity].
Qed.

Lemma dev_site_add_shape : forall domain d sites acc, 0 < d ->
  dev_site_add domain d sites acc = acc \/
  exists k v, 0 < v /\ dev_site_add domain d sites acc = bd_add k v acc.
Proof.
  intros domain d sites acc Hd; induction sites as [|[site name] sites IH]; simpl; auto.
  destruct (_ || _); eauto.
Qed.

Lemma coding_web_step_adds : forall url_netloc, adds_positive (coding_web_step url_netloc).
Proof.
  intros url_netloc acc e. unfold coding_web_step; cbv zeta.
  destruct (ev_duration e <=? 0) eqn:D; [left; reflexivity|]. apply Z.leb_gt in D.
  apply dev_site_add_shape; exact D.
Qed.

Lemma planning_window_step_adds : adds_positive planning_window_step.
Proof.
  intros acc e. unfold planning_window_step; cbv zeta.
  destruct (ev_duration e <=? 0) eqn:D; [left; reflexivity|]. apply Z.leb_gt in D.
  destruct (mem _ PLANNING_APPS); [right; eauto|left; reflexivity].
Qed.

Lemma bd_add_all_nodup : forall d m,
  NoDup (map fst m) -> NoDup (map fst (bd_add_all m d)).
Proof.
  induction d as [|[k v] d IH]; intros m Hm; unfold bd_add_all in *; simpl; [exact Hm|].
  apply IH, bd_add_nodup, Hm.
Qed.

Lemma planning_fold_sum : forall evs acc,
  sum_values (fold_left planning_window_step evs acc) = sum_values acc + planning_app_time evs.
Proof.
  unfold planning_app_time, sum_durations.
  induction evs as [|e evs IH]; intros acc; cbn [fold_left filter map zsum]; [lia|].
  rewrite IH. unfold planning_window_step; cbv zeta.
  destruct (ev_duration e <=? 0) eqn:D.
  - apply Z.leb_le in D. rewrite (proj2 (Z.ltb_ge _ _) D). cbn [andb]. lia.
  - apply Z.leb_gt in D. rewrite (proj2 (Z.ltb_lt _ _) D). cbn [andb].
    destruct (mem (normalize_app_name (data_or_empty (ev_app e))) PLANNING_APPS);
      cbn [map zsum]; [rewrite AggFacts.sum_values_bd_add|]; lia.
Qed.

Lemma hour_stats_inv : forall url_netloc ai_chat_sites hour_window hour_web,
  let hs := hour_stats url_netloc ai_chat_sites hour_window hour_web in
  positive_values (hs_ai_chat_time hs) /\ NoDup (map fst (hs_ai_chat_time hs)) /\
  positive_values (coding_tools hs) /\ NoDup (map fst (coding_tools hs)) /\
  positive_values (planning_tools hs) /\ NoDup (map fst (planning_tools hs)) /\
  planning_total hs = planning_app_time hour_window + ai_chat_total hs /\
  0 <= ai_chat_total hs <= planning_total hs.
Proof.
  intros url_netloc sites w web hs.
  assert (E0 : positive_values [] /\ NoDup (map fst ([] : breakdown))) by
    (split; constructor).
  assert (Hai : positive_values (hs_ai_chat_time hs) /\ NoDup (map fst (hs_ai_chat_time hs))).
  { subst hs; simpl. unfold aggregate_ai_chat_time.
    destruct (fold_adds_positive _ (ai_web_step_adds url_netloc sites) web [] (proj1 E0) (proj2 E0))
      as [P1 N1].
    apply fold_adds_positive; auto using ai_window_step_adds. }
  assert (Hcod : positive_values (coding_tools hs) /\ NoDup (map fst (coding_tools hs))).
  { subst hs; simpl. unfold aggregate_coding_tools_time.
    destruct (fold_adds_positive _ coding_window_step_adds w [] (proj1 E0) (proj2 E0))
      as [P1 N1].
    apply fold_adds_positive; auto using coding_web_step_adds. }
  destruct (fold_adds_positive _ planning_window_step_adds w [] (proj1 E0) (proj2 E0))
    as [P2 N2].
  assert (Hsum : planning_total hs = planning_app_time w + ai_chat_total hs).
  { subst hs; simpl. unfold aggregate_planning_time.
    rewrite AggFacts.sum_values_bd_add_all, planning_fold_sum. simpl. lia. }
  assert (Hpl : 0 <= planning_app_time w).
  { unfold planning_app_time, sum_durations. clear. induction w as [|e w IH];
      cbn [filter map zsum]; [lia|].
    destruct ((0 <? ev_duration e) && _) eqn:C; cbn [map zsum]; [|exact IH].
    apply andb_true_iff in C as [C _]. apply Z.ltb_lt in C. lia. }
  assert (Hai0 : 0 <= ai_chat_total hs) by (subst hs; apply positive_values_sum, Hai).
  destruct Hai as [Hai1 Hai2]. destruct Hcod as [Hc1 Hc2].
  split; [exact Hai1|]. split; [exact Hai2|]. split; [exact Hc1|]. split; [exact Hc2|].
  split; [subst hs; simpl; unfold aggregate_planning_time;
          apply bd_add_all_positive; auto|].
  split; [subst hs; simpl; unfold aggregate_planning_time; apply bd_add_all_nodup; auto|].
  split; [exact Hsum|]. lia.
Qed.

Lemma app_time_fold : forall evs acc,
  let r := fold_left (fun app_time event =>
               let app := normalize_app_name (app_or "Unknown" (ev_app event)) in
               if mem app EXCLUDED_APPS then app_time
               else bd_add app (ev_duration event) app_time) evs acc in
  NoDup (map fst acc) -> Forall (fun app => mem app EXCLUDED_APPS = false) (map fst acc) ->
  NoDup (map fst r) /\ Forall (fun app => mem app EXCLUDED_APPS = false) (map fst r) /\
  sum_values r = sum_values acc + sum_durations (filter app_counted evs).
Proof.
  induction evs as [|e evs IH]; intros acc r Hn Hx; subst r; cbn [fold_left filter].
  - unfold sum_durations; cbn [map zsum]. repeat split; auto. lia.
  - assert (Hc : app_counted e =
                 negb (mem (normalize_app_name (app_or "Unknown" (ev_app e))) EXCLUDED_APPS))
      by reflexivity.
    rewrite Hc.
    destruct (mem (normalize_app_name (app_or "Unknown" (ev_app e))) EXCLUDED_APPS) eqn:M;
      cbn [negb].
    + apply IH; auto.
    + destruct (IH (bd_add (normalize_app_name (app_or "Unknown" (ev_app e))) (ev_duration e) acc))
        as (H1 & H2 & H3).
      * apply bd_add_nodup, Hn.
      * apply Forall_forall; intros x Hin. apply bd_add_keys in Hin as [->|Hin]; [exact M|].
        rewrite Forall_forall in Hx; auto.
      * cbv zeta in H1, H2, H3 |- *. repeat split; auto. rewrite H3, AggFacts.sum_values_bd_add.
        unfold sum_durations; cbn [map zsum]. lia.
Qed.

(** [aggregate_app_time] has one entry per normalized app name, never one
    for an excluded app, and its entries add up to the durations of all the
    events of the other apps (zero or negative durations included). *)
Theorem aggregate_app_time_spec : forall events,
  NoDup (map fst (aggregate_app_time events)) /\
  Forall (fun app => mem app EXCLUDED_APPS = false) (map fst (aggregate_app_time events)) /\
  sum_values (aggregate_app_time events) = sum_durations (filter app_counted events).
Proof.
  intros events.
  pose proof (app_time_fold events [] (NoDup_nil _) (Forall_nil _)) as (H1 & H2 & H3).
  unfold aggregate_app_time; cbv zeta in *. repeat split; auto.
Qed.

(** A loop that adds each kept event's duration under its key. *)
Lemma keyed_fold : forall (P : string -> Prop) (key : Event -> string) (keep : Event -> bool)
    (f : breakdown -> Event -> breakdown),
  (forall acc e, f acc e = if keep e then bd_add (key e) (ev_duration e) acc else acc) ->
  (forall e, keep e = true -> P (key e)) ->
  forall evs acc, NoDup (map fst acc) -> Forall P (map fst acc) ->
  NoDup (map fst (fold_left f evs acc)) /\ Forall P (map fst (fold_left f evs acc)) /\
  sum_values (fold_left f evs acc) = sum_values acc + sum_durations (filter keep evs).
Proof.
  intros P key keep f Hf HP evs. induction evs as [|e evs IH]; intros acc Hn Hx;
    cbn [fold_left filter].
  - unfold sum_durations; cbn [map zsum]. repeat split; auto. lia.
  - rewrite Hf. destruct (keep e) eqn:K.
    + destruct (IH (bd_add (key e) (ev_duration e) acc)) as (H1 & H2 & H3).
      * apply bd_add_nodup, Hn.
      * apply Forall_forall; intros x Hin. apply bd_add_keys in Hin as [->|Hin]; [auto|].
        rewrite Forall_forall in Hx; auto.
      * repeat split; auto. rewrite H3, AggFacts.sum_values_bd_add.
        unfold sum_durations; cbn [map zsum]. lia.
    + apply IH; auto.
Qed.

Lemma lower_ascii_idem : forall c, Str.lower_ascii (Str.lower_ascii c) = Str.lower_ascii c.
Proof. intros [[] [] [] [] [] [] [] []]; reflexivity. Qed.

Lemma lower_idem : forall s, Str.lower (Str.lower s) = Str.lower s.
Proof. induction s as [|c s IH]; simpl; [reflexivity|]. rewrite lower_ascii_idem, IH. reflexivity. Qed.

(** [aggregate_site_time] has one entry per domain, none for the empty
    domain, and its entries add up to the durations of the events whose URL
    has a non-empty network location. *)
Theorem aggregate_site_time_spec : forall url_netloc events,
  let r := aggregate_site_time url_netloc events in
  NoDup (map fst r) /\ ~ In ""%string (map fst r) /\
  sum_values r = sum_durations
    (filter (fun e => negb (String.eqb (url_netloc (data_or_empty (ev_url e))) "")) events).
Proof.
  intros netloc events r. subst r. unfold aggregate_site_time.
  destruct (keyed_fold (fun k => k <> ""%string)
              (fun e => netloc (data_or_empty (ev_url e)))
              (fun e => negb (String.eqb (netloc (data_or_empty (ev_url e))) ""))
              (fun site_time event =>
                 let domain := netloc (data_or_empty (ev_url event)) in
                 if String.eqb domain "" then site_time
                 else bd_add domain (ev_duration event) site_time))
    with (evs := events) (acc := @nil (string * Z)) as (H1 & H2 & H3);
    [| |exact (NoDup_nil _)|exact (Forall_nil _)|].
  - intros acc e. cbv zeta. destruct (String.eqb _ _); reflexivity.
  - intros e K. apply negb_true_iff, String.eqb_neq in K. exact K.
  - split; [exact H1|]. split; [|exact H3].
    intros Hin. rewrite Forall_forall in H2. exact (H2 _ Hin eq_refl).
Qed.

(** [aggregate_web_app_time] has one entry per lower-cased app name (the
    [watcher-web-<app>] part of the bucket, or "browser") and its entries add
    up to the durations of all the events. *)
Theorem aggregate_web_app_time_spec : forall events,
  let r := aggregate_web_app_time events in
  NoDup (map fst r) /\ Forall (fun k => Str.lower k = k) (map fst r) /\
  sum_values r = sum_durations events.
Proof.
  intros events r. subst r. unfold aggregate_web_app_time.
  destruct (keyed_fold (fun k => Str.lower k = k)
              (fun e => Str.lower (match web_app_search (ev_bucket e) with
                                   | Some g => g | None => "browser"%string end))
              (fun _ => true)
              (fun app_time event =>
                 let app := match web_app_search (ev_bucket event) with
                            | Some g => g | None => "browser"%string end in
                 bd_add (Str.lower app) (ev_duration event) app_time))
    with (evs := events) (acc := @nil (string * Z)) as (H1 & H2 & H3);
    [| |exact (NoDup_nil _)|exact (Forall_nil _)|].
  - intros acc e. reflexivity.
  - intros e _. apply lower_idem.
  - assert (Ft : forall l : list Event, filter (fun _ => true) l = l)
      by (induction l; simpl; congruence).
    rewrite Ft in H3. repeat split; auto.
Qed.


(** *** Hours of [compute_hourly_stats] *)

Lemma insert_hour_in : forall h l x, In x (insert_hour h l) <-> x = h \/ In x l.
Proof.
  intros h l x; induction l as [|y l IH]; simpl; [intuition congruence|].
  destruct (h <=? y); simpl; [intuition congruence|]. rewrite IH; intuition congruence.
Qed.

Lemma insert_hour_sorted : forall h l,
  StronglySorted Z.lt l -> ~ In h l -> StronglySorted Z.lt (insert_hour h l).
Proof.
  intros h l; induction l as [|y l IH]; intros Hs Hn; simpl.
  - repeat constructor.
  - inversion Hs as [|? ? Hs' Hf]; subst.
    destruct (h <=? y) eqn:C.
    + apply Z.leb_le in C. assert (h <> y) by (intro; apply Hn; left; auto).
      constructor; [exact Hs|]. constructor; [lia|].
      eapply Forall_impl; [|exact Hf]. simpl; intros; lia.
    + apply Z.leb_gt in C. constructor.
      * apply IH; [exact Hs'|]. intro; apply Hn; right; auto.
      * apply Forall_forall; intros x Hx. apply insert_hour_in in Hx as [->|Hx]; [lia|].
        rewrite Forall_forall in Hf; auto.
Qed.

Lemma sort_hours_spec : forall l, NoDup l ->
  StronglySorted Z.lt (sort_hours l) /\ (forall x, In x (sort_hours l) <-> In x l).
Proof.
  induction l as [|h l IH]; intros Hn; simpl.
  - split; [constructor|tauto].
  - inversion Hn as [|? ? Hh Hn']; subst. destruct (IH Hn') as [Hs Hi].
    split.
    + apply insert_hour_sorted; [exact Hs|]. rewrite Hi; exact Hh.
    + intros x. rewrite insert_hour_in, Hi. intuition congruence.
Qed.

Lemma all_hours_spec : forall a b,
  StronglySorted Z.lt (all_hours a b) /\
  (forall x, In x (all_hours a b) <-> In x (map fst a) \/ In x (map fst b)).
Proof.
  intros a b. unfold all_hours.
  destruct (sort_hours_spec _ (NoDup_nodup Z.eq_dec (map fst a ++ map fst b)%list))
    as [Hs Hi].
  split; [exact Hs|]. intros x. rewrite Hi, nodup_In, in_app_iff. tauto.
Qed.

Lemma compute_hourly_stats_shape : forall fi iso off netloc sites all_data stats,
  compute_hourly_stats fi iso off netloc sites all_data = Some stats ->
  exists window_by_hour web_by_hour,
    (NoDup (map fst window_by_hour) /\ Forall hour_range (map fst window_by_hour)) /\
    (NoDup (map fst web_by_hour) /\ Forall hour_range (map fst web_by_hour)) /\
    stats = map (fun hour => (hour, hour_stats netloc sites (hour_lookup hour window_by_hour)
                                                 (hour_lookup hour web_by_hour)))
                (all_hours window_by_hour web_by_hour).
Proof.
  intros fi iso off netloc sites all_data stats. unfold compute_hourly_stats.
  destruct (split_buckets all_data) as [[w web] afk].
  destruct (build_not_afk_periods_by_host fi afk) as [m|]; [|discriminate].
  destruct (filter_events_by_afk fi iso w m) as [w'|]; [|discriminate].
  destruct (filter_events_by_afk fi iso web m) as [web'|]; [|discriminate].
  intros [= <-]. do 2 eexists. split; [apply bucket_keys_inv|].
  split; [apply bucket_keys_inv|]. reflexivity.
Qed.

Lemma map_fst_hours : forall (f : Z -> HourStats) l, map fst (map (fun h => (h, f h)) l) = l.
Proof. intros f l; rewrite map_map; simpl; apply map_id. Qed.

(** *** The daily summary *)

Lemma insert_desc_sum : forall x l, sum_values (insert_desc x l) = snd x + sum_values l.
Proof.
  intros [k v] l; induction l as [|[k' v'] l IH]; simpl; [lia|].
  destruct (v' <=? v); simpl; [lia|]. rewrite IH. simpl. lia.
Qed.

Lemma sort_desc_sum : forall l, sum_values (sort_desc l) = sum_values l.
Proof.
  induction l as [|[k v] l IH]; simpl; [reflexivity|].
  rewrite insert_desc_sum, IH. reflexivity.
Qed.

Lemma fold_add_zsum : forall {A} (g : A -> Z) l t,
  fold_left (fun t p => t + g p) l t = t + zsum (map g l).
Proof. intros A g; induction l as [|p l IH]; intros t; simpl; [lia|]. rewrite IH. lia. Qed.

Lemma fold_merge_sum : forall {A} (g : A -> breakdown) l m,
  sum_values (fold_left (fun m p => bd_add_all m (g p)) l m) =
  sum_values m + zsum (map (fun p => sum_values (g p)) l).
Proof.
  intros A g; induction l as [|p l IH]; intros m; simpl; [lia|].
  rewrite IH, AggFacts.sum_values_bd_add_all. lia.
Qed.

Lemma zsum_le : forall {A} (f g : A -> Z) l, Forall (fun p => f p <= g p) l ->
  zsum (map f l) <= zsum (map g l).
Proof. intros A f g l H; induction H; simpl; lia. Qed.

(** *** The hourly select updates of [sync_date] *)

Lemma str_append_length : forall s t,
  String.length (s ++ t) = (String.length s + String.length t)%nat.
Proof. induction s as [|c s IH]; intros t; simpl; [reflexivity|]. rewrite IH; reflexivity. Qed.

Lemma str_append_empty_r : forall s, (s ++ "" = s)%string.
Proof. induction s as [|c s IH]; simpl; [reflexivity|]. rewrite IH. reflexivity. Qed.

Lemma str_append_cancel_r : forall s1 s2 t, (s1 ++ t = s2 ++ t)%string -> s1 = s2.
Proof.
  induction s1 as [|c s1 IH]; intros s2 t H; destruct s2 as [|d s2]; simpl in H.
  - reflexivity.
  - apply (f_equal String.length) in H. simpl in H. rewrite str_append_length in H. lia.
  - apply (f_equal String.length) in H. simpl in H. rewrite str_append_length in H. lia.
  - injection H as -> H. f_equal. eapply IH; exact H.
Qed.

Lemma string_of_uint_inj : forall u u', string_of_uint u = string_of_uint u' -> u = u'.
Proof.
  induction u; intros u' H; destruct u'; simpl in H; try discriminate; try reflexivity;
    injection H as H; f_equal; auto.
Qed.

Lemma str_int_inj : forall a b, str_int a = str_int b -> a = b.
Proof.
  intros a b. unfold str_int.
  destruct (Z.to_int a) as [u|u] eqn:Ea, (Z.to_int b) as [u'|u'] eqn:Eb; intros H.
  - apply string_of_uint_inj in H. subst. apply DecimalZ.to_int_inj. congruence.
  - destruct u; discriminate.
  - destruct u'; discriminate.
  - injection H as H. apply string_of_uint_inj in H. subst.
    apply DecimalZ.to_int_inj. congruence.
Qed.

Lemma str_int_no_leading_zero : forall a b, 0 <= a ->
  str_int b = String "0" (str_int a) -> b = a.
Proof.
  intros a b Ha. unfold str_int.
  assert (Pa : exists u, Z.to_int a = Decimal.Pos u).
  { destruct a; [eexists; reflexivity|eexists; reflexivity|lia]. }
  destruct Pa as [u Ea]. rewrite Ea.
  destruct (Z.to_int b) as [ub|ub] eqn:Eb; intros H; [|discriminate].
  destruct ub; simpl in H; try discriminate. injection H as H.
  apply string_of_uint_inj in H. subst.
  rewrite <- (DecimalZ.of_to b), <- (DecimalZ.of_to a), Ea, Eb. reflexivity.
Qed.

Lemma get_hour_property_name_inj : forall a b,
  get_hour_property_name a = get_hour_property_name b -> a = b.
Proof.
  intros a b H. unfold get_hour_property_name in H.
  apply str_append_cancel_r in H.
  destruct ((0 <=? a) && (a <? 10)) eqn:Ca, ((0 <=? b) && (b <? 10)) eqn:Cb.
  - injection H as H. apply str_int_inj, H.
  - apply andb_true_iff in Ca as [Ca1 Ca2]. apply Z.leb_le in Ca1. apply Z.ltb_lt in Ca2.
    symmetry in H. apply str_int_no_leading_zero in H; [|lia]. subst.
    rewrite (proj2 (Z.leb_le 0 a)), (proj2 (Z.ltb_lt a 10)) in Cb by lia. discriminate.
  - apply andb_true_iff in Cb as [Cb1 Cb2]. apply Z.leb_le in Cb1. apply Z.ltb_lt in Cb2.
    apply str_int_no_leading_zero in H; [|lia]. subst.
    rewrite (proj2 (Z.leb_le 0 b)), (proj2 (Z.ltb_lt b 10)) in Ca by lia. discriminate.
  - apply str_int_inj, H.
Qed.

Lemma dict_set_fresh : forall {V} k (v : V) d, ~ In k (map fst d) -> dict_set k v d = (d ++ [(k, v)])%list.
Proof.
  intros V k v d; induction d as [|[k' v'] d IH]; simpl; intros Hn; [reflexivity|].
  destruct (String.eqb k k') eqn:E.
  - apply String.eqb_eq in E. subst. exfalso; apply Hn; left; reflexivity.
  - rewrite IH; [reflexivity|]. intro; apply Hn; right; assumption.
Qed.


Lemma hourly_updates_fold : forall page_select l acc,
  NoDup (map fst l) ->
  (forall h st, In (h, st) l -> ~ In (get_hour_property_name h) (map fst acc)) ->
  fold_left (hourly_update_step page_select) l acc = (acc ++ update_entries page_select l)%list.
Proof.
  intros ps l; induction l as [|[h st] l IH]; intros acc Hn Hf; simpl.
  - rewrite app_nil_r. reflexivity.
  - inversion Hn as [|? ? Hh Hn']; subst.
    assert (Hf' : forall h' st', In (h', st') l ->
              ~ In (get_hour_property_name h') (map fst acc)).
    { intros h' st' Hi; apply (Hf h' st'); right; exact Hi. }
    destruct (select_name_set (ps (get_hour_property_name h))); simpl; [apply IH; auto|].
    destruct (determine_hourly_select_value st) as [v|]; simpl; [|apply IH; auto].
    rewrite dict_set_fresh by (apply (Hf h st); left; reflexivity).
    rewrite IH, <- app_assoc; [reflexivity|exact Hn'|].
    intros h' st' Hi. rewrite map_app, in_app_iff. intros [H|[H|[]]].
    + exact (Hf' h' st' Hi H).
    + simpl in H. apply get_hour_property_name_inj in H. subst.
      apply Hh. apply (in_map fst) in Hi. exact Hi.
Qed.

(** [sync_date] sets the select of an hour property exactly when the hour
    has statistics, its property holds no select name yet and
    [determine_hourly_select_value] suggests a value, and then it sets that
    value: it never overwrites a select that is already filled in. *)
Theorem hourly_updates_spec : forall page_select hourly_stats p v,
  NoDup (map fst hourly_stats) ->
  (In (p, v) (hourly_updates page_select hourly_stats) <->
   exists hour stats, In (hour, stats) hourly_stats /\ get_hour_property_name hour = p /\
     (page_select p = None \/ page_select p = Some ""%string) /\
     determine_hourly_select_value stats = Some v).
Proof.
  intros ps l p v Hn. unfold hourly_updates.
  rewrite hourly_updates_fold by (auto; intros; simpl; tauto). simpl.
  unfold update_entries. rewrite in_flat_map. split.
  - intros [[h st] [Hi Hp]]. simpl in Hp.
    destruct (select_name_set (ps (get_hour_property_name h))) eqn:Hs; [destruct Hp|].
    destruct (determine_hourly_select_value st) as [v'|] eqn:Hd; [|destruct Hp].
    destruct Hp as [Hp|[]]. injection Hp as <- <-.
    exists h, st. repeat split; auto.
    unfold select_name_set in Hs. destruct (ps (get_hour_property_name h)) as [n|]; auto.
    right. apply negb_false_iff, String.eqb_eq in Hs. subst. reflexivity.
  - intros (h & st & Hi & <- & Hs & Hd). exists (h, st). split; [exact Hi|]. simpl.
    assert (select_name_set (ps (get_hour_property_name h)) = false) as ->.
    { destruct Hs as [-> | ->]; reflexivity. }
    rewrite Hd. left. reflexivity.
Qed.


(** *** Rounding to minutes *)

Lemma round_div_pos_cases : forall n m, 0 < m ->
  let q := n / m in let r := n mod m in
  n = m * q + r /\ 0 <= r < m /\
  round_div n m = (if 2 * r <? m then q else if m <? 2 * r then q + 1
                   else if Z.even q then q else q + 1).
Proof.
  intros n m Hm q r. unfold round_div.
  rewrite (proj2 (Z.ltb_ge m 0)) by lia.
  split; [apply Z.div_mod; lia|]. split; [apply Z.mod_pos_bound; lia|]. reflexivity.
Qed.

Lemma round_div_zero : forall n m, 0 < m -> (round_div n m = 0 <-> - m <= 2 * n <= m).
Proof.
  intros n m Hm. destruct (round_div_pos_cases n m Hm) as (Hd & Hr & ->).
  set (q := n / m) in *. set (r := n mod m) in *. clearbody q r.
  assert (Cq : q <= -2 \/ q = -1 \/ q = 0 \/ 1 <= q) by lia.
  destruct (2 * r <? m) eqn:C1; [apply Z.ltb_lt in C1|apply Z.ltb_ge in C1].
  - destruct Cq as [Cq|[Cq|[Cq|Cq]]]; subst; split; intros; nia.
  - destruct (m <? 2 * r) eqn:C2; [apply Z.ltb_lt in C2|apply Z.ltb_ge in C2].
    + destruct Cq as [Cq|[Cq|[Cq|Cq]]]; subst; split; intros; nia.
    + destruct Cq as [Cq|[Cq|[Cq|Cq]]]; subst; cbn [Z.even];
        [destruct (Z.even q)| | |destruct (Z.even q)]; split; intros; nia.
Qed.

Lemma round_div_nonpos : forall n m, 0 < m -> (round_div n m <= 0 <-> 2 * n <= m).
Proof.
  intros n m Hm. destruct (round_div_pos_cases n m Hm) as (Hd & Hr & ->).
  set (q := n / m) in *. set (r := n mod m) in *. clearbody q r.
  assert (Cq : q <= -1 \/ q = 0 \/ 1 <= q) by lia.
  destruct (2 * r <? m) eqn:C1; [apply Z.ltb_lt in C1|apply Z.ltb_ge in C1].
  - destruct Cq as [Cq|[Cq|Cq]]; subst; split; intros; nia.
  - destruct (m <? 2 * r) eqn:C2; [apply Z.ltb_lt in C2|apply Z.ltb_ge in C2].
    + destruct Cq as [Cq|[Cq|Cq]]; subst; split; intros; nia.
    + destruct Cq as [Cq|[Cq|Cq]]; subst; cbn [Z.even];
        [destruct (Z.even q)| |destruct (Z.even q)]; split; intros; nia.
Qed.

(** A text that starts with [str(n)] never starts with ["<"]. *)
Lemma str_int_app_head : forall n t u,
  match t with String c _ => c <> "<"%char | EmptyString => True end ->
  (str_int n ++ t)%string <> String "<" u.
Proof.
  intros n t u Ht. unfold str_int.
  destruct (Z.to_int n) as [d|d]; [destruct d|]; simpl; try discriminate.
  destruct t as [|c t]; [discriminate|]. intros H; injection H as H _. exact (Ht H).
Qed.


(** *** Properties of the hourly statistics and the Notion sync *)

(** [bucket_events_by_hour] files every fragment under an hour of the day,
    [0] to [23], and under one key per hour. *)
Theorem bucket_events_by_hour_keys : forall fromisoformat utc_offset events,
  NoDup (map fst (bucket_events_by_hour fromisoformat utc_offset events)) /\
  Forall hour_range (map fst (bucket_events_by_hour fromisoformat utc_offset events)).
Proof. intros; apply bucket_keys_inv. Qed.

(** The AI chat, coding tools and planning breakdowns of an hour have one
    entry per name and only positive entries; the planning total is the time
    in planning apps plus the whole AI chat total, so it is never below the
    AI chat total, which is never negative. *)
Theorem hour_stats_breakdowns : forall url_netloc ai_chat_sites hour_window hour_web,
  let hs := hour_stats url_netloc ai_chat_sites hour_window hour_web in
  positive_values (hs_ai_chat_time hs) /\ NoDup (map fst (hs_ai_chat_time hs)) /\
  positive_values (coding_tools hs) /\ NoDup (map fst (coding_tools hs)) /\
  positive_values (planning_tools hs) /\ NoDup (map fst (planning_tools hs)) /\
  planning_total hs = planning_app_time hour_window + ai_chat_total hs /\
  0 <= ai_chat_total hs <= planning_total hs.
Proof. intros; apply hour_stats_inv. Qed.

(** The hours of [compute_hourly_stats] come in strictly increasing order
    (so each hour once) and are hours of the day, [0] to [23]. *)
Theorem compute_hourly_stats_hours :
  forall fromisoformat isoformat utc_offset url_netloc ai_chat_sites all_data hourly_stats,
  compute_hourly_stats fromisoformat isoformat utc_offset url_netloc ai_chat_sites all_data
    = Some hourly_stats ->
  StronglySorted Z.lt (map fst hourly_stats) /\ Forall hour_range (map fst hourly_stats).
Proof.
  intros fi iso off netloc sites all_data stats E.
  destruct (compute_hourly_stats_shape _ _ _ _ _ _ _ E)
    as (wb & webb & [_ Hw] & [_ Hweb] & ->).
  rewrite map_fst_hours. destruct (all_hours_spec wb webb) as [Hs Hi].
  split; [exact Hs|]. apply Forall_forall; intros h Hh. apply Hi in Hh as [Hh|Hh];
    [rewrite Forall_forall in Hw|rewrite Forall_forall in Hweb]; auto.
Qed.

(** In the daily summary of the hourly statistics, the AI chat, coding tools
    and planning breakdowns add up to the matching daily totals, and the
    daily planning total is at least the daily AI chat total, which is never
    negative. *)
Theorem compute_daily_summary_totals :
  forall fromisoformat isoformat utc_offset url_netloc ai_chat_sites all_data hourly_stats,
  compute_hourly_stats fromisoformat isoformat utc_offset url_netloc ai_chat_sites all_data
    = Some hourly_stats ->
  let summary := compute_daily_summary hourly_stats in
  sum_values (ds_ai_chats summary) = total_ai_chat_time summary /\
  sum_values (ds_coding_tools summary) = total_coding_tools_time summary /\
  sum_values (ds_planning_tools summary) = total_planning_time summary /\
  0 <= total_ai_chat_time summary <= total_planning_time summary.
Proof.
  intros fi iso off netloc sites all_data stats E summary.
  destruct (compute_hourly_stats_shape _ _ _ _ _ _ _ E) as (wb & webb & _ & _ & Hst).
  assert (Hinv : Forall (fun p => 0 <= ai_chat_total (snd p) <= planning_total (snd p)) stats).
  { rewrite Hst. apply Forall_forall; intros p Hp. apply in_map_iff in Hp as (h & <- & _).
    apply hour_stats_inv. }
  subst summary. unfold compute_daily_summary. cbv zeta.
  cbn [ds_ai_chats ds_coding_tools ds_planning_tools total_ai_chat_time
       total_coding_tools_time total_planning_time].
  rewrite !sort_desc_sum, !fold_merge_sum, !fold_add_zsum.
  split; [|split; [|split]].
  - rewrite Hst, !map_map. reflexivity.
  - rewrite Hst, !map_map. reflexivity.
  - rewrite Hst, !map_map. reflexivity.
  - pose proof (zsum_le (fun _ => 0) (fun p => ai_chat_total (snd p)) stats
                  (Forall_impl _ (fun p (H : 0 <= _ <= _) => proj1 H) Hinv)) as H1.
    pose proof (zsum_le (fun p => ai_chat_total (snd p)) (fun p => planning_total (snd p)) stats
                  (Forall_impl _ (fun p (H : 0 <= _ <= _) => proj2 H) Hinv)) as H2.
    assert (H0 : zsum (map (fun _ : Z * HourStats => 0) stats) = 0).
    { clear. induction stats; simpl; lia. }
    lia.
Qed.

(** Distinct hours get distinct Notion property names. *)
Theorem get_hour_property_name_injective : forall hour1 hour2,
  get_hour_property_name hour1 = get_hour_property_name hour2 -> hour1 = hour2.
Proof. exact get_hour_property_name_inj. Qed.

(** [format_duration] shows ["<1m"] exactly for the durations that round to
    zero minutes: from 30 seconds before zero to 30 seconds after it, both
    included (Python rounds halves to even). *)
Theorem format_duration_under_a_minute : forall seconds,
  format_duration seconds = "<1m"%string <-> - 30 * SEC <= seconds <= 30 * SEC.
Proof.
  intros x. unfold format_duration.
  pose proof (round_div_zero x (60 * SEC) ltac:(unfold SEC; lia)) as Hz.
  destruct (round_div x (60 * SEC) =? 0) eqn:E.
  - apply Z.eqb_eq in E. split; [intros _; lia|reflexivity].
  - apply Z.eqb_neq in E. split; [|intros; exfalso; apply E, Hz; lia].
    intros H; exfalso. revert H.
    destruct (round_div x (60 * SEC) <? 60);
      [|destruct (negb (round_div x (60 * SEC) mod 60 =? 0))];
      apply str_int_app_head; discriminate.
Qed.

(** [format_tools_with_total] shows ["-"] exactly when the total rounds to
    zero minutes (within 30 seconds of zero); otherwise its text starts with
    the bracketed total. *)
Theorem format_tools_with_total_dash : forall tools total_seconds max_items,
  (format_tools_with_total tools total_seconds max_items = "-"%string <->
   - 30 * SEC <= total_seconds <= 30 * SEC) /\
  (round_div total_seconds (60 * SEC) <> 0 ->
   exists rest, format_tools_with_total tools total_seconds max_items =
                ("[" ++ str_int (round_div total_seconds (60 * SEC)) ++ "m]" ++ rest)%string).
Proof.
  intros tools x k. unfold format_tools_with_total.
  pose proof (round_div_zero x (60 * SEC) ltac:(unfold SEC; lia)) as Hz.
  destruct (round_div x (60 * SEC) =? 0) eqn:E.
  - apply Z.eqb_eq in E. split; [split; [intros _; lia|reflexivity]|].
    intros H; contradiction.
  - apply Z.eqb_neq in E. cbv zeta.
    destruct (negb (String.eqb _ _)).
    + split; [split; [discriminate|intros; exfalso; apply E, Hz; lia]|].
      intros _. eexists. reflexivity.
    + split; [split; [discriminate|intros; exfalso; apply E, Hz; lia]|].
      intros _. exists ""%string. rewrite str_append_empty_r. reflexivity.
Qed.

(** [count_ai_chat_minutes] is never negative and is zero exactly when the
    AI chat time adds up to at most 30 seconds. *)
Theorem count_ai_chat_minutes_zero : forall ai_time,
  0 <= count_ai_chat_minutes ai_time /\
  (count_ai_chat_minutes ai_time = 0 <-> sum_values ai_time <= 30 * SEC).
Proof.
  intros ai. unfold count_ai_chat_minutes.
  pose proof (round_div_nonpos (sum_values ai) (60 * SEC) ltac:(unfold SEC; lia)) as H.
  split; [lia|]. unfold SEC in *. lia.
Qed.

End SyncFacts.

(* ================================================================== *)
(** ** Report figures: [calculate_proportions] and [generate_report] *)
Module ReportFacts.
Import AW Measure.
Local Open Scope Z_scope.

(** *** Rounding *)

Lemma round_div_bound : forall n m, 0 < m -> - m <= 2 * (m * round_div n m - n) <= m.
Proof.
  intros n m Hm. destruct (SyncFacts.round_div_pos_cases n m Hm) as (Hd & Hr & ->).
  set (q := n / m) in *. set (r := n mod m) in *. clearbody q r.
  destruct (2 * r <? m) eqn:C1; [apply Z.ltb_lt in C1|apply Z.ltb_ge in C1]; [nia|].
  destruct (m <? 2 * r) eqn:C2; [apply Z.ltb_lt in C2|apply Z.ltb_ge in C2]; [nia|].
  destruct (Z.even q); nia.
Qed.

Lemma round_div_mono : forall n1 n2 m, 0 < m -> n1 <= n2 -> round_div n1 m <= round_div n2 m.
Proof.
  intros n1 n2 m Hm Hn. destruct (Z.eq_dec n1 n2) as [->|Hne]; [lia|].
  pose proof (round_div_bound n1 m Hm). pose proof (round_div_bound n2 m Hm). nia.
Qed.

Lemma round_div_exact : forall k m, 0 < m -> round_div (k * m) m = k.
Proof. intros k m Hm. pose proof (round_div_bound (k * m) m Hm). nia. Qed.

Lemma round_div_between : forall n total k, 0 < total -> 0 <= n <= total ->
  0 <= round_div (k * n) total <= k \/ k < 0.
Proof.
  intros n total k Ht Hn. destruct (Z_lt_le_dec k 0) as [Hk|Hk]; [right; exact Hk|left].
  split.
  - rewrite <- (round_div_exact 0 total Ht). apply round_div_mono; nia.
  - rewrite <- (round_div_exact k total Ht) at 2. apply round_div_mono; nia.
Qed.

(** *** Sorting by decreasing value *)

Lemma insert_desc_perm : forall x l, Permutation (x :: l) (insert_desc x l).
Proof.
  intros x l; induction l as [|y l IH]; simpl; [reflexivity|].
  destruct (snd y <=? snd x); [reflexivity|].
  rewrite perm_swap. constructor. exact IH.
Qed.

Lemma sort_desc_perm : forall l, Permutation l (sort_desc l).
Proof.
  induction l as [|x l IH]; simpl; [constructor|].
  rewrite <- insert_desc_perm. constructor. exact IH.
Qed.

Lemma insert_desc_sorted : forall x l, Sorted (fun a b : string * Z => snd b <= snd a) l -> Sorted (fun a b : string * Z => snd b <= snd a) (insert_desc x l).
Proof.
  intros x l H; induction H as [|y l Hs IH Hhd]; simpl.
  - repeat constructor.
  - destruct (snd y <=? snd x) eqn:E.
    + apply Z.leb_le in E. constructor; [constructor; assumption|constructor; exact E].
    + apply Z.leb_gt in E. constructor; [exact IH|].
      destruct l as [|z l]; simpl; [constructor; cbv beta; lia|].
      destruct (snd z <=? snd x); constructor; cbv beta; [lia|].
      inversion Hhd; assumption.
Qed.

Lemma sort_desc_sorted : forall l, Sorted (fun a b : string * Z => snd b <= snd a) (sort_desc l).
Proof. induction l as [|x l IH]; simpl; [constructor|]. apply insert_desc_sorted, IH. Qed.

Lemma Sorted_map_mono {A B} (R : A -> A -> Prop) (R' : B -> B -> Prop) (f : A -> B) :
  (forall a b, R a b -> R' (f a) (f b)) -> forall l, Sorted R l -> Sorted R' (map f l).
Proof.
  intros Hf l H; induction H as [|a l Hs IH Hhd]; simpl; constructor; [exact IH|].
  destruct Hhd; simpl; constructor; auto.
Qed.

Lemma sum_values_nonneg_le : forall d p, Forall (fun p => 0 <= snd p) d -> In p d ->
  0 <= snd p <= sum_values d.
Proof.
  induction d as [|[k v] d IH]; intros p Hd Hp; [destruct Hp|].
  inversion Hd as [|? ? Hv Hd']; subst. simpl in Hv.
  assert (0 <= sum_values d).
  { clear -Hd'. induction Hd' as [|[k' v'] d' Hv' _ IH']; simpl in *; lia. }
  destruct Hp as [<-|Hp]; simpl; [lia|]. specialize (IH p Hd' Hp). lia.
Qed.

(** *** The report figures *)

(** [calculate_proportions] gives no item exactly when the values add up to
    zero; otherwise one item per entry, under the entry's name.  The items
    come by non-increasing seconds, minutes and hours, and when no value is
    negative every proportion lies between 0 and 1 (in ten-thousandths) and
    every percentage between 0 and 100 (in tenths). *)
Theorem calculate_proportions_spec : forall time_dict,
  (calculate_proportions time_dict = [] <-> sum_values time_dict = 0) /\
  (sum_values time_dict <> 0 ->
   Permutation (map item_name (calculate_proportions time_dict)) (map fst time_dict)) /\
  Sorted (fun a b => item_seconds b <= item_seconds a /\ item_minutes b <= item_minutes a /\
                     item_hours b <= item_hours a) (calculate_proportions time_dict) /\
  (Forall (fun p => 0 <= snd p) time_dict ->
   Forall (fun it => 0 <= item_proportion it <= 10000 /\ 0 <= item_percentage it <= 1000)
          (calculate_proportions time_dict)).
Proof.
  intros d. unfold calculate_proportions. cbv zeta.
  destruct (sum_values d =? 0) eqn:E.
  - apply Z.eqb_eq in E. split; [tauto|]. split; [intros; contradiction|].
    split; constructor.
  - apply Z.eqb_neq in E.
    set (f := fun p : string * Z => let '(name, seconds) := p in _).
    assert (Hf : forall p, f p = mkItem (fst p) (round_div (10 * snd p) SEC)
                   (round_div (10 * snd p) (60 * SEC)) (round_div (100 * snd p) (3600 * SEC))
                   (round_div (10000 * snd p) (sum_values d))
                   (round_div (1000 * snd p) (sum_values d))).
    { intros [k v]; reflexivity. }
    split; [split; [|intros H; contradiction]|]. 
    { intros H. apply map_eq_nil in H. pose proof (sort_desc_perm d) as P.
      rewrite H in P. apply Permutation_sym, Permutation_nil in P. subst d. contradiction. }
    split; [|split].
    + intros _. rewrite map_map.
      rewrite (map_ext (fun x => item_name (f x)) fst) by (intros; rewrite Hf; reflexivity).
      symmetry. apply Permutation_map, sort_desc_perm.
    + apply (Sorted_map_mono (fun a b : string * Z => snd b <= snd a)); [|apply sort_desc_sorted].
      intros a b Hab. rewrite !Hf. cbn [item_seconds item_minutes item_hours].
      unfold SEC. repeat split; apply round_div_mono; lia.
    + intros Hnn. apply Forall_map, Forall_forall. intros p Hp.
      rewrite Hf. cbn [item_proportion item_percentage].
      assert (Hp' : In p d) by (apply (Permutation_in _ (Permutation_sym (sort_desc_perm d)) Hp)).
      destruct (sum_values_nonneg_le d p Hnn Hp') as [H0 H1].
      assert (Ht : 0 < sum_values d) by lia.
      split; [destruct (round_div_between (snd p) _ 10000 Ht (conj H0 H1))
             |destruct (round_div_between (snd p) _ 1000 Ht (conj H0 H1))]; lia.
Qed.

(** [generate_report]: with no focused time (development plus planning at
    most zero) both ratios are 0; otherwise the two ratios, in thousandths,
    add up to 1 within one thousandth, and when neither time is negative each
    lies between 0 and 1. *)
Theorem generate_report_ratios : forall aggregate period_type period_label start_date end_date,
  let t := totals aggregate in
  let s := summary (generate_report aggregate period_type period_label start_date end_date) in
  (dev_time t + planning_time t <= 0 -> ratio_dev s = 0 /\ ratio_planning s = 0) /\
  (0 < dev_time t + planning_time t -> 999 <= ratio_dev s + ratio_planning s <= 1001) /\
  (0 <= dev_time t -> 0 <= planning_time t ->
   0 <= ratio_dev s <= 1000 /\ 0 <= ratio_planning s <= 1000).
Proof.
  intros agg pt pl sd ed t s. subst t s. unfold generate_report.
  destruct (totals agg) as [dev plan ai act]. cbn [dev_time planning_time].
  destruct (0 <? dev + plan) eqn:E; cbn [summary ratio_dev ratio_planning].
  - apply Z.ltb_lt in E. split; [lia|]. split.
    + intros _. pose proof (round_div_bound (1000 * dev) (dev + plan) E).
      pose proof (round_div_bound (1000 * plan) (dev + plan) E). nia.
    + intros Hd Hp.
      destruct (round_div_between dev (dev + plan) 1000 E ltac:(lia));
      destruct (round_div_between plan (dev + plan) 1000 E ltac:(lia)); lia.
  - apply Z.ltb_ge in E. split; [intros; split; reflexivity|]. split; [lia|]. lia.
Qed.

End ReportFacts.

(** ** Calendar facts *)
Module DateFacts.
Import Dates.

Lemma forall_range : forall (f : Z -> bool) lo n,
  forallb f (map (fun k => lo + Z.of_nat k) (seq 0 n)) = true ->
  forall x, lo <= x < lo + Z.of_nat n -> f x = true.
Proof.
  intros f lo n H x Hx. rewrite forallb_forall in H. apply H, in_map_iff.
  exists (Z.to_nat (x - lo)). split; [lia|]. apply in_seq. lia.
Qed.

(** Every day of a year, as month and day, is found back by [month_day_of]. *)
Lemma month_day_of_ymd : forall leap m d, 1 <= m <= 12 ->
  1 <= d <= (if (m =? 2) && leap then 29 else DAYS_IN_MONTH m) ->
  month_day_of (DAYS_BEFORE_MONTH m + (if (2 <? m) && leap then 1 else 0) + d - 1) leap = (m, d).
Proof.
  intros leap m d Hm Hd.
  assert (T : forallb (fun m => forallb (fun d =>
             let '(m', d') := month_day_of (DAYS_BEFORE_MONTH m +
                                (if (2 <? m) && leap then 1 else 0) + d - 1) leap in
             (m' =? m) && (d' =? d))
             (map (fun k => 1 + Z.of_nat k)
                (seq 0 (Z.to_nat (if (m =? 2) && leap then 29 else DAYS_IN_MONTH m)))))
           (map (fun k => 1 + Z.of_nat k) (seq 0 12)) = true)
    by (destruct leap; vm_compute; reflexivity).
  specialize (forall_range _ _ _ T m ltac:(simpl; lia)). intros T'.
  assert (Hdim : 0 <= (if (m =? 2) && leap then 29 else DAYS_IN_MONTH m)) by lia.
  specialize (forall_range _ _ _ T' d ltac:(lia)). intros T''. cbv beta in T''.
  destruct (month_day_of _ leap) as [m' d']. apply andb_true_iff in T'' as [E1 E2].
  apply Z.eqb_eq in E1, E2. subst. reflexivity.
Qed.

(** Every day [n] (from 0) of a year is some month and day of it. *)
Lemma month_day_of_range : forall leap n, 0 <= n <= 364 ->
  let '(m, d) := month_day_of n leap in
  1 <= m <= 12 /\ 1 <= d <= (if (m =? 2) && leap then 29 else DAYS_IN_MONTH m) /\
  DAYS_BEFORE_MONTH m + (if (2 <? m) && leap then 1 else 0) + d - 1 = n.
Proof.
  intros leap n Hn.
  assert (T : forallb (fun n =>
             let '(m, d) := month_day_of n leap in
             (1 <=? m) && (m <=? 12) && (1 <=? d) &&
             (d <=? (if (m =? 2) && leap then 29 else DAYS_IN_MONTH m)) &&
             (DAYS_BEFORE_MONTH m + (if (2 <? m) && leap then 1 else 0) + d - 1 =? n))
             (map (fun k => 0 + Z.of_nat k) (seq 0 365)) = true)
    by (destruct leap; vm_compute; reflexivity).
  specialize (forall_range _ _ _ T n ltac:(simpl; lia)). intros T'. cbv beta in T'.
  destruct (month_day_of n leap) as [m d].
  repeat rewrite andb_true_iff in T'. rewrite !Z.leb_le, Z.eqb_eq in T'. lia.
Qed.

Lemma year_decomp : forall y, 1 <= y -> exists a b c e,
  y = 400 * a + 100 * b + 4 * c + e + 1 /\ 0 <= a /\ 0 <= b <= 3 /\ 0 <= c <= 24 /\ 0 <= e <= 3.
Proof.
  intros y Hy. exists ((y - 1) / 400), ((y - 1) mod 400 / 100), ((y - 1) mod 100 / 4),
    ((y - 1) mod 4).
  Z.div_mod_to_equations. lia.
Qed.

Lemma year_split : forall a b c e, 0 <= a -> 0 <= b <= 3 -> 0 <= c <= 24 -> 0 <= e <= 3 ->
  days_before_year (400 * a + 100 * b + 4 * c + e + 1) = 146097 * a + 36524 * b + 1461 * c + 365 * e /\
  is_leap (400 * a + 100 * b + 4 * c + e + 1) = (e =? 3) && (negb (c =? 24) || (b =? 3)).
Proof.
  intros a b c e Ha Hb Hc He. unfold days_before_year, is_leap. split.
  - Z.div_mod_to_equations. lia.
  - apply eq_true_iff_eq.
    rewrite !andb_true_iff, !orb_true_iff, !negb_true_iff, !Z.eqb_eq, !Z.eqb_neq.
    Z.div_mod_to_equations. lia.
Qed.

(** The days before a month and the month's length, month by month. *)
Lemma month_bounds_table : forall leap m, 1 <= m <= 12 ->
  0 <= DAYS_BEFORE_MONTH m + (if (2 <? m) && leap then 1 else 0) /\
  DAYS_BEFORE_MONTH m + (if (2 <? m) && leap then 1 else 0)
    + (if (m =? 2) && leap then 29 else DAYS_IN_MONTH m) <= 365 + (if leap then 1 else 0) /\
  (DAYS_BEFORE_MONTH m + (if (2 <? m) && leap then 1 else 0)
    + (if (m =? 2) && leap then 29 else DAYS_IN_MONTH m) = 365 + (if leap then 1 else 0)
   -> m = 12) /\
  (m < 12 -> DAYS_BEFORE_MONTH m + (if (2 <? m) && leap then 1 else 0)
              + (if (m =? 2) && leap then 29 else DAYS_IN_MONTH m) <= 334 + (if leap then 1 else 0)) /\
  (m < 12 -> DAYS_BEFORE_MONTH (m + 1) + (if (2 <? m + 1) && leap then 1 else 0) =
             DAYS_BEFORE_MONTH m + (if (2 <? m) && leap then 1 else 0)
             + (if (m =? 2) && leap then 29 else DAYS_IN_MONTH m)).
Proof.
  intros leap m Hm.
  assert (m = 1 \/ m = 2 \/ m = 3 \/ m = 4 \/ m = 5 \/ m = 6 \/ m = 7 \/ m = 8 \/ m = 9 \/
          m = 10 \/ m = 11 \/ m = 12) as C by lia.
  repeat destruct C as [-> | C]; subst; destruct leap;
    unfold DAYS_BEFORE_MONTH, DAYS_IN_MONTH; simpl; lia.
Qed.

Ltac div_facts N D q r :=
  pose proof (Z.div_mod N D ltac:(discriminate)); pose proof (Z.mod_pos_bound N D ltac:(reflexivity));
  set (q := N / D) in *; set (r := N mod D) in *; clearbody q r.

Lemma div_mod_eq : forall n d q r, 0 <= r < d -> n = d * q + r -> n / d = q /\ n mod d = r.
Proof.
  intros n d q r Hr ->. split.
  - symmetry. apply (Z.div_unique _ _ _ r); lia.
  - symmetry. apply (Z.mod_unique _ _ q); lia.
Qed.

(** [_ord2ymd] inverts [_ymd2ord] on valid dates. *)
Lemma ord2ymd_ymd2ord : forall y m d, 1 <= y -> 1 <= m <= 12 -> 1 <= d <= days_in_month y m ->
  ord2ymd (ymd2ord y m d) = (y, m, d).
Proof.
  intros y m d Hy Hm Hd.
  destruct (year_decomp y Hy) as (a & b & c & e & -> & Ha & Hb & Hc & He).
  destruct (year_split a b c e Ha Hb Hc He) as [Hdby Hleap].
  unfold ymd2ord, days_before_month. unfold days_in_month in Hd. rewrite Hdby, Hleap in *.
  remember ((e =? 3) && (negb (c =? 24) || (b =? 3))) as L eqn:HL0.
  destruct (month_bounds_table L m Hm) as (T0 & T1 & T2 & _ & _).
  pose proof (month_day_of_ymd L m d Hm Hd) as Hmd.
  set (t := DAYS_BEFORE_MONTH m + (if (2 <? m) && L then 1 else 0)) in *. clearbody t.
  unfold ord2ymd, DI400Y, DI100Y, DI4Y.
  destruct (div_mod_eq (146097 * a + 36524 * b + 1461 * c + 365 * e + t + d - 1) 146097 a
              (36524 * b + 1461 * c + 365 * e + (t + d - 1)))
    as [-> ->]; [destruct L; lia|lia|].
  set (dim := if (m =? 2) && L then 29 else DAYS_IN_MONTH m) in *.
  assert (Cend : t + d - 1 <= 364 \/ (t + d - 1 = 365 /\ L = true /\ m = 12 /\ d = 31)).
  { destruct (Z.eq_dec (t + d - 1) 365) as [E|E];
      [right|left; destruct L; cbv iota in T1; lia].
    destruct L; cbv iota in T1, T2; [|lia]. assert (m = 12) by (apply T2; lia). subst m.
    assert (dim = 31) by reflexivity. repeat split; lia. }
  destruct Cend as [Cn | (Ct & HL & -> & ->)].
  - destruct (div_mod_eq (36524 * b + 1461 * c + 365 * e + (t + d - 1)) 36524 b
                (1461 * c + 365 * e + (t + d - 1))) as [-> ->]; [lia|lia|].
    destruct (div_mod_eq (1461 * c + 365 * e + (t + d - 1)) 1461 c
                (365 * e + (t + d - 1))) as [-> ->]; [lia|lia|].
    destruct (div_mod_eq (365 * e + (t + d - 1)) 365 e (t + d - 1)) as [-> ->]; [lia|lia|].
    replace (e =? 4) with false by (symmetry; apply Z.eqb_neq; lia).
    replace (b =? 4) with false by (symmetry; apply Z.eqb_neq; lia).
    cbn [orb]. rewrite <- HL0, Hmd. f_equal. f_equal. lia.
  - rewrite HL in HL0. symmetry in HL0. apply andb_true_iff in HL0 as [He3 HL'].
    apply Z.eqb_eq in He3. subst e.
    destruct (Z.eq_dec c 24) as [->|Hc24].
    + assert (b = 3) as ->.
      { apply orb_true_iff in HL' as [H'|H']; [discriminate|apply Z.eqb_eq, H']. }
      destruct (div_mod_eq (36524 * 3 + 1461 * 24 + 365 * 3 + (t + 31 - 1)) 36524 4 0)
        as [-> ->]; [lia|lia|].
      change (0 / 1461) with 0. change (0 mod 1461) with 0. change (0 / 365) with 0.
      change (0 mod 365) with 0. cbn [orb Z.eqb Pos.eqb]. f_equal. f_equal. lia.
    + destruct (div_mod_eq (36524 * b + 1461 * c + 365 * 3 + (t + 31 - 1)) 36524 b
                  (1461 * c + 365 * 3 + (t + 31 - 1))) as [-> ->]; [lia|lia|].
      destruct (div_mod_eq (1461 * c + 365 * 3 + (t + 31 - 1)) 1461 c 1460) as [-> ->];
        [lia|lia|].
      change (1460 / 365) with 4. change (1460 mod 365) with 0. cbn [orb Z.eqb Pos.eqb].
      f_equal. f_equal. lia.
Qed.

Lemma ymd2ord_split : forall a b c e m d, 0 <= a -> 0 <= b <= 3 -> 0 <= c <= 24 -> 0 <= e <= 3 ->
  ymd2ord (400 * a + 100 * b + 4 * c + e + 1) m d =
    146097 * a + 36524 * b + 1461 * c + 365 * e +
    (DAYS_BEFORE_MONTH m + (if (2 <? m) && ((e =? 3) && (negb (c =? 24) || (b =? 3)))
                           then 1 else 0)) + d /\
  days_in_month (400 * a + 100 * b + 4 * c + e + 1) m =
    (if (m =? 2) && ((e =? 3) && (negb (c =? 24) || (b =? 3))) then 29 else DAYS_IN_MONTH m).
Proof.
  intros a b c e m d Ha Hb Hc He. destruct (year_split a b c e Ha Hb Hc He) as [H1 H2].
  unfold ymd2ord, days_before_month, days_in_month. rewrite H1, H2. split; [ring|reflexivity].
Qed.

(** [_ymd2ord] inverts [_ord2ymd] on the positive ordinals, whose images are
    valid dates (but for the year bound). *)
Lemma ymd2ord_ord2ymd : forall n, 1 <= n ->
  let '(y, m, d) := ord2ymd n in
  ymd2ord y m d = n /\ 1 <= y /\ 1 <= m <= 12 /\ 1 <= d <= days_in_month y m.
Proof.
  intros n Hn. unfold ord2ymd, DI400Y, DI100Y, DI4Y. cbv zeta.
  assert (HN : 0 <= n - 1) by lia. set (N := n - 1) in *.
  assert (EN : n = N + 1) by (unfold N; lia). clearbody N.
  div_facts N 146097 a R1. div_facts R1 36524 b R2. div_facts R2 1461 c R3.
  div_facts R3 365 e r.
  destruct ((e =? 4) || (b =? 4)) eqn:Br; cbv beta iota.
  - assert (Hy : exists b' c', 0 <= b' <= 3 /\ 0 <= c' <= 24 /\ (c' <> 24 \/ b' = 3) /\
              a * 400 + 1 + b * 100 + c * 4 + e - 1 = 400 * a + 100 * b' + 4 * c' + 3 + 1 /\
              N = 146097 * a + 36524 * b' + 1461 * c' + 365 * 3 + 365).
    { apply orb_true_iff in Br as [Br|Br]; apply Z.eqb_eq in Br; subst.
      - exists b, c. lia.
      - exists 3, 24. lia. }
    destruct Hy as (b' & c' & Hb' & Hc' & Hbc & -> & HN').
    destruct (ymd2ord_split a b' c' 3 12 31 ltac:(lia) Hb' Hc' ltac:(lia)) as [E1 E2].
    replace ((3 =? 3) && (negb (c' =? 24) || (b' =? 3))) with true in E1, E2
      by (destruct Hbc as [Hbc| ->]; [rewrite (proj2 (Z.eqb_neq c' 24) Hbc)|
                                     rewrite orb_true_r]; reflexivity).
    rewrite E1, E2.
    change (DAYS_BEFORE_MONTH 12 + (if (2 <? 12) && true then 1 else 0)) with 335.
    change (if (12 =? 2) && true then 29 else DAYS_IN_MONTH 12) with 31. lia.
  - apply orb_false_iff in Br as [Be Bb]. apply Z.eqb_neq in Be, Bb.
    set (L := (e =? 3) && (negb (c =? 24) || (b =? 3))).
    pose proof (month_day_of_range L r ltac:(lia)) as Hr.
    destruct (month_day_of r L) as [mo dd]. cbv beta iota.
    replace (a * 400 + 1 + b * 100 + c * 4 + e) with (400 * a + 100 * b + 4 * c + e + 1) by lia.
    destruct (ymd2ord_split a b c e mo dd ltac:(lia) ltac:(lia) ltac:(lia) ltac:(lia))
      as [E1 E2]. fold L in E1, E2. rewrite E1, E2.
    set (pre := DAYS_BEFORE_MONTH mo + (if (2 <? mo) && L then 1 else 0)) in *.
    set (dim := if (mo =? 2) && L then 29 else DAYS_IN_MONTH mo) in *.
    clearbody pre dim. lia.
Qed.

Lemma days_before_year_succ : forall y, 1 <= y ->
  days_before_year (y + 1) = days_before_year y + 365 + (if is_leap y then 1 else 0).
Proof.
  intros y Hy. unfold days_before_year. replace (y + 1 - 1) with y by lia.
  destruct (is_leap y) eqn:E; unfold is_leap in E.
  - rewrite andb_true_iff, orb_true_iff, negb_true_iff, !Z.eqb_eq, Z.eqb_neq in E.
    Z.div_mod_to_equations. lia.
  - rewrite andb_false_iff, orb_false_iff, negb_false_iff, !Z.eqb_eq, !Z.eqb_neq in E.
    Z.div_mod_to_equations. lia.
Qed.

Lemma days_before_year_bounds : forall y, 1 <= y ->
  0 <= days_before_year y /\ (y <= 9999 -> days_before_year y <= 3651694) /\
  (y <= 10000 -> days_before_year y <= 3652059) /\
  (10000 <= y -> 3652059 <= days_before_year y).
Proof. intros y Hy. unfold days_before_year. Z.div_mod_to_equations. lia. Qed.

Lemma valid_date_iff : forall d, valid_date d = true <->
  1 <= year d <= MAXYEAR /\ 1 <= month d <= 12 /\ 1 <= day d <= days_in_month (year d) (month d).
Proof.
  intros [y m dd]. unfold valid_date, check_date, MINYEAR, MAXYEAR. cbn [year month day].
  destruct (Z.leb_spec 1 y), (Z.leb_spec y 9999), (Z.leb_spec 1 m), (Z.leb_spec m 12),
    (Z.leb_spec 1 dd), (Z.leb_spec dd (days_in_month y m)); cbn [andb];
    split; intros; try discriminate; try reflexivity; lia.
Qed.

Lemma check_date_valid : forall y m d,
  check_date y m d = if valid_date (mkDate y m d) then Some (mkDate y m d) else None.
Proof.
  intros y m d. unfold valid_date. cbn [year month day].
  destruct (check_date y m d) eqn:E; [|reflexivity].
  unfold check_date in E. destruct (_ && _); congruence.
Qed.

Lemma ymd2ord_unfold : forall y m d, ymd2ord y m d =
  days_before_year y + (DAYS_BEFORE_MONTH m + (if (2 <? m) && is_leap y then 1 else 0)) + d.
Proof. reflexivity. Qed.

(** The ordinal of a valid date lies between 1 and [MAXORDINAL]. *)
Lemma toordinal_range : forall d, valid_date d = true -> 1 <= toordinal d <= MAXORDINAL.
Proof.
  intros [y m dd] V. apply valid_date_iff in V. cbn [year month day] in V.
  unfold MAXYEAR in V. destruct V as (Hy & Hm & Hd).
  unfold toordinal, MAXORDINAL. cbn [year month day]. rewrite ymd2ord_unfold.
  unfold days_in_month in Hd.
  destruct (month_bounds_table (is_leap y) m Hm) as (T0 & T1 & _).
  pose proof (days_before_year_succ y ltac:(lia)) as Hs.
  destruct (days_before_year_bounds (y + 1) ltac:(lia)) as (_ & _ & B & _).
  destruct (days_before_year_bounds y ltac:(lia)) as (B0 & _).
  set (pre := DAYS_BEFORE_MONTH m + (if (2 <? m) && is_leap y then 1 else 0)) in *.
  set (dim := if (m =? 2) && is_leap y then 29 else DAYS_IN_MONTH m) in *.
  set (lp := if is_leap y then 1 else 0) in *. clearbody pre dim lp. lia.
Qed.

(** [date.fromordinal] gives a valid date with that ordinal. *)
Lemma fromordinal_spec : forall n, 1 <= n <= MAXORDINAL ->
  valid_date (fromordinal n) = true /\ toordinal (fromordinal n) = n.
Proof.
  intros n Hn. pose proof (ymd2ord_ord2ymd n ltac:(lia)) as H. unfold fromordinal.
  destruct (ord2ymd n) as [[y m] d]. destruct H as (E & Hy & Hm & Hd).
  split; [|exact E]. apply valid_date_iff. cbn [year month day]. unfold MAXYEAR.
  split; [|split; assumption]. split; [exact Hy|].
  destruct (Z.le_gt_cases y 9999) as [|Hbig]; [assumption|exfalso].
  destruct (days_before_year_bounds y Hy) as (_ & _ & _ & B).
  destruct (month_bounds_table (is_leap y) m Hm) as (T0 & _).
  rewrite ymd2ord_unfold in E. unfold MAXORDINAL in Hn.
  set (pre := DAYS_BEFORE_MONTH m + (if (2 <? m) && is_leap y then 1 else 0)) in *.
  clearbody pre. lia.
Qed.

Lemma fromordinal_toordinal : forall d, valid_date d = true -> fromordinal (toordinal d) = d.
Proof.
  intros [y m dd] V. apply valid_date_iff in V. cbn [year month day] in V.
  unfold fromordinal, toordinal. cbn [year month day].
  rewrite ord2ymd_ymd2ord by lia. reflexivity.
Qed.

Lemma get_month_bounds_facts : forall d, valid_date d = true ->
  get_month_bounds d =
    if (year d =? MAXYEAR) && (month d =? 12) then None
    else Some (mkDate (year d) (month d) 1,
               mkDate (year d) (month d) (days_in_month (year d) (month d))).
Proof.
  intros [y m dd] V. pose proof V as V'. apply valid_date_iff in V'.
  cbn [year month day] in *. unfold MAXYEAR in *. destruct V' as (Hy & Hm & Hd).
  destruct (month_bounds_table (is_leap y) m Hm) as (T0 & T1 & _ & T3 & T4).
  unfold get_month_bounds, bind. cbn [year month day].
  rewrite (check_date_valid y m 1).
  replace (valid_date (mkDate y m 1)) with true
    by (symmetry; apply valid_date_iff; cbn; unfold MAXYEAR; lia).
  assert (Last : forall next, valid_date next = true ->
            toordinal next - 1 = ymd2ord y m (days_in_month y m) ->
            add_days next (-1) = Some (mkDate y m (days_in_month y m))).
  { intros next Vn E. unfold add_days.
    replace (toordinal next + -1) with (toordinal next - 1) by lia. rewrite E.
    assert (Vl : valid_date (mkDate y m (days_in_month y m)) = true)
      by (apply valid_date_iff; cbn; unfold MAXYEAR; lia).
    pose proof (toordinal_range _ Vl) as R. unfold toordinal in R; cbn [year month day] in R.
    replace ((0 <? ymd2ord y m (days_in_month y m)) && (ymd2ord y m (days_in_month y m) <=? MAXORDINAL))
      with true by (symmetry; apply andb_true_iff; split; [apply Z.ltb_lt|apply Z.leb_le]; lia).
    f_equal. exact (fromordinal_toordinal _ Vl). }
  destruct (Z.eqb_spec m 12) as [->|Hm12].
  - destruct (Z.eqb_spec y 9999) as [->|Hy9]; [reflexivity|].
    replace (y =? 9999) with false by (symmetry; apply Z.eqb_neq; exact Hy9).
    rewrite (check_date_valid (y + 1) 1 1).
    assert (Vn : valid_date (mkDate (y + 1) 1 1) = true)
      by (apply valid_date_iff; cbn [year month day];
          change (days_in_month (y + 1) 1) with 31; unfold MAXYEAR; lia).
    rewrite Vn. cbv beta iota. rewrite (Last _ Vn); [reflexivity|].
    unfold toordinal; cbn [year month day]. rewrite !ymd2ord_unfold.
    rewrite (days_before_year_succ y ltac:(lia)).
    change (days_in_month y 12) with (if (12 =? 2) && is_leap y then 29 else DAYS_IN_MONTH 12).
    change (DAYS_BEFORE_MONTH 1 + (if (2 <? 1) && is_leap (y + 1) then 1 else 0)) with 0.
    change (2 <? 12) with true. change (12 =? 2) with false.
    change (DAYS_BEFORE_MONTH 12) with 334. change (DAYS_IN_MONTH 12) with 31. cbn [andb].
    destruct (is_leap y); ring.
  - rewrite andb_false_r.
    rewrite (check_date_valid y (m + 1) 1).
    assert (Vn : valid_date (mkDate y (m + 1) 1) = true).
    { apply valid_date_iff; cbn [year month day]. unfold MAXYEAR.
      destruct (month_bounds_table (is_leap y) (m + 1) ltac:(lia)) as (_ & U1 & _).
      unfold days_in_month.
      set (pre := DAYS_BEFORE_MONTH (m + 1) + (if (2 <? m + 1) && is_leap y then 1 else 0)) in *.
      set (dim := if (m + 1 =? 2) && is_leap y then 29 else DAYS_IN_MONTH (m + 1)) in *.
      assert (0 < dim).
      { subst dim. assert (m + 1 = 2 \/ 2 < m + 1) as [E|E] by lia.
        - rewrite E. destruct (is_leap y); reflexivity.
        - replace (m + 1 =? 2) with false by (symmetry; apply Z.eqb_neq; lia). cbn [andb].
          assert (m + 1 = 3 \/ m + 1 = 4 \/ m + 1 = 5 \/ m + 1 = 6 \/ m + 1 = 7 \/
                  m + 1 = 8 \/ m + 1 = 9 \/ m + 1 = 10 \/ m + 1 = 11 \/ m + 1 = 12) as C by lia.
          repeat destruct C as [C|C]; rewrite C; reflexivity. }
      lia. }
    rewrite Vn. cbv beta iota. rewrite (Last _ Vn); [reflexivity|].
    unfold toordinal; cbn [year month day]. rewrite !ymd2ord_unfold.
    rewrite (T4 ltac:(lia)). unfold days_in_month. ring.
Qed.

(** [get_month_bounds] gives the first and the last day of the month of a
    valid date, and raises for a date in December 9999, whose next month
    does not exist. *)
Theorem get_month_bounds_spec : forall d, valid_date d = true ->
  get_month_bounds d =
    if (year d =? MAXYEAR) && (month d =? 12) then None
    else Some (mkDate (year d) (month d) 1,
               mkDate (year d) (month d) (days_in_month (year d) (month d))).
Proof. exact get_month_bounds_facts. Qed.

Lemma get_week_bounds_facts : forall d, valid_date d = true ->
  (get_week_bounds d = None <-> year d = MAXYEAR /\ month d = 12 /\ 27 <= day d) /\
  (forall monday sunday, get_week_bounds d = Some (monday, sunday) ->
     valid_date monday = true /\ valid_date sunday = true /\
     weekday monday = 0 /\ weekday sunday = 6 /\
     toordinal monday = toordinal d - weekday d /\
     toordinal monday <= toordinal d <= toordinal sunday /\
     toordinal sunday = toordinal monday + 6).
Proof.
  intros d V. pose proof (toordinal_range d V) as R. unfold MAXORDINAL in R.
  assert (Last : toordinal d - weekday d + 6 > MAXORDINAL <->
                 year d = MAXYEAR /\ month d = 12 /\ 27 <= day d).
  { unfold weekday, MAXORDINAL, MAXYEAR.
    transitivity (3652055 <= toordinal d); [Z.div_mod_to_equations; lia|].
    destruct d as [y m dd]. apply valid_date_iff in V. unfold MAXYEAR in V.
    cbn [year month day] in *. destruct V as (Hy & Hm & Hd).
    unfold toordinal; cbn [year month day]. rewrite ymd2ord_unfold.
    destruct (month_bounds_table (is_leap y) m Hm) as (T0 & T1 & _ & T3 & _).
    unfold days_in_month in Hd.
    assert (y < 9999 \/ y = 9999) as [Hy'| ->] by lia.
    - pose proof (days_before_year_succ y ltac:(lia)) as Hs.
      destruct (days_before_year_bounds (y + 1) ltac:(lia)) as (_ & B & _).
      set (pre := DAYS_BEFORE_MONTH m + (if (2 <? m) && is_leap y then 1 else 0)) in *.
      set (dim := if (m =? 2) && is_leap y then 29 else DAYS_IN_MONTH m) in *.
      set (lp := if is_leap y then 1 else 0) in *. clearbody pre dim lp. lia.
    - change (days_before_year 9999) with 3651694. change (is_leap 9999) with false in *.
      assert (m < 12 \/ m = 12) as [Hm'| ->] by lia.
      + specialize (T3 Hm'). cbv iota in T3.
        set (pre := DAYS_BEFORE_MONTH m + (if (2 <? m) && false then 1 else 0)) in *.
        set (dim := if (m =? 2) && false then 29 else DAYS_IN_MONTH m) in *.
        clearbody pre dim. lia.
      + change (DAYS_BEFORE_MONTH 12 + (if (2 <? 12) && false then 1 else 0)) with 334. lia. }
  unfold get_week_bounds, bind, add_days.
  assert (W : 0 <= weekday d < 7) by (unfold weekday; apply Z.mod_pos_bound; lia).
  assert (M1 : 1 <= toordinal d - weekday d) by (unfold weekday; Z.div_mod_to_equations; lia).
  replace ((0 <? toordinal d + - weekday d) && (toordinal d + - weekday d <=? MAXORDINAL))
    with true by (symmetry; apply andb_true_iff; split; [apply Z.ltb_lt|apply Z.leb_le];
                  unfold MAXORDINAL; lia).
  destruct (fromordinal_spec (toordinal d + - weekday d) ltac:(unfold MAXORDINAL; lia))
    as [Vm Om].
  rewrite Om.
  destruct ((0 <? toordinal d + - weekday d + 6) &&
            (toordinal d + - weekday d + 6 <=? MAXORDINAL)) eqn:E.
  - apply andb_true_iff in E as [_ E]. apply Z.leb_le in E.
    split; [split; [discriminate|intros H; apply Last in H; lia]|].
    intros monday sunday Heq. injection Heq as <- <-.
    destruct (fromordinal_spec (toordinal d + - weekday d + 6) ltac:(lia)) as [Vs Os].
    assert (Wm : weekday (fromordinal (toordinal d + - weekday d)) = 0)
      by (unfold weekday at 1; rewrite Om; unfold weekday; Z.div_mod_to_equations; lia).
    assert (Ws : weekday (fromordinal (toordinal d + - weekday d + 6)) = 6)
      by (unfold weekday at 1; rewrite Os; unfold weekday; Z.div_mod_to_equations; lia).
    rewrite Wm, Ws, Os, Om. repeat split; try assumption; lia.
  - apply andb_false_iff in E as [E|E]; [apply Z.ltb_ge in E; lia|].
    apply Z.leb_gt in E. split; [split; [intros _; apply Last; lia|reflexivity]|].
    intros monday sunday H; discriminate.
Qed.

(** [get_week_bounds] gives the Monday on or before a valid date and the
    Sunday six days after it; it raises exactly for the dates from
    9999-12-27 (a Monday) to 9999-12-31, whose Sunday would be past the
    last representable date. *)
Theorem get_week_bounds_spec : forall d, valid_date d = true ->
  (get_week_bounds d = None <-> year d = MAXYEAR /\ month d = 12 /\ 27 <= day d) /\
  (forall monday sunday, get_week_bounds d = Some (monday, sunday) ->
     valid_date monday = true /\ valid_date sunday = true /\
     weekday monday = 0 /\ weekday sunday = 6 /\
     toordinal monday = toordinal d - weekday d /\
     toordinal monday <= toordinal d <= toordinal sunday /\
     toordinal sunday = toordinal monday + 6).
Proof. exact get_week_bounds_facts. Qed.

End DateFacts.

(** ** Hour labels of the Notion table *)
Module HourLabelFacts.
Import AW Sync.
Local Open Scope string_scope.
Local Open Scope Z_scope.

(** [format_hour_label] raises exactly for the hours outside 0..23; for an
    hour of the day it gives the twelve-hour clock time of the hour and of
    the next one, with no leading zero ([lstrip('0')] only drops the zero
    padding of [%I]), e.g. ["11pm-12am"]. *)
Theorem format_hour_label_spec : forall hour,
  let clock h := (str_int (if h mod 12 =? 0 then 12 else h mod 12) ++
                  (if h <? 12 then "am" else "pm")) in
  (format_hour_label hour = None <-> hour < 0 \/ 23 < hour) /\
  (0 <= hour <= 23 ->
   format_hour_label hour = Some (clock hour ++ "-" ++ clock ((hour + 1) mod 24))).
Proof.
  intros hour clock. split.
  - unfold format_hour_label.
    destruct ((0 <=? hour) && (hour <? 24)) eqn:E.
    + apply andb_true_iff in E as [E1 E2]. apply Z.leb_le in E1. apply Z.ltb_lt in E2.
      split; [discriminate|lia].
    + apply andb_false_iff in E as [E|E]; [apply Z.leb_gt in E|apply Z.ltb_ge in E];
        split; auto; lia.
  - intros H. subst clock.
    assert (C : forall h, 0 <= h < 0 + Z.of_nat 24 ->
      (fun h => match format_hour_label h with
                | Some l => String.eqb l
                     ((str_int (if h mod 12 =? 0 then 12 else h mod 12) ++
                       (if h <? 12 then "am" else "pm")) ++ "-" ++
                      (str_int (if ((h + 1) mod 24) mod 12 =? 0 then 12 else ((h + 1) mod 24) mod 12) ++
                       (if (h + 1) mod 24 <? 12 then "am" else "pm")))
                | None => false end) h = true)
      by (apply DateFacts.forall_range; vm_compute; reflexivity).
    specialize (C hour ltac:(lia)). cbv beta in C.
    destruct (format_hour_label hour); [|discriminate].
    apply String.eqb_eq in C. rewrite C. reflexivity.
Qed.

(** Different hours get different labels. *)
Theorem format_hour_label_injective : forall hour1 hour2 label,
  format_hour_label hour1 = Some label -> format_hour_label hour2 = Some label ->
  hour1 = hour2.
Proof.
  intros h1 h2 l E1 E2.
  assert (V : forall h l, format_hour_label h = Some l -> 0 <= h < 0 + Z.of_nat 24).
  { intros h l' E. unfold format_hour_label in E.
    destruct ((0 <=? h) && (h <? 24)) eqn:B; [|discriminate].
    apply andb_true_iff in B as [B1 B2]. apply Z.leb_le in B1. apply Z.ltb_lt in B2. lia. }
  assert (C : forall a, 0 <= a < 0 + Z.of_nat 24 ->
    (fun a => forallb (fun b => (a =? b) ||
       match format_hour_label a, format_hour_label b with
       | Some la, Some lb => negb (String.eqb la lb)
       | _, _ => true end) (map (fun k => 0 + Z.of_nat k) (seq 0 24))) a = true)
    by (apply DateFacts.forall_range; vm_compute; reflexivity).
  specialize (C h1 (V _ _ E1)). cbv beta in C.
  pose proof (DateFacts.forall_range _ 0 24 C h2 (V _ _ E2)) as D. cbv beta in D.
  rewrite E1, E2, String.eqb_refl in D. cbn [negb] in D. rewrite orb_false_r in D.
  apply Z.eqb_eq, D.
Qed.

End HourLabelFacts.

(** ** The reports of a lookback window *)
Module ReportsFacts.
Import AW Dates Reports.
Local Open Scope Z_scope.

(** *** Dates compare as their ordinals *)

Lemma month_order : forall y m1 m2, 1 <= m1 -> m1 < m2 -> m2 <= 12 ->
  days_before_month y m1 + days_in_month y m1 <= days_before_month y m2.
Proof.
  intros y m1 m2 H1 H12 H2. unfold days_before_month, days_in_month.
  generalize (is_leap y) as leap. intros leap.
  assert (C : forall a, 1 <= a < 1 + Z.of_nat 12 ->
    (fun a => forallb (fun b => (b <=? a) ||
       (DAYS_BEFORE_MONTH a + (if (2 <? a) && leap then 1 else 0)
        + (if (a =? 2) && leap then 29 else DAYS_IN_MONTH a)
        <=? DAYS_BEFORE_MONTH b + (if (2 <? b) && leap then 1 else 0)))
       (map (fun k => 1 + Z.of_nat k) (seq 0 12))) a = true)
    by (apply DateFacts.forall_range; destruct leap; vm_compute; reflexivity).
  specialize (C m1 ltac:(lia)). cbv beta in C.
  pose proof (DateFacts.forall_range _ 1 12 C m2 ltac:(lia)) as D. cbv beta in D.
  apply orb_true_iff in D as [D|D]; apply Z.leb_le in D; [lia|exact D].
Qed.

Lemma days_before_year_mono : forall y k, 1 <= y -> 0 <= k ->
  days_before_year y + 365 * k <= days_before_year (y + k).
Proof.
  intros y k Hy Hk. pattern k; apply natlike_ind; [cbv beta; replace (y + 0) with y by lia; lia| |exact Hk].
  intros x Hx IH. cbv beta in *. replace (y + Z.succ x) with (y + x + 1) by lia.
  rewrite DateFacts.days_before_year_succ by lia. destruct (is_leap (y + x)); lia.
Qed.

Lemma ord_lt_of_cmp : forall a b, valid_date a = true -> valid_date b = true ->
  date_cmp a b = Lt -> toordinal a < toordinal b.
Proof.
  intros [y1 m1 d1] [y2 m2 d2] Va Vb C.
  apply DateFacts.valid_date_iff in Va, Vb. cbn [year month day] in *.
  destruct Va as (Hy1 & Hm1 & Hd1). destruct Vb as (Hy2 & Hm2 & Hd2).
  unfold date_cmp in C; cbn [year month day] in C. unfold toordinal, ymd2ord; cbn [year month day].
  destruct (Z.compare_spec y1 y2) as [<-|Hy|Hy]; [| |discriminate].
  - destruct (Z.compare_spec m1 m2) as [<-|Hm|Hm]; [| |discriminate].
    + destruct (Z.compare_spec d1 d2); [discriminate| |discriminate]. lia.
    + pose proof (month_order y1 m1 m2 ltac:(lia) Hm ltac:(lia)). lia.
  - destruct (DateFacts.month_bounds_table (is_leap y1) m1 Hm1) as (_ & T1 & _).
    destruct (DateFacts.month_bounds_table (is_leap y2) m2 Hm2) as (U0 & _).
    pose proof (DateFacts.days_before_year_succ y1 ltac:(lia)) as S1.
    pose proof (days_before_year_mono (y1 + 1) (y2 - (y1 + 1)) ltac:(lia) ltac:(lia)) as M.
    replace (y1 + 1 + (y2 - (y1 + 1))) with y2 in M by lia.
    unfold days_before_month, days_in_month in *.
    set (p1 := DAYS_BEFORE_MONTH m1 + (if (2 <? m1) && is_leap y1 then 1 else 0)) in *.
    set (q1 := if (m1 =? 2) && is_leap y1 then 29 else DAYS_IN_MONTH m1) in *.
    set (p2 := DAYS_BEFORE_MONTH m2 + (if (2 <? m2) && is_leap y2 then 1 else 0)) in *.
    set (l1 := if is_leap y1 then 1 else 0) in *. clearbody p1 q1 p2 l1. lia.
Qed.

Lemma date_cmp_antisym : forall a b, date_cmp b a = CompOpp (date_cmp a b).
Proof.
  intros a b. unfold date_cmp.
  rewrite (Z.compare_antisym (year a) (year b)), (Z.compare_antisym (month a) (month b)),
    (Z.compare_antisym (day a) (day b)).
  destruct (year a ?= year b); [destruct (month a ?= month b)| |]; reflexivity.
Qed.

Lemma date_cmp_eq : forall a b, date_cmp a b = Eq -> a = b.
Proof.
  intros [y1 m1 d1] [y2 m2 d2]. unfold date_cmp; cbn [year month day].
  destruct (Z.compare_spec y1 y2) as [<-| |]; [|discriminate|discriminate].
  destruct (Z.compare_spec m1 m2) as [<-| |]; [|discriminate|discriminate].
  intros E. apply Z.compare_eq in E. subst. reflexivity.
Qed.

Lemma date_cmp_ord : forall a b, valid_date a = true -> valid_date b = true ->
  date_cmp a b = Z.compare (toordinal a) (toordinal b).
Proof.
  intros a b Va Vb. destruct (date_cmp a b) eqn:C.
  - apply date_cmp_eq in C. subst. symmetry. apply Z.compare_refl.
  - pose proof (ord_lt_of_cmp a b Va Vb C).
    destruct (Z.compare_spec (toordinal a) (toordinal b)); [lia|reflexivity|lia].
  - assert (C' : date_cmp b a = Lt) by (rewrite date_cmp_antisym, C; reflexivity).
    pose proof (ord_lt_of_cmp b a Vb Va C').
    destruct (Z.compare_spec (toordinal a) (toordinal b)); [lia|lia|reflexivity].
Qed.

Lemma date_le_ord : forall a b, valid_date a = true -> valid_date b = true ->
  date_le a b = (toordinal a <=? toordinal b).
Proof.
  intros a b Va Vb. unfold date_le. rewrite date_cmp_ord by assumption.
  destruct (Z.compare_spec (toordinal a) (toordinal b)); symmetry;
    [apply Z.leb_le|apply Z.leb_le|apply Z.leb_gt]; lia.
Qed.

Lemma date_lt_ord : forall a b, valid_date a = true -> valid_date b = true ->
  date_lt a b = (toordinal a <? toordinal b).
Proof.
  intros a b Va Vb. unfold date_lt. rewrite date_cmp_ord by assumption.
  destruct (Z.compare_spec (toordinal a) (toordinal b)); symmetry;
    [apply Z.ltb_ge|apply Z.ltb_lt|apply Z.ltb_ge]; lia.
Qed.

Lemma date_max_spec : forall a b, valid_date a = true -> valid_date b = true ->
  valid_date (date_max a b) = true /\
  toordinal (date_max a b) = Z.max (toordinal a) (toordinal b).
Proof.
  intros a b Va Vb. unfold date_max. rewrite date_lt_ord by assumption.
  destruct (Z.ltb_spec (toordinal a) (toordinal b)); split; auto; lia.
Qed.

Lemma date_min_spec : forall a b, valid_date a = true -> valid_date b = true ->
  valid_date (date_min a b) = true /\
  toordinal (date_min a b) = Z.min (toordinal a) (toordinal b).
Proof.
  intros a b Va Vb. unfold date_min. rewrite date_lt_ord by assumption.
  destruct (Z.ltb_spec (toordinal b) (toordinal a)); split; auto; lia.
Qed.

Lemma add_days_some : forall d k d', add_days d k = Some d' ->
  valid_date d' = true /\ toordinal d' = toordinal d + k.
Proof.
  intros d k d' E. unfold add_days in E.
  destruct ((0 <? toordinal d + k) && (toordinal d + k <=? MAXORDINAL)) eqn:B; [|discriminate].
  injection E as <-. apply andb_true_iff in B as [B1 B2].
  apply Z.ltb_lt in B1. apply Z.leb_le in B2. apply DateFacts.fromordinal_spec. lia.
Qed.

Lemma toordinal_inj : forall a b, valid_date a = true -> valid_date b = true ->
  toordinal a = toordinal b -> a = b.
Proof.
  intros a b Va Vb E. rewrite <- (DateFacts.fromordinal_toordinal a Va),
    <- (DateFacts.fromordinal_toordinal b Vb), E. reflexivity.
Qed.

Lemma period_of_report : forall a t l s e,
  period_start (generate_report a t l s e) = s /\ period_end (generate_report a t l s e) = e.
Proof.
  intros a t l s e. unfold generate_report. cbv zeta.
  destruct (0 <? _); split; reflexivity.
Qed.

(** *** Lists of periods *)

Lemma ForallOrdPairs_app_single : forall {A} (R : A -> A -> Prop) l a,
  ForallOrdPairs R l -> Forall (fun x => R x a) l -> ForallOrdPairs R (l ++ [a]).
Proof.
  intros A R l a. induction l as [|x l IH]; intros H F; simpl.
  - constructor; constructor.
  - inversion H as [|? ? Hx Hl]; subst. inversion F as [|? ? Fx Fl]; subst.
    constructor; [apply Forall_app; split; auto|auto].
Qed.

Lemma Forall_perm : forall {A} (P : A -> Prop) l l', Permutation l l' -> Forall P l -> Forall P l'.
Proof.
  intros A P l l' Hp H. rewrite Forall_forall in *. intros x Hx.
  apply H. apply (Permutation_in x (Permutation_sym Hp) Hx).
Qed.

Lemma ForallOrdPairs_perm : forall {A} (R : A -> A -> Prop),
  (forall x y, R x y -> R y x) ->
  forall l l', Permutation l l' -> ForallOrdPairs R l -> ForallOrdPairs R l'.
Proof.
  intros A R Rs l l' Hp. induction Hp as [|x l l' Hp IH|y x l|l l' l'' _ IH1 _ IH2]; intros H.
  - constructor.
  - inversion H as [|? ? Hx Hl]; subst. constructor; [|auto]. exact (Forall_perm _ _ _ Hp Hx).
  - inversion H as [|? ? Hy Hl]; subst. inversion Hl as [|? ? Hx Hl']; subst.
    inversion Hy as [|? ? Ryx Hy']; subst.
    constructor; [constructor; auto|constructor; auto].
  - auto.
Qed.

Lemma insert_report_ranges : forall (r : Report) (p : date * date) l ranges,
  (period_start r, period_end r) = (date_isoformat (fst p), date_isoformat (snd p)) ->
  map (fun r => (period_start r, period_end r)) l =
    map (fun p => (date_isoformat (fst p), date_isoformat (snd p))) ranges ->
  exists ranges', Permutation (p :: ranges) ranges' /\
    map (fun r => (period_start r, period_end r)) (insert_report r l) =
      map (fun p => (date_isoformat (fst p), date_isoformat (snd p))) ranges'.
Proof.
  intros r p l. induction l as [|r' l IH]; intros ranges Hr Hl; cbn [insert_report].
  - destruct ranges; [|discriminate]. exists [p]. split; [reflexivity|].
    cbn [map]. rewrite Hr. reflexivity.
  - destruct ranges as [|p' ranges]; [discriminate|]. cbn [map] in Hl.
    assert (Hp' : (period_start r', period_end r') = (date_isoformat (fst p'), date_isoformat (snd p')))
      by congruence.
    assert (Hl' : map (fun r => (period_start r, period_end r)) l =
                  map (fun p => (date_isoformat (fst p), date_isoformat (snd p))) ranges)
      by congruence.
    destruct (String.leb (period_start r) (period_start r')).
    + exists (p :: p' :: ranges). split; [reflexivity|]. cbn [map].
      rewrite Hr, Hp', Hl'. reflexivity.
    + destruct (IH ranges Hr Hl') as (ranges' & Hperm & Hmap).
      exists (p' :: ranges'). split.
      * rewrite <- Hperm. apply perm_swap.
      * cbn [map]. rewrite Hp', Hmap. reflexivity.
Qed.

Lemma sort_reports_ranges : forall l ranges,
  map (fun r => (period_start r, period_end r)) l =
    map (fun p => (date_isoformat (fst p), date_isoformat (snd p))) ranges ->
  exists ranges', Permutation ranges ranges' /\
    map (fun r => (period_start r, period_end r)) (sort_reports_by_start l) =
      map (fun p => (date_isoformat (fst p), date_isoformat (snd p))) ranges'.
Proof.
  induction l as [|r l IH]; intros ranges H; unfold sort_reports_by_start in *; cbn [fold_right].
  - destruct ranges; [|discriminate]. exists []. split; reflexivity.
  - destruct ranges as [|p ranges]; [discriminate|]. cbn [map] in H.
    assert (Hr : (period_start r, period_end r) = (date_isoformat (fst p), date_isoformat (snd p)))
      by congruence.
    assert (Hl : map (fun r => (period_start r, period_end r)) l =
                 map (fun p => (date_isoformat (fst p), date_isoformat (snd p))) ranges)
      by congruence.
    destruct (IH ranges Hl) as (ranges2 & P2 & M2).
    destruct (insert_report_ranges r p (fold_right insert_report [] l) ranges2 Hr M2)
      as (ranges3 & P3 & M3).
    exists ranges3. split; [|exact M3]. rewrite <- P3. apply perm_skip, P2.
Qed.

Lemma collect_nonempty : forall fuel da s e a l,
  collect_aggregates fuel da s e = Some (a :: l) -> date_le s e = true.
Proof.
  intros [|fuel] da s e a l H; simpl in H; [discriminate|].
  destruct (date_le s e); [reflexivity|discriminate].
Qed.


(** *** The loops of [generate_all_reports] *)

Section Window.

Variable fromisoformat : string -> option Z.
Variable isoformat : Z -> string.
Variable url_netloc : string -> string.
Variable ai_chat_sites : list string.
Variable strftime : date -> string -> string.
Variable load_aw_data_for_date_range : date -> date -> list (date * list (string * list Event)).

Lemma weekday_back_week : forall d d', toordinal d' = toordinal d + -7 -> weekday d' = weekday d.
Proof. intros d d' E. unfold weekday. rewrite E. Z.div_mod_to_equations. lia. Qed.

Lemma daily_loop_spec : forall fuel da current today out,
  valid_date current = true -> valid_date today = true ->
  daily_loop fromisoformat isoformat url_netloc ai_chat_sites strftime fuel da current today
    = Some out ->
  map (fun r => (period_start r, period_end r)) out =
  map (fun k => (date_isoformat (fromordinal (toordinal current + Z.of_nat k)),
                 date_isoformat (fromordinal (toordinal current + Z.of_nat k))))
      (seq 0 (Z.to_nat (toordinal today - toordinal current + 1))).
Proof.
  induction fuel as [|fuel IH]; intros da current today out Vc Vt H; cbn [daily_loop] in H;
    [discriminate|].
  rewrite date_le_ord in H by assumption. cbv zeta in H.
  destruct (Z.leb_spec (toordinal current) (toordinal today)) as [L|L].
  - unfold bind in H.
    match type of H with (match ?o with Some _ => _ | None => _ end) = _ =>
      destruct o as [agg|]; [|discriminate] end.
    destruct (add_days current 1) as [c'|] eqn:A; [|discriminate].
    destruct (daily_loop fromisoformat isoformat url_netloc ai_chat_sites strftime fuel da c' today)
      as [rest|] eqn:R; [|discriminate].
    injection H as <-.
    destruct (add_days_some _ _ _ A) as [Vc' Oc'].
    replace (Z.to_nat (toordinal today - toordinal current + 1))
      with (S (Z.to_nat (toordinal today - toordinal c' + 1))) by lia.
    cbn [seq map].
    destruct (period_of_report agg "daily" (strftime current "%Y-%m-%d")
                (date_isoformat current) (date_isoformat current)) as [P1 P2].
    rewrite P1, P2, (IH _ _ _ _ Vc' Vt R), <- seq_shift, map_map.
    rewrite Z.add_0_r, DateFacts.fromordinal_toordinal by assumption. f_equal.
    apply map_ext. intros k. rewrite Oc', Nat2Z.inj_succ.
    replace (toordinal current + 1 + Z.of_nat k) with (toordinal current + Z.succ (Z.of_nat k))
      by lia.
    reflexivity.
  - injection H as <-. replace (Z.to_nat (toordinal today - toordinal current + 1)) with 0%nat
      by lia. reflexivity.
Qed.

Lemma weekly_loop_inv : forall fuel da start today seen current wg acc out ranges,
  valid_date start = true -> valid_date today = true -> valid_date current = true ->
  weekly_loop strftime fuel da start today seen current wg acc = Some out ->
  map (fun r => (period_start r, period_end r)) acc =
    map (fun p => (date_isoformat (fst p), date_isoformat (snd p))) ranges ->
  (List.length ranges <= Z.to_nat wg)%nat -> 0 <= wg <= 5 ->
  Forall (fun p => valid_date (fst p) = true /\ valid_date (snd p) = true /\
     toordinal start <= toordinal (fst p) /\ toordinal (fst p) <= toordinal (snd p) /\
     toordinal (snd p) <= toordinal today /\
     toordinal (fst p) - weekday (fst p) = toordinal (snd p) - weekday (snd p)) ranges ->
  Forall (fun p => toordinal current - weekday current + 7 <= toordinal (fst p)) ranges ->
  ForallOrdPairs (fun p q => toordinal (snd p) < toordinal (fst q) \/
                             toordinal (snd q) < toordinal (fst p)) ranges ->
  exists ranges',
    map (fun r => (period_start r, period_end r)) out =
      map (fun p => (date_isoformat (fst p), date_isoformat (snd p))) ranges' /\
    (List.length ranges' <= 5)%nat /\
    Forall (fun p => valid_date (fst p) = true /\ valid_date (snd p) = true /\
       toordinal start <= toordinal (fst p) /\ toordinal (fst p) <= toordinal (snd p) /\
     toordinal (snd p) <= toordinal today /\
       toordinal (fst p) - weekday (fst p) = toordinal (snd p) - weekday (snd p)) ranges' /\
    ForallOrdPairs (fun p q => toordinal (snd p) < toordinal (fst q) \/
                               toordinal (snd q) < toordinal (fst p)) ranges'.
Proof.
  induction fuel as [|fuel IH];
    intros da start today seen current wg acc out ranges Vs Vt Vc H Hm Hlen Hwg Hin Hafter Hdis;
    cbn [weekly_loop] in H; [discriminate|].
  destruct ((wg <? 5) && date_le start current) eqn:C.
  2:{ injection H as <-. exists ranges. repeat split; auto. lia. }
  apply andb_true_iff in C as [C1 C2]. apply Z.ltb_lt in C1.
  rewrite date_le_ord in C2 by assumption. apply Z.leb_le in C2.
  unfold bind in H. destruct (get_week_bounds current) as [[ws we]|] eqn:W; [|discriminate].
  destruct (proj2 (DateFacts.get_week_bounds_facts current Vc) ws we W)
    as (Vws & Vwe & Wws & Wwe & Ows & Rng & Owe).
  assert (SW : forall x, toordinal current - weekday current <= toordinal x <=
                         toordinal current - weekday current + 6 ->
                         toordinal x - weekday x = toordinal current - weekday current).
  { intros x Hx. change (weekday ws = 0) with ((toordinal ws + 6) mod 7 = 0) in Wws.
    rewrite Ows in Wws. change (weekday x) with ((toordinal x + 6) mod 7).
    set (w := weekday current) in *. clearbody w. Z.div_mod_to_equations. lia. }
  destruct (existsb (String.eqb (date_isoformat ws)) seen).
  - cbv beta iota in H.
    destruct (add_days current (-7)) as [c'|] eqn:A; [|discriminate].
    destruct (add_days_some _ _ _ A) as [Vc' Oc']. pose proof (weekday_back_week _ _ Oc') as Wc'.
    apply (IH da start today seen c' wg acc out ranges Vs Vt Vc' H Hm Hlen Hwg Hin); [|exact Hdis].
    eapply Forall_impl; [|exact Hafter]. intros p Hp. cbv beta in *. lia.
  - cbv zeta in H.
    destruct (date_max_spec ws start Vws Vs) as [Ves Oes].
    destruct (date_min_spec we today Vwe Vt) as [Vee Oee].
    destruct (collect_aggregates (days_fuel (date_max ws start) (date_min we today)) da
                (date_max ws start) (date_min we today)) as [week_aggs|] eqn:CA; [|discriminate].
    cbv beta iota in H.
    destruct (add_days current (-7)) as [c'|] eqn:A; [|discriminate].
    destruct (add_days_some _ _ _ A) as [Vc' Oc']. pose proof (weekday_back_week _ _ Oc') as Wc'.
    destruct week_aggs as [|a l].
    + apply (IH da start today _ c' (wg + 1) acc out ranges Vs Vt Vc' H Hm); try lia;
        [exact Hin| |exact Hdis].
      eapply Forall_impl; [|exact Hafter]. intros p Hp. cbv beta in *. lia.
    + apply collect_nonempty in CA. rewrite date_le_ord in CA by assumption.
      apply Z.leb_le in CA.
      apply (IH da start today _ c' (wg + 1) _ out
               (ranges ++ [(date_max ws start, date_min we today)]) Vs Vt Vc' H).
      * rewrite !map_app, Hm. cbn [map fst snd].
        destruct (period_of_report (merge_aggregates (a :: l)) "weekly"
                    ("Week of " ++ strftime ws "%Y-%m-%d")
                    (date_isoformat (date_max ws start)) (date_isoformat (date_min we today)))
          as [P1 P2].
        rewrite P1, P2. reflexivity.
      * rewrite length_app. cbn [List.length]. lia.
      * lia.
      * apply Forall_app. split; [exact Hin|]. constructor; [|constructor]. cbn [fst snd].
        split; [exact Ves|]. split; [exact Vee|]. do 3 (split; [lia|]).
        rewrite (SW (date_max ws start)) by lia. rewrite (SW (date_min we today)) by lia.
        reflexivity.
      * apply Forall_app. split.
        -- eapply Forall_impl; [|exact Hafter]. intros p Hp. cbv beta in *. lia.
        -- constructor; [|constructor]. cbn [fst]. lia.
      * apply ForallOrdPairs_app_single; [exact Hdis|].
        eapply Forall_impl; [|exact Hafter]. intros p Hp. cbv beta in *. right. cbn [fst snd].
        lia.
Qed.


Lemma generate_all_reports_unfold : forall now tz today lookback_days out,
  generate_all_reports fromisoformat isoformat url_netloc ai_chat_sites strftime
    load_aw_data_for_date_range now tz today lookback_days = Some out ->
  exists start da daily weekly ms me month_aggs,
    add_days today (- (lookback_days - 1)) = Some start /\
    daily_loop fromisoformat isoformat url_netloc ai_chat_sites strftime
      (days_fuel start today) da start today = Some daily /\
    weekly_loop strftime (days_fuel start today) da start today [] today 0 [] = Some weekly /\
    get_month_bounds today = Some (ms, me) /\
    collect_aggregates (days_fuel (date_max ms start) (date_min me today)) da
      (date_max ms start) (date_min me today) = Some month_aggs /\
    daily_reports out = daily /\ weekly_reports out = sort_reports_by_start weekly /\
    monthly_reports out =
      match month_aggs with
      | [] => []
      | _ :: _ => [generate_report (merge_aggregates month_aggs) "monthly"
                     (strftime today "%Y-%m")
                     (date_isoformat (date_max ms start)) (date_isoformat (date_min me today))]
      end.
Proof.
  intros now tz today lookback_days out H. unfold generate_all_reports, bind in H.
  destruct (add_days today (- (lookback_days - 1))) as [start|]; [|discriminate].
  destruct (aggregate_days _ _ _ _ _) as [da|]; [|discriminate].
  destruct (daily_loop _ _ _ _ _ _ da start today) as [daily|] eqn:D; [|discriminate].
  destruct (weekly_loop _ _ da start today [] today 0 []) as [weekly|] eqn:Wk; [|discriminate].
  cbv zeta in H.
  destruct (get_month_bounds today) as [[ms me]|] eqn:MB; [|discriminate].
  destruct (collect_aggregates _ da (date_max ms start) (date_min me today))
    as [month_aggs|] eqn:CA; [|discriminate].
  injection H as <-.
  exists start, da, daily, weekly, ms, me, month_aggs. repeat split; auto.
Qed.

(** [generate_all_reports] makes one daily report per day of the lookback
    window, from [lookback_days - 1] days before today to today, in order:
    the i-th report's period starts and ends on the i-th day of the window.
    With [lookback_days <= 0] there is none. *)
Theorem generate_all_reports_daily : forall now tz today lookback_days out,
  valid_date today = true ->
  generate_all_reports fromisoformat isoformat url_netloc ai_chat_sites strftime
    load_aw_data_for_date_range now tz today lookback_days = Some out ->
  map (fun r => (period_start r, period_end r)) (daily_reports out) =
  map (fun k => let d := fromordinal (toordinal today - lookback_days + 1 + Z.of_nat k) in
                (date_isoformat d, date_isoformat d))
      (seq 0 (Z.to_nat lookback_days)).
Proof.
  intros now tz today lookback_days out Vt H.
  destruct (generate_all_reports_unfold _ _ _ _ _ H)
    as (start & da & daily & weekly & ms & me & month_aggs & S & D & _ & _ & _ & Od & _).
  destruct (add_days_some _ _ _ S) as [Vs Os].
  rewrite Od, (daily_loop_spec _ _ _ _ _ Vs Vt D).
  replace (toordinal today - toordinal start + 1) with lookback_days by lia.
  apply map_ext. intros k. cbv zeta. rewrite Os.
  replace (toordinal today + - (lookback_days - 1) + Z.of_nat k)
    with (toordinal today - lookback_days + 1 + Z.of_nat k) by lia.
  reflexivity.
Qed.

(** [generate_all_reports] makes at most five weekly reports.  Each covers
    days of the lookback window within a single Monday-to-Sunday week, and
    no two share a day. *)
Theorem generate_all_reports_weekly : forall now tz today lookback_days out,
  valid_date today = true ->
  generate_all_reports fromisoformat isoformat url_netloc ai_chat_sites strftime
    load_aw_data_for_date_range now tz today lookback_days = Some out ->
  exists ranges : list (date * date),
    map (fun r => (period_start r, period_end r)) (weekly_reports out) =
      map (fun p => (date_isoformat (fst p), date_isoformat (snd p))) ranges /\
    (List.length ranges <= 5)%nat /\
    Forall (fun p => valid_date (fst p) = true /\ valid_date (snd p) = true /\
       toordinal today - lookback_days + 1 <= toordinal (fst p) /\
       toordinal (fst p) <= toordinal (snd p) /\ toordinal (snd p) <= toordinal today /\
       toordinal (fst p) - weekday (fst p) = toordinal (snd p) - weekday (snd p)) ranges /\
    ForallOrdPairs (fun p q => toordinal (snd p) < toordinal (fst q) \/
                               toordinal (snd q) < toordinal (fst p)) ranges.
Proof.
  intros now tz today lookback_days out Vt H.
  destruct (generate_all_reports_unfold _ _ _ _ _ H)
    as (start & da & daily & weekly & ms & me & month_aggs & S & _ & Wk & _ & _ & _ & Ow & _).
  destruct (add_days_some _ _ _ S) as [Vs Os].
  destruct (weekly_loop_inv _ _ _ _ _ _ _ _ _ [] Vs Vt Vt Wk eq_refl ltac:(cbn; lia)
              ltac:(lia) (Forall_nil _) (Forall_nil _) (FOP_nil _))
    as (ranges & Hm & Hlen & Hin & Hdis).
  destruct (sort_reports_ranges weekly ranges Hm) as (ranges' & Hp & Hm').
  exists ranges'. rewrite Ow. split; [exact Hm'|]. split.
  - rewrite <- (Permutation_length Hp). exact Hlen.
  - split.
    + apply (Forall_perm _ _ _ Hp). eapply Forall_impl; [|exact Hin].
      intros p (V1 & V2 & A1 & A2 & A3 & A4). rewrite Os in A1.
      repeat split; auto; lia.
    + apply (ForallOrdPairs_perm _ (fun x y Hxy => proj1 (or_comm _ _) Hxy) _ _ Hp Hdis).
Qed.

(** [generate_all_reports] makes at most one monthly report; it runs from
    the later of the first day of today's month and the first day of the
    lookback window, to today. *)
Theorem generate_all_reports_monthly : forall now tz today lookback_days out,
  valid_date today = true ->
  generate_all_reports fromisoformat isoformat url_netloc ai_chat_sites strftime
    load_aw_data_for_date_range now tz today lookback_days = Some out ->
  monthly_reports out = [] \/
  exists r s, monthly_reports out = [r] /\
    period_start r = date_isoformat s /\ period_end r = date_isoformat today /\
    valid_date s = true /\
    toordinal s = Z.max (toordinal (mkDate (year today) (month today) 1))
                        (toordinal today - lookback_days + 1) /\
    toordinal s <= toordinal today.
Proof.
  intros now tz today lookback_days out Vt H.
  destruct (generate_all_reports_unfold _ _ _ _ _ H)
    as (start & da & daily & weekly & ms & me & month_aggs & S & _ & _ & MB & CA & _ & _ & Om).
  destruct (add_days_some _ _ _ S) as [Vs Os].
  pose proof Vt as Vt'. apply DateFacts.valid_date_iff in Vt' as (Hy & Hm & Hd).
  rewrite (DateFacts.get_month_bounds_facts today Vt) in MB.
  destruct ((year today =? MAXYEAR) && (month today =? 12)); [discriminate|].
  injection MB as <- <-.
  assert (Vms : valid_date (mkDate (year today) (month today) 1) = true)
    by (apply DateFacts.valid_date_iff; cbn [year month day]; lia).
  assert (Vme : valid_date (mkDate (year today) (month today)
                              (days_in_month (year today) (month today))) = true)
    by (apply DateFacts.valid_date_iff; cbn [year month day]; lia).
  assert (Le : toordinal today <= toordinal (mkDate (year today) (month today)
                                     (days_in_month (year today) (month today)))).
  { destruct today as [y m d]. unfold toordinal, ymd2ord; cbn [year month day] in *. lia. }
  destruct (date_min_spec _ today Vme Vt) as [Vee Oee].
  assert (Ee : date_min (mkDate (year today) (month today)
                           (days_in_month (year today) (month today))) today = today)
    by (apply toordinal_inj; auto; lia).
  rewrite Ee in CA, Om.
  destruct (date_max_spec _ start Vms Vs) as [Ves Oes].
  destruct month_aggs as [|a l]; [left; exact Om|right].
  apply collect_nonempty in CA. rewrite date_le_ord in CA by assumption. apply Z.leb_le in CA.
  eexists. exists (date_max (mkDate (year today) (month today) 1) start).
  split; [exact Om|].
  destruct (period_of_report (merge_aggregates (a :: l)) "monthly" (strftime today "%Y-%m")
              (date_isoformat (date_max (mkDate (year today) (month today) 1) start))
              (date_isoformat today)) as [P1 P2].
  split; [exact P1|]. split; [exact P2|]. split; [exact Ves|]. split; [|exact CA].
  rewrite Oes, Os. f_equal. lia.
Qed.

End Window.

End ReportsFacts.

(** ** Runs of the model on concrete inputs *)
Module Runs.
Import AW Measure Samples.
Local Open Scope string_scope.
Local Open Scope Z_scope.

Example nine_utc_parse :
  parse_timestamp Concrete.fromisoformat "2024-05-01T09:00:00Z" = Some nine_utc.
Proof. vm_compute. reflexivity. Qed.

(** C8 as first stated fails: the same hour-long window event reported twice
    for a host whose Active Period Set is that one hour is kept twice, 7200
    seconds against 3600. *)
Lemma filter_events_by_afk_host_total_cex :
  ~ (forall (m : period_map) events out host periods,
       lookup host m = Some periods -> periods <> [] ->
       filter_events_by_afk Concrete.fromisoformat Concrete.isoformat events m = Some out ->
       sum_durations (events_of_host host out) <= period_total periods).
Proof.
  intros H.
  pose (e := laptop_window "2024-05-01T09:00:00Z" (3600 * SEC)).
  pose (periods := [(nine_utc, nine_utc + 3600 * SEC)]).
  specialize (H [("laptop", periods)] [e; e]
                [with_timestamp_duration e (Concrete.isoformat nine_utc) (3600 * SEC);
                 with_timestamp_duration e (Concrete.isoformat nine_utc) (3600 * SEC)]
                "laptop" periods eq_refl ltac:(discriminate)).
  assert (Hrun : filter_events_by_afk Concrete.fromisoformat Concrete.isoformat [e; e]
                   [("laptop", periods)] =
                 Some [with_timestamp_duration e (Concrete.isoformat nine_utc) (3600 * SEC);
                       with_timestamp_duration e (Concrete.isoformat nine_utc) (3600 * SEC)]).
  { vm_compute. reflexivity. }
  specialize (H Hrun). vm_compute in H. apply H. reflexivity.
Qed.

(** C7 as first stated fails: a 7200-second window event starting at
    23:00:00 sharp (15:00 UTC, UTC+8) is cut into fragments of the hours 23
    and 0 only; no fragment goes to hour 1. *)
Lemma hour_fragments_hour_23_cex :
  ~ (forall e dt,
       ev_timestamp e <> "" ->
       parse_timestamp Concrete.fromisoformat (ev_timestamp e) = Some dt ->
       local_hour Concrete.utc_offset dt = 23 ->
       ev_duration e = 7200 * SEC ->
       exists frags, hour_fragments Concrete.fromisoformat Concrete.utc_offset e = Some frags /\
         (forall h, In h (map fst frags) <-> In h [23; 0; 1])).
Proof.
  intros H.
  pose (e := laptop_window "2024-05-01T15:00:00Z" (7200 * SEC)).
  destruct (H e (1714575600 * SEC) ltac:(discriminate) ltac:(vm_compute; reflexivity)
              ltac:(vm_compute; reflexivity) eq_refl) as [frags [Hf Hin]].
  assert (Hrun : hour_fragments Concrete.fromisoformat Concrete.utc_offset e =
                 Some [(23, with_duration e (3600 * SEC)); (0, with_duration e (3600 * SEC))]).
  { vm_compute. reflexivity. }
  rewrite Hrun in Hf. injection Hf as <-.
  destruct (proj2 (Hin 1) ltac:(simpl; tauto)) as [H1 | [H1 | []]]; discriminate.
Qed.

Example short_day_runs :
  aggregate_day_data Concrete.fromisoformat Concrete.isoformat Concrete.url_netloc AI_CHAT_SITES
    (short_day "2024-05-01T09:00:00+08:00") = Some short_day_aggregate /\
  aggregate_day_data Concrete.fromisoformat Concrete.isoformat Concrete.url_netloc AI_CHAT_SITES
    (short_day "2024-05-02T09:00:00+08:00") = Some short_day_aggregate.
Proof. split; vm_compute; reflexivity. Qed.

(** C5 as first stated fails: two days of 0.04 seconds of activity each (the
    Aggregates [aggregate_day_data] makes of [short_day], above) give daily
    Reports of 0.0 seconds each, while the Report of their merge shows 0.1
    seconds (0.08 rounded). *)
Lemma merge_aggregates_report_totals_cex :
  ~ (forall aggregates pt pl sd ed,
       summary_seconds (generate_report (merge_aggregates aggregates) pt pl sd ed) =
       fold_right add4 (0, 0, 0, 0)
         (map (fun a => summary_seconds (generate_report a pt pl sd ed)) aggregates)).
Proof.
  intros H.
  specialize (H [short_day_aggregate; short_day_aggregate] "week" "2024-W18" "2024-05-01" "2024-05-02").
  vm_compute in H. discriminate H.
Qed.

End Runs.

(** ** Instances of the theorems on concrete inputs *)
Module Witnesses.
Import AW Measure Samples.
Local Open Scope string_scope.
Local Open Scope Z_scope.

Lemma merge_intervals_spec_witness :
  StronglySorted start_le (merge_intervals sample_intervals) /\
  StronglySorted disjoint (merge_intervals sample_intervals) /\
  StronglySorted separated (merge_intervals sample_intervals) /\
  (forall t, covered (merge_intervals sample_intervals) t <-> covered sample_intervals t) /\
  merge_intervals (merge_intervals sample_intervals) = merge_intervals sample_intervals.
Proof.
  apply IntervalFacts.merge_intervals_spec.
  unfold sample_intervals.
  repeat (apply Forall_cons; [unfold well_formed; simpl; lia|]). apply Forall_nil.
Defined.

Lemma filter_events_by_afk_spec_witness :
  filter_loop Concrete.fromisoformat Concrete.isoformat one_hour_map
    [laptop_window "2024-05-01T08:59:50Z" (20 * SEC)] =
    Some ([with_timestamp_duration (laptop_window "2024-05-01T08:59:50Z" (20 * SEC))
             (Concrete.isoformat nine_utc) (10 * SEC)] ++ [])%list /\
  filter_event Concrete.fromisoformat Concrete.isoformat one_hour_map
    (mkEvent "aw-watcher-window" "2024-05-01T09:10:00Z" (60 * SEC) (Some "code") None None None) =
    Some [mkEvent "aw-watcher-window" "2024-05-01T09:10:00Z" (60 * SEC) (Some "code") None None None] /\
  filter_event Concrete.fromisoformat Concrete.isoformat one_hour_map
    (mkEvent "aw-watcher-window_desktop" "2024-05-01T09:10:00Z" (60 * SEC) (Some "code") None None None) =
    Some [mkEvent "aw-watcher-window_desktop" "2024-05-01T09:10:00Z" (60 * SEC) (Some "code") None None None] /\
  filter_event Concrete.fromisoformat Concrete.isoformat [("laptop", [])]
    (laptop_window "2024-05-01T09:10:00Z" (60 * SEC)) = Some [] /\
  filter_event Concrete.fromisoformat Concrete.isoformat one_hour_map
    (laptop_window "2024-05-01T08:59:50Z" (20 * SEC)) =
    Some [with_timestamp_duration (laptop_window "2024-05-01T08:59:50Z" (20 * SEC))
            (Concrete.isoformat nine_utc) (10 * SEC)] /\
  filter_events_by_afk Concrete.fromisoformat Concrete.isoformat
    [laptop_window "2024-05-01T08:59:50Z" (20 * SEC)] [("laptop", [(nine_utc, nine_utc + 3600 * SEC)])] =
    Some [with_timestamp_duration (laptop_window "2024-05-01T08:59:50Z" (20 * SEC))
            (Concrete.isoformat nine_utc) (10 * SEC)].
Proof.
  destruct (AfkFacts.filter_events_by_afk_spec Concrete.fromisoformat Concrete.isoformat)
    as (_ & H2 & H3 & H4 & H5 & H6 & H7).
  split; [|split; [|split; [|split; [|split]]]].
  - apply H2; vm_compute; reflexivity.
  - apply H3; vm_compute; reflexivity.
  - apply (H4 _ _ "desktop"); vm_compute; reflexivity.
  - apply (H5 _ _ "laptop"); vm_compute; reflexivity.
  - rewrite (H6 one_hour_map _ "laptop" [(nine_utc, nine_utc + 3600 * SEC)] (nine_utc - 10 * SEC));
      [| vm_compute; reflexivity | vm_compute; reflexivity | discriminate | discriminate
       | vm_compute; reflexivity].
    vm_compute. reflexivity.
  - apply (H7 _ "laptop"); [vm_compute; reflexivity | discriminate | vm_compute; reflexivity
                          | reflexivity].
Defined.

Lemma filter_events_by_afk_host_total_witness :
  sum_durations (events_of_host "laptop"
    [with_timestamp_duration (laptop_window "2024-05-01T08:59:50Z" (20 * SEC))
       (Concrete.isoformat nine_utc) (10 * SEC);
     with_timestamp_duration (laptop_window "2024-05-01T09:30:00Z" (600 * SEC))
       (Concrete.isoformat (nine_utc + 1800 * SEC)) (600 * SEC)]) <=
  period_total [(nine_utc, nine_utc + 3600 * SEC)].
Proof.
  apply (AfkTotals.filter_events_by_afk_host_total Concrete.fromisoformat Concrete.isoformat
           one_hour_map
           [laptop_window "2024-05-01T08:59:50Z" (20 * SEC);
            laptop_window "2024-05-01T09:30:00Z" (600 * SEC)]).
  - vm_compute. reflexivity.
  - reflexivity.
  - repeat (apply Forall_cons; [unfold well_formed, nine_utc, SEC; simpl; lia|]).
    apply Forall_nil.
  - match goal with
    | |- ForallOrdPairs _ ?l => let v := eval vm_compute in l in change l with v
    end.
    repeat constructor; unfold spans_disjoint;
      repeat match goal with
             | |- context [event_span ?f ?e] =>
                 let v := eval vm_compute in (event_span f e) in change (event_span f e) with v
             end;
      cbv beta iota; unfold disjoint, covers; simpl; intros t [[? ?] [? ?]]; lia.
Defined.

Lemma hour_fragments_sum_witness :
  (exists frags,
     hour_fragments Concrete.fromisoformat Concrete.utc_offset
       (laptop_window "2024-05-01T08:30:00Z" (7200 * SEC)) = Some frags /\
     fragments_total frags = 7200 * SEC /\
     hourly_total (bucket_events_by_hour Concrete.fromisoformat Concrete.utc_offset
                     [laptop_window "2024-05-01T08:30:00Z" (7200 * SEC)]) = 7200 * SEC) /\
  bucket_events_by_hour Concrete.fromisoformat Concrete.utc_offset
    [laptop_window "2024-05-01T08:30:00Z" 0] =
  [(local_hour Concrete.utc_offset (1714552200 * SEC), [laptop_window "2024-05-01T08:30:00Z" 0])].
Proof.
  split.
  - apply (HourFacts.hour_fragments_sum Concrete.fromisoformat Concrete.utc_offset
             (laptop_window "2024-05-01T08:30:00Z" (7200 * SEC)) (1714552200 * SEC));
      [discriminate | vm_compute; reflexivity | reflexivity].
  - apply (HourFacts.hour_fragments_sum Concrete.fromisoformat Concrete.utc_offset
             (laptop_window "2024-05-01T08:30:00Z" 0) (1714552200 * SEC));
      [discriminate | vm_compute; reflexivity | simpl; lia].
Defined.

Lemma hour_fragments_hour_23_witness :
  exists frags,
    hour_fragments Concrete.fromisoformat Concrete.utc_offset
      (laptop_window "2024-05-01T15:20:00Z" (7200 * SEC)) = Some frags /\
    map fst frags =
      (if seconds_into_hour Concrete.utc_offset (1714576800 * SEC) =? 0
       then [23; 0] else [23; 0; 1]).
Proof.
  apply HourFacts.hour_fragments_hour_23;
    [discriminate | vm_compute; reflexivity | vm_compute; reflexivity | reflexivity].
Defined.

Lemma aggregate_sum_invariant_witness :
  sum_invariant short_day_aggregate /\
  sum_invariant (merge_aggregates [short_day_aggregate; short_day_aggregate]).
Proof.
  destruct AggFacts.aggregate_sum_invariant as [H1 H2]. split.
  - apply (H1 Concrete.fromisoformat Concrete.isoformat Concrete.url_netloc AI_CHAT_SITES
             (short_day "2024-05-01T09:00:00+08:00")).
    vm_compute. reflexivity.
  - apply H2. repeat constructor.
Defined.

Lemma web_step_chatgpt_witness :
  web_step Concrete.url_netloc AI_CHAT_SITES (mkAcc [] [] [] [])
    (laptop_tab "https://chat.openai.com/c/1" (300 * SEC)) =
  mkAcc [] [("ChatGPT", 300 * SEC)] [("ChatGPT", 300 * SEC)] [].
Proof.
  apply (AiChatFacts.web_step_chatgpt Concrete.url_netloc AI_CHAT_SITES (mkAcc [] [] [] [])
           (laptop_tab "https://chat.openai.com/c/1" (300 * SEC)));
    [apply Permutation_refl | vm_compute; reflexivity | reflexivity].
Defined.

Lemma filter_events_by_afk_missing_timestamp_witness :
  filter_events_by_afk Concrete.fromisoformat Concrete.isoformat
    [laptop_window "2024-05-01T09:10:00Z" (60 * SEC); laptop_window "" (60 * SEC)] one_hour_map =
  filter_events_by_afk Concrete.fromisoformat Concrete.isoformat
    [laptop_window "2024-05-01T09:10:00Z" (60 * SEC)] one_hour_map /\
  filter_events_by_afk Concrete.fromisoformat Concrete.isoformat [laptop_window "" (60 * SEC)] [] =
  Some [laptop_window "" (60 * SEC)].
Proof.
  destruct (AfkFacts.filter_events_by_afk_missing_timestamp Concrete.fromisoformat
              Concrete.isoformat) as [H1 H2].
  split; [|apply H2].
  apply (H1 one_hour_map (laptop_window "" (60 * SEC)) "laptop"
           [(nine_utc, nine_utc + 3600 * SEC)]
           [laptop_window "2024-05-01T09:10:00Z" (60 * SEC)] []);
    [vm_compute; reflexivity | reflexivity | discriminate | reflexivity].
Defined.


End Witnesses.

Module ExtraWitnesses.
Import AW Sync SyncMeasure SyncSamples.
Local Open Scope string_scope.
Local Open Scope Z_scope.

Lemma compute_hourly_stats_hours_witness :
  sample_hourly_stats = Some sample_hourly_list /\
  StronglySorted Z.lt (map fst sample_hourly_list) /\
  Forall hour_range (map fst sample_hourly_list).
Proof.
  assert (E : sample_hourly_stats = Some sample_hourly_list) by (vm_compute; reflexivity).
  split; [exact E|]. exact (SyncFacts.compute_hourly_stats_hours _ _ _ _ _ _ _ E).
Defined.

Lemma compute_daily_summary_totals_witness :
  sample_hourly_stats = Some sample_hourly_list /\
  (let summary := compute_daily_summary sample_hourly_list in
   sum_values (ds_ai_chats summary) = total_ai_chat_time summary /\
   sum_values (ds_coding_tools summary) = total_coding_tools_time summary /\
   sum_values (ds_planning_tools summary) = total_planning_time summary /\
   0 <= total_ai_chat_time summary <= total_planning_time summary).
Proof.
  assert (E : sample_hourly_stats = Some sample_hourly_list) by (vm_compute; reflexivity).
  split; [exact E|]. exact (SyncFacts.compute_daily_summary_totals _ _ _ _ _ _ _ E).
Defined.

Lemma hourly_updates_spec_witness :
  NoDup (map fst sample_hourly_list) /\
  (In ("17:00", "Deep Work") (hourly_updates (fun _ => None) sample_hourly_list) <->
   exists hour stats, In (hour, stats) sample_hourly_list /\
     get_hour_property_name hour = "17:00" /\
     ((fun _ : string => @None string) "17:00" = None \/
      (fun _ : string => @None string) "17:00" = Some "") /\
     determine_hourly_select_value stats = Some "Deep Work").
Proof.
  assert (N : NoDup (map fst sample_hourly_list))
    by (vm_compute; repeat constructor; intros []).
  split; [exact N|]. exact (SyncFacts.hourly_updates_spec _ _ _ _ N).
Defined.

Lemma get_hour_property_name_injective_witness :
  get_hour_property_name 7 = "07:00" /\ 7 = 7.
Proof.
  split; [reflexivity|].
  apply (SyncFacts.get_hour_property_name_injective 7 7). reflexivity.
Defined.

Lemma format_tools_with_total_dash_witness :
  round_div (600 * SEC) (60 * SEC) <> 0 /\
  exists rest, format_tools_with_total [("nvim", 600 * SEC)] (600 * SEC) 3 =
               ("[" ++ str_int (round_div (600 * SEC) (60 * SEC)) ++ "m]" ++ rest).
Proof.
  assert (H : round_div (600 * SEC) (60 * SEC) <> 0) by (vm_compute; discriminate).
  split; [exact H|]. exact (proj2 (SyncFacts.format_tools_with_total_dash _ _ _) H).
Defined.

Lemma calculate_proportions_spec_witness :
  sum_values [("code", 3 * SEC); ("chat", SEC)] <> 0 /\
  Permutation (map item_name (calculate_proportions [("code", 3 * SEC); ("chat", SEC)]))
              (map fst [("code", 3 * SEC); ("chat", SEC)]).
Proof.
  assert (H : sum_values [("code", 3 * SEC); ("chat", SEC)] <> 0) by (vm_compute; discriminate).
  split; [exact H|]. exact (proj1 (proj2 (ReportFacts.calculate_proportions_spec _)) H).
Defined.

Lemma generate_report_ratios_witness :
  let aggregate := mkAggregate [] [] [] [] (mkTotals (2 * SEC) SEC 0 (3 * SEC)) in
  0 < dev_time (totals aggregate) + planning_time (totals aggregate) /\
  999 <= ratio_dev (summary (generate_report aggregate "daily" "2024-05-01" "2024-05-01" "2024-05-01"))
         + ratio_planning (summary (generate_report aggregate "daily" "2024-05-01" "2024-05-01" "2024-05-01"))
       <= 1001.
Proof.
  intros aggregate.
  assert (H : 0 < dev_time (totals aggregate) + planning_time (totals aggregate))
    by (vm_compute; reflexivity).
  split; [exact H|].
  exact (proj1 (proj2 (ReportFacts.generate_report_ratios aggregate "daily" "2024-05-01"
                         "2024-05-01" "2024-05-01")) H).
Defined.

Lemma format_hour_label_injective_witness :
  format_hour_label 23 = Some "11pm-12am" /\ 23 = 23.
Proof.
  split; [reflexivity|].
  apply (HourLabelFacts.format_hour_label_injective 23 23 "11pm-12am"); reflexivity.
Defined.

End ExtraWitnesses.

Module DateWitnesses.
Import Dates.

Lemma get_month_bounds_spec_witness :
  valid_date (mkDate 2024 2 10) = true /\
  get_month_bounds (mkDate 2024 2 10) = Some (mkDate 2024 2 1, mkDate 2024 2 29).
Proof.
  split; [reflexivity|].
  rewrite (DateFacts.get_month_bounds_spec (mkDate 2024 2 10) ltac:(reflexivity)).
  reflexivity.
Defined.

Lemma get_week_bounds_spec_witness :
  valid_date (mkDate 9999 12 28) = true /\ get_week_bounds (mkDate 9999 12 28) = None.
Proof.
  split; [reflexivity|].
  destruct (DateFacts.get_week_bounds_spec (mkDate 9999 12 28) ltac:(reflexivity)) as [H _].
  apply H. cbn [year month day]. unfold MAXYEAR. lia.
Defined.

End DateWitnesses.

Module ReportWitnesses.
Import AW Dates Reports ReportSamples.

Lemma generate_all_reports_daily_witness :
  valid_date sample_today = true /\ sample_reports = Some sample_out /\
  map (fun r => (period_start r, period_end r)) (daily_reports sample_out) =
  map (fun k => let d := fromordinal (toordinal sample_today - 10 + 1 + Z.of_nat k) in
                (date_isoformat d, date_isoformat d)) (seq 0 (Z.to_nat 10)).
Proof.
  split; [reflexivity|]. split; [vm_compute; reflexivity|].
  apply (ReportsFacts.generate_all_reports_daily Concrete.fromisoformat Concrete.isoformat
           Concrete.url_netloc AI_CHAT_SITES (fun _ _ => ""%string) sample_load
           "2024-05-15T18:00:00+08:00"%string "Asia/Singapore"%string sample_today 10 sample_out);
    [reflexivity|vm_compute; reflexivity].
Defined.

Lemma generate_all_reports_weekly_witness :
  valid_date sample_today = true /\ sample_reports = Some sample_out /\
  exists ranges : list (date * date),
    map (fun r => (period_start r, period_end r)) (weekly_reports sample_out) =
      map (fun p => (date_isoformat (fst p), date_isoformat (snd p))) ranges /\
    (List.length ranges <= 5)%nat /\
    Forall (fun p => valid_date (fst p) = true /\ valid_date (snd p) = true /\
       toordinal sample_today - 10 + 1 <= toordinal (fst p) /\
       toordinal (fst p) <= toordinal (snd p) /\ toordinal (snd p) <= toordinal sample_today /\
       toordinal (fst p) - weekday (fst p) = toordinal (snd p) - weekday (snd p)) ranges /\
    ForallOrdPairs (fun p q => toordinal (snd p) < toordinal (fst q) \/
                               toordinal (snd q) < toordinal (fst p)) ranges.
Proof.
  split; [reflexivity|]. split; [vm_compute; reflexivity|].
  apply (ReportsFacts.generate_all_reports_weekly Concrete.fromisoformat Concrete.isoformat
           Concrete.url_netloc AI_CHAT_SITES (fun _ _ => ""%string) sample_load
           "2024-05-15T18:00:00+08:00"%string "Asia/Singapore"%string sample_today 10 sample_out);
    [reflexivity|vm_compute; reflexivity].
Defined.

Lemma generate_all_reports_monthly_witness :
  valid_date sample_today = true /\ sample_reports = Some sample_out /\
  (monthly_reports sample_out = [] \/
   exists r s, monthly_reports sample_out = [r] /\
     period_start r = date_isoformat s /\ period_end r = date_isoformat sample_today /\
     valid_date s = true /\
     toordinal s = Z.max (toordinal (mkDate (year sample_today) (month sample_today) 1))
                         (toordinal sample_today - 10 + 1) /\
     toordinal s <= toordinal sample_today).
Proof.
  split; [reflexivity|]. split; [vm_compute; reflexivity|].
  apply (ReportsFacts.generate_all_reports_monthly Concrete.fromisoformat Concrete.isoformat
           Concrete.url_netloc AI_CHAT_SITES (fun _ _ => ""%string) sample_load
           "2024-05-15T18:00:00+08:00"%string "Asia/Singapore"%string sample_today 10 sample_out);
    [reflexivity|vm_compute; reflexivity].
Defined.

End ReportWitnesses.
